(** * egismoc: frame codec, command builders, registry and task machines

    A shallow embedding of [libfprint/drivers/egismoc/egismoc.c], the driver
    for the Egis Technology match-on-chip fingerprint sensors.

    Conventions of the embedding:
    - a [guchar] is a [byte]; [b2z] reads it as an unsigned number and
      [z2b] is the conversion of a C integer to [guchar] (reduction modulo
      256);
    - a buffer is a [list byte]; [g_malloc0 n] is [repeat x00 n], and
      [memset]/[memcpy] into an allocated buffer are [memset_at] and
      [memcpy_at];
    - [unsigned short] and [unsigned long] are [Z] with their wrap-around
      written out (16 and 64 bits: the driver is built for LP64 Linux), and
      the host is little-endian, which is what the byte split of
      [check_short] in [egismoc_get_check_bytes] relies on. *)

From Stdlib Require Import Strings.String.
From Stdlib Require Import ZArith List Lia Bool Arith.
From Stdlib Require Import Strings.Byte.
Import ListNotations.

Open Scope Z_scope.

(** ** Bytes *)

Definition b2z (b : byte) : Z := Z.of_N (Byte.to_N b).

Definition z2b (z : Z) : byte :=
  match Byte.of_N (Z.to_N (z mod 256)) with
  | Some b => b
  | None => x00
  end.

Fixpoint bytes_eqb (a b : list byte) : bool :=
  match a, b with
  | [], [] => true
  | x :: a', y :: b' => Byte.eqb x y && bytes_eqb a' b'
  | _, _ => false
  end.

(** ** Buffers *)

(** [buffer[i]]; positions outside the list read as zero (the driver never
    allocates less than it reads in the cases studied below, and where it
    reads past the received length the position is still inside the
    transfer buffer). *)
Definition buf_get (buffer : list byte) (i : nat) : byte := nth i buffer x00.

(** The [n] bytes of [buffer] that start at [off]. *)
Definition buf_slice (buffer : list byte) (off n : nat) : list byte :=
  map (fun i => buf_get buffer (off + i)) (seq 0 n).

(** [memcpy (dst + pos, src, n)] inside an allocated [dst]: exactly [n]
    bytes are read from [src] and replace those of [dst] from [pos] on. *)
Definition memcpy_at (dst : list byte) (pos : nat) (src : list byte) (n : nat)
  : list byte :=
  firstn pos dst ++ buf_slice src 0 n ++ skipn (pos + n) dst.

(** [memset (dst + pos, c, sizeof (guchar))]: [c] is converted to
    [unsigned char]. *)
Definition memset_at (dst : list byte) (pos : nat) (c : Z) : list byte :=
  memcpy_at dst pos [z2b c] 1.

(** [memcmp (buffer + off, marker, marker_len) == 0]. *)
Definition memcmp_at (buffer : list byte) (off : nat) (marker : list byte) : bool :=
  bytes_eqb (buf_slice buffer off (length marker)) marker.

(** ** Constants of [egismoc.h] *)

(** Modelled from the spec: [egismoc_write_prefix] of [egismoc.h], which is
    not part of the sources at hand; the outbound wire frame table gives it
    as 'E' 'G' 'I' 'S' 00 00 00 01. *)
Definition egismoc_write_prefix : list byte :=
  [x45; x47; x49; x53; x00; x00; x00; x01].

Definition egismoc_write_prefix_len : nat := length egismoc_write_prefix.

(** Modelled from the spec: the length of the 6-byte read prefix the device
    puts in front of every reply ([egismoc_read_prefix_len] of [egismoc.h]). *)
Definition egismoc_read_prefix_len : nat := 6.

(** Modelled from the spec: [EGISMOC_CHECK_BYTES_LENGTH], the 2 check bytes. *)
Definition EGISMOC_CHECK_BYTES_LENGTH : nat := 2.

(** Modelled from the spec: [EGISMOC_FINGERPRINT_DATA_SIZE], a PrintId is 32
    bytes. *)
Definition EGISMOC_FINGERPRINT_DATA_SIZE : nat := 32.

(** Modelled from the spec: [EGISMOC_CMD_CHECK_SEPARATOR_LENGTH], the 32
    zero bytes of the sentinel slot. *)
Definition EGISMOC_CMD_CHECK_SEPARATOR_LENGTH : nat := 32.

(** Modelled from the spec: [EGISMOC_MAX_ENROLL_NUM], the maximum number of
    enrolled prints (10). *)
Definition EGISMOC_MAX_ENROLL_NUM : Z := 10.

(** Modelled from the spec: [EGISMOC_IDENTIFY_RESPONSE_PRINT_ID_OFFSET]. *)
Definition EGISMOC_IDENTIFY_RESPONSE_PRINT_ID_OFFSET : nat := 46.

Definition INT_MAX : Z := 2147483647.
Definition USHRT_MOD : Z := 2 ^ 16.
Definition ULONG_MOD : Z := 2 ^ 64.

(** ** Frame codec *)

(** The first loop of [egismoc_get_check_bytes]: the buffer read as 16-bit
    words, low byte at the even offset, the last word completed with a zero
    high byte when the length is odd. *)
Fixpoint value_bigendian_shorts (value : list byte) : list Z :=
  match value with
  | [] => []
  | [lo] => (Z.lor (Z.shiftl 0 8) (Z.land 255 (b2z lo))) mod USHRT_MOD :: []
  | lo :: hi :: rest =>
      (Z.lor (Z.shiftl (b2z hi) 8) (Z.land 255 (b2z lo))) mod USHRT_MOD
        :: value_bigendian_shorts rest
  end.

(** The second loop: [sum_shorts += value_bigendian_shorts[i]] in an
    [unsigned long]. *)
Definition sum_shorts (shorts : list Z) : Z :=
  fold_left (fun acc w => (acc + w) mod ULONG_MOD) shorts 0.

(** [check_short = 0xffff - (sum_shorts % 0xffff)], stored in an
    [unsigned short]. *)
Definition check_short (value : list byte) : Z :=
  (65535 - (sum_shorts (value_bigendian_shorts value)) mod 65535) mod USHRT_MOD.

(** [check_short_split = (guchar * ) &check_short] on a little-endian host. *)
Definition check_short_split (cs : Z) : list byte :=
  [z2b cs; z2b (Z.shiftr cs 8)].

Definition egismoc_get_check_bytes (value : list byte) (check_bytes_length : nat)
  : list byte :=
  let split := check_short_split (check_short value) in
  fold_left (fun check_bytes i => memcpy_at check_bytes i [buf_get split i] 1)
            (seq 0 check_bytes_length)
            (repeat x00 check_bytes_length).

(** [egismoc_compose_cmd]: E G I S 00 00 00 01 {cb1} {cb2} {payload}. *)
Definition egismoc_compose_cmd (cmd : list byte) : list byte :=
  let cmd_length := length cmd in
  let total_length :=
    (egismoc_write_prefix_len + EGISMOC_CHECK_BYTES_LENGTH + cmd_length)%nat in
  let result := repeat x00 total_length in
  let result := memcpy_at result 0 egismoc_write_prefix egismoc_write_prefix_len in
  let result :=
    memcpy_at result (egismoc_write_prefix_len + EGISMOC_CHECK_BYTES_LENGTH)
              cmd cmd_length in
  let check_bytes := egismoc_get_check_bytes result EGISMOC_CHECK_BYTES_LENGTH in
  memcpy_at result egismoc_write_prefix_len check_bytes EGISMOC_CHECK_BYTES_LENGTH.

(** The word sum a receiver computes over a whole frame. *)
Definition word_sum (frame : list byte) : Z :=
  sum_shorts (value_bigendian_shorts frame).

(** The frame as [egismoc_compose_cmd] has it before the check bytes are
    set: prefix, two zero bytes, body. *)
Definition frame_without_check (body : list byte) : list byte :=
  egismoc_write_prefix ++ [x00; x00] ++ body.

(** The little-endian value of a two-byte field. *)
Definition le16 (lo hi : byte) : Z := b2z lo + 256 * b2z hi.


(** ** The byte tables of [egismoc.h]

    The command and marker tables and [EGISMOC_ENROLL_TIMES] are opaque
    constants of the header; the driver is verified for any value of them. *)
Class EgisMocTables := {
  cmd_list : list byte;
  cmd_sensor_reset : list byte;
  cmd_sensor_enroll : list byte;
  cmd_sensor_identify : list byte;
  cmd_sensor_check : list byte;
  cmd_sensor_start_capture : list byte;
  cmd_read_capture : list byte;
  cmd_enroll_starting : list byte;
  cmd_commit_starting : list byte;
  cmd_new_print_prefix : list byte;
  cmd_delete_prefix : list byte;
  cmd_check_prefix : list byte;
  cmd_check_suffix : list byte;
  rsp_delete_success_prefix : list byte;
  rsp_read_success_prefix : list byte;
  rsp_read_success_suffix : list byte;
  rsp_read_offcenter_prefix : list byte;
  rsp_read_offcenter_suffix : list byte;
  rsp_read_dirty_prefix : list byte;
  rsp_check_not_yet_enrolled_prefix : list byte;
  rsp_identify_match_prefix : list byte;
  rsp_identify_match_suffix : list byte;
  rsp_identify_notmatch_prefix : list byte;
  EGISMOC_ENROLL_TIMES : Z
}.

(** A table to evaluate the driver on; the values are placeholders of the
    right shape, not a transcription of the header. *)
Definition example_tables : EgisMocTables := {|
  cmd_list := [x00; x00; x00; x07; x50; x19; x04; x00; x00; x01; x40];
  cmd_sensor_reset := [x00; x00; x00; x04; x50; x1a; x00; x00];
  cmd_sensor_enroll := [x00; x00; x00; x04; x50; x43; x00; x00];
  cmd_sensor_identify := [x00; x00; x00; x04; x50; x40; x00; x00];
  cmd_sensor_check := [x00; x00; x00; x04; x50; x17; x02; x00];
  cmd_sensor_start_capture := [x00; x00; x00; x04; x50; x16; x02; x00];
  cmd_read_capture := [x00; x00; x00; x07; x50; x16; x02; x02; x00; x00; x02];
  cmd_enroll_starting := [x00; x00; x00; x07; x50; x16; x01; x00; x00; x00; x20];
  cmd_commit_starting := [x00; x00; x00; x07; x50; x16; x05; x00; x00; x00; x20];
  cmd_new_print_prefix := [x00; x00; x00; x27; x50; x16; x03; x00; x00; x00; x20];
  cmd_delete_prefix := [x50; x18; x04; x00; x00];
  cmd_check_prefix := [x50; x17; x03; x00; x00];
  cmd_check_suffix := [x00; x40];
  rsp_delete_success_prefix := [x00; x00; x00; x02; x90; x00];
  rsp_read_success_prefix := [x00; x00; x00; x04];
  rsp_read_success_suffix := [x0a; x90; x00];
  rsp_read_offcenter_prefix := [x00; x00; x00; x04];
  rsp_read_offcenter_suffix := [x0a; x64; x91];
  rsp_read_dirty_prefix := [x00; x00; x00; x02; x64];
  rsp_check_not_yet_enrolled_prefix := [x00; x00; x00; x02; x90; x04];
  rsp_identify_match_prefix := [x00; x00; x00; x42];
  rsp_identify_match_suffix := [x90; x00];
  rsp_identify_notmatch_prefix := [x00; x00; x00; x02; x90; x04];
  EGISMOC_ENROLL_TIMES := 10
|}.

(** ** Prints and the device instance *)

(** The [fpi-data] of a print: the tuple [(@ay)] over a byte array, or a
    variant of any other shape. *)
Inductive GVariant :=
| GVariantByteArrayTuple (ay : list byte)
| GVariantOther.

(** Of the attributes of an [FpPrint] only [fpi-data] is tracked. *)
Record FpPrint := { fpi_data : GVariant }.

Definition g_variant_check_format_string_ay (v : GVariant) : bool :=
  match v with
  | GVariantByteArrayTuple _ => true
  | GVariantOther => false
  end.

Definition g_variant_get_fixed_array (v : GVariant) : list byte :=
  match v with
  | GVariantByteArrayTuple ay => ay
  | GVariantOther => []
  end.

(** [self->enrolled_num] and [self->enrolled_ids]; the array pointer is
    [NULL] ([None]) between tasks. *)
Record FpiDeviceEgisMoc := {
  enrolled_num : Z;
  enrolled_ids : option (list (list byte))
}.

(** [g_ptr_array_index (array, i)]; there is no element to return when the
    array is [NULL] or shorter. *)
Definition g_ptr_array_index (array : option (list (list byte))) (i : nat)
  : option (list byte) :=
  match array with
  | Some a => nth_error a i
  | None => None
  end.

Definition g_ptr_array_add (array : option (list (list byte))) (data : list byte)
  : option (list (list byte)) :=
  match array with
  | Some a => Some (a ++ [data])
  | None => None
  end.

(** What a command builder hands back. *)
Inductive BuiltCommand :=
| CmdBuilt (cmd : list byte)
| CmdNullDataInvalid   (* delete completed with data-invalid, NULL returned *)
| CmdFault.            (* an element read outside the registry array *)

Section Builders.
Context {T : EgisMocTables}.

(** The loops [for (i = 0; i < self->enrolled_num; i++) memcpy (result + pos
    + print_id_length * i, enrolled_ids[i], print_id_length)] of both
    builders. *)
Definition append_enrolled_ids (self : FpiDeviceEgisMoc) (result : list byte)
  (pos : nat) : option (list byte) :=
  let print_id_length := EGISMOC_FINGERPRINT_DATA_SIZE in
  fold_left
    (fun acc i =>
       match acc with
       | None => None
       | Some result =>
           match g_ptr_array_index (enrolled_ids self) i with
           | Some print_id =>
               Some (memcpy_at result (pos + print_id_length * i)%nat
                               print_id print_id_length)
           | None => None
           end
       end)
    (seq 0 (Z.to_nat (enrolled_num self)))
    (Some result).

(** [egismoc_get_check_cmd]. *)
Definition egismoc_get_check_cmd (self : FpiDeviceEgisMoc) : BuiltCommand :=
  let n := enrolled_num self in
  let body_length := (Z.to_nat n * EGISMOC_FINGERPRINT_DATA_SIZE)%nat in
  let total_length :=
    (6 + length cmd_check_prefix + EGISMOC_CMD_CHECK_SEPARATOR_LENGTH
     + body_length + length cmd_check_suffix)%nat in
  let result := repeat x00 total_length in
  let pos := 2%nat in
  let '(result, pos) :=
    if n >? 6 then
      let result := memset_at result pos 1 in
      let pos := (pos + 1)%nat in
      let result := memset_at result pos (((n - 7) * 32) + 9) in
      (result, (pos + 1)%nat)
    else
      let pos := (pos + 1)%nat in
      let result := memset_at result pos (((n + 1) * 32) + 9) in
      (result, (pos + 1)%nat) in
  let result := memcpy_at result pos cmd_check_prefix (length cmd_check_prefix) in
  let pos := (pos + length cmd_check_prefix)%nat in
  let '(result, pos) :=
    if n >? 6 then
      let result := memset_at result pos 1 in
      let pos := (pos + 1)%nat in
      let result := memset_at result pos ((n - 7) * 32) in
      (result, (pos + 1)%nat)
    else
      let pos := (pos + 1)%nat in
      let result := memset_at result pos ((n + 1) * 32) in
      (result, (pos + 1)%nat) in
  let pos := (pos + EGISMOC_CMD_CHECK_SEPARATOR_LENGTH)%nat in
  match append_enrolled_ids self result pos with
  | None => CmdFault
  | Some result =>
      let pos := (pos + body_length)%nat in
      CmdBuilt (memcpy_at result pos cmd_check_suffix (length cmd_check_suffix))
  end.

(** [egismoc_get_delete_cmd]; [delete_print] is [None] for a clear. *)
Definition egismoc_get_delete_cmd (self : FpiDeviceEgisMoc)
  (delete_print : option FpPrint) : BuiltCommand :=
  let num_to_delete :=
    match delete_print with None => enrolled_num self | Some _ => 1 end in
  let body_length :=
    (EGISMOC_FINGERPRINT_DATA_SIZE * Z.to_nat num_to_delete)%nat in
  let print_id_length := EGISMOC_FINGERPRINT_DATA_SIZE in
  let total_length := (6 + length cmd_delete_prefix + body_length)%nat in
  let result := repeat x00 total_length in
  let pos := 2%nat in
  let '(result, pos) :=
    if num_to_delete >? 7 then
      let result := memset_at result pos 1 in
      let pos := (pos + 1)%nat in
      let result := memset_at result pos (((num_to_delete - 8) * 32) + 7) in
      (result, (pos + 1)%nat)
    else
      let pos := (pos + 1)%nat in
      let result := memset_at result pos ((num_to_delete * 32) + 7) in
      (result, (pos + 1)%nat) in
  let result := memcpy_at result pos cmd_delete_prefix (length cmd_delete_prefix) in
  let pos := (pos + length cmd_delete_prefix)%nat in
  let '(result, pos) :=
    if num_to_delete >? 7 then
      let result := memset_at result pos 1 in
      let pos := (pos + 1)%nat in
      let result := memset_at result pos ((num_to_delete - 8) * 32) in
      (result, (pos + 1)%nat)
    else
      let pos := (pos + 1)%nat in
      let result := memset_at result pos (num_to_delete * 32) in
      (result, (pos + 1)%nat) in
  match delete_print with
  | Some print =>
      let print_data := fpi_data print in
      if negb (g_variant_check_format_string_ay print_data) then
        CmdNullDataInvalid
      else
        let print_data_id := g_variant_get_fixed_array print_data in
        CmdBuilt (memcpy_at result pos print_data_id print_id_length)
  | None =>
      match append_enrolled_ids self result pos with
      | Some result => CmdBuilt result
      | None => CmdFault
      end
  end.

End Builders.

(** ** The registry: [egismoc_fill_enrolled_ids] and [egismoc_list_cb] *)

(** The assignment of [egismoc_fill_enrolled_ids]: a fresh, empty array. *)
Definition fill_enrolled_ids_new_array (self : FpiDeviceEgisMoc) : FpiDeviceEgisMoc :=
  {| enrolled_num := enrolled_num self; enrolled_ids := Some [] |}.

(** The inner loop of [egismoc_list_cb]: [print_id[print_id_pos] =
    buffer_in[buffer_in_pos]] for the 32 positions from
    [14 + print_num * 32]. *)
Definition list_cb_read_print_id (buffer_in : list byte) (print_num : nat) : list byte :=
  fold_left
    (fun print_id print_id_pos =>
       memcpy_at print_id print_id_pos
         [buf_get buffer_in
            (14 + print_num * EGISMOC_FINGERPRINT_DATA_SIZE + print_id_pos)] 1)
    (seq 0 EGISMOC_FINGERPRINT_DATA_SIZE)
    (repeat x00 EGISMOC_FINGERPRINT_DATA_SIZE).

(** The body of [egismoc_list_cb] when no error is delivered. *)
Definition list_cb_update (self : FpiDeviceEgisMoc) (buffer_in : list byte)
  (length_in : nat) : FpiDeviceEgisMoc :=
  if (length_in <? 16 + EGISMOC_FINGERPRINT_DATA_SIZE)%nat then
    {| enrolled_num := 0; enrolled_ids := enrolled_ids self |}
  else
    let num := (Z.of_nat length_in - 16) / Z.of_nat EGISMOC_FINGERPRINT_DATA_SIZE in
    {| enrolled_num := num;
       enrolled_ids :=
         fold_left
           (fun ids print_num =>
              g_ptr_array_add ids (list_cb_read_print_id buffer_in print_num))
           (seq 0 (Z.to_nat num))
           (enrolled_ids self) |}.

(** A registry refresh: the array is renewed, the list command is sent and
    its reply goes through [egismoc_list_cb]. *)
Definition registry_refresh (self : FpiDeviceEgisMoc) (buffer_in : list byte)
  (length_in : nat) : FpiDeviceEgisMoc :=
  list_cb_update (fill_enrolled_ids_new_array self) buffer_in length_in.

(** ** Response classification *)

Definition egismoc_validate_response_prefix (buffer_in : list byte)
  (buffer_in_len : nat) (valid_prefix : list byte) : bool :=
  memcmp_at buffer_in (egismoc_read_prefix_len + EGISMOC_CHECK_BYTES_LENGTH)
            valid_prefix.

(** [a - b] on two [size_t] values: below zero the difference wraps
    around 2^64. *)
Definition size_t_sub (a b : nat) : nat :=
  let d := Z.of_nat a - Z.of_nat b in
  Z.to_nat (if d <? 0 then d + ULONG_MOD else d).

(** The offset [buffer_in_len - valid_suffix_len] is a [size_t]: when the
    marker is longer than the reply the subtraction wraps and the bytes
    compared are not those of the reply. *)
Definition egismoc_validate_response_suffix (buffer_in : list byte)
  (buffer_in_len : nat) (valid_suffix : list byte) : bool :=
  memcmp_at buffer_in (size_t_sub buffer_in_len (length valid_suffix))
            valid_suffix.

(** ** Errors, framework data and observable events *)

Inductive FpDeviceError :=
| FP_DEVICE_ERROR_GENERAL
| FP_DEVICE_ERROR_PROTO
| FP_DEVICE_ERROR_DATA_INVALID
| FP_DEVICE_ERROR_DATA_DUPLICATE
| FP_DEVICE_ERROR_DATA_FULL
| FP_DEVICE_ERROR_DATA_NOT_FOUND.

Inductive FpDeviceRetry :=
| FP_DEVICE_RETRY_CENTER_FINGER
| FP_DEVICE_RETRY_REMOVE_FINGER.

Inductive GError :=
| FpiDeviceError (code : FpDeviceError) (msg : option string)
| FpiDeviceRetry (code : FpDeviceRetry) (msg : option string)
| TransferError.   (* an error delivered by the USB layer *)

Definition fpi_device_error_new (code : FpDeviceError) : GError :=
  FpiDeviceError code None.
Definition fpi_device_error_new_msg (code : FpDeviceError) (msg : string) : GError :=
  FpiDeviceError code (Some msg).
Definition fpi_device_retry_new (code : FpDeviceRetry) : GError :=
  FpiDeviceRetry code None.
Definition fpi_device_retry_new_msg (code : FpDeviceRetry) (msg : string) : GError :=
  FpiDeviceRetry code (Some msg).

Inductive FpFingerStatus := FP_FINGER_STATUS_NEEDED | FP_FINGER_STATUS_PRESENT.
Inductive FpiMatchResult := FPI_MATCH_FAIL | FPI_MATCH_SUCCESS.
Inductive FpiDeviceAction :=
| FPI_DEVICE_ACTION_ENROLL
| FPI_DEVICE_ACTION_VERIFY
| FPI_DEVICE_ACTION_IDENTIFY
| FPI_DEVICE_ACTION_CLEAR_STORAGE.

(** What the framework holds for the running action. *)
Record FpDeviceData := {
  current_action : FpiDeviceAction;
  enroll_data : FpPrint;
  identify_data : list FpPrint;
  verify_data : FpPrint;
  generated_user_id : list byte;  (* the string fpi_print_generate_user_id
                                     returns, without its terminator *)
  user_id_tail : nat -> byte      (* the bytes that follow the terminator in
                                     memory *)
}.

(** The [n] bytes found at the pointer [fpi_print_generate_user_id]
    returns: the string, then, when the string is shorter than [n], its
    terminator and the bytes that follow it in memory. *)
Definition user_id_memory (fp : FpDeviceData) (n : nat) : list byte :=
  firstn n (generated_user_id fp ++ x00 :: map (user_id_tail fp) (seq 0 n)).

(** The table a command body was taken from. *)
Inductive CommandName :=
| CMD_LIST
| CMD_SENSOR_RESET
| CMD_SENSOR_ENROLL
| CMD_SENSOR_IDENTIFY
| CMD_SENSOR_CHECK
| CMD_SENSOR_START_CAPTURE
| CMD_READ_CAPTURE
| CMD_ENROLL_STARTING
| CMD_COMMIT_STARTING
| CMD_NEW_PRINT
| CMD_CHECK
| CMD_DELETE.

(** The calls the driver makes on the USB layer and on the framework. *)
Inductive Event :=
| UsbBulkOut (name : CommandName) (frame : list byte)
| ReportFingerStatus (status : FpFingerStatus)
| EnrollProgress (completed_stages : Z) (print : option FpPrint) (error : option GError)
| EnrollComplete (print : option FpPrint) (error : option GError)
| IdentifyReport (matched : option FpPrint) (print : option FpPrint) (error : option GError)
| VerifyReport (result : FpiMatchResult) (print : option FpPrint) (error : option GError)
| IdentifyComplete (error : option GError)
| VerifyComplete (error : option GError)
| ClearStorageComplete (error : option GError)
| ActionError (error : GError).

Inductive EnrollStatus :=
| ENROLL_STATUS_DEVICE_FULL
| ENROLL_STATUS_DUPLICATE
| ENROLL_STATUS_RETRY
| ENROLL_STATUS_PARTIAL_OK
| ENROLL_STATUS_COMPLETE.

Record EnrollPrint := { print : FpPrint; stage : Z }.

(** The device instance and the data attached to the task machine. *)
Record DriverState := { self : FpiDeviceEgisMoc; enroll_print : EnrollPrint }.

Definition set_self (st : DriverState) (s : FpiDeviceEgisMoc) : DriverState :=
  {| self := s; enroll_print := enroll_print st |}.
Definition set_enroll_print (st : DriverState) (ep : EnrollPrint) : DriverState :=
  {| self := self st; enroll_print := ep |}.

(** ** The task machines *)

Inductive SynCmdMsgCallback :=
| CB_task_ssm_next_state
| CB_list
| CB_enroll_check
| CB_read_capture
| CB_identify_check
| CB_clear_storage.

Inductive FpiSsmCall :=
| fpi_ssm_next_state
| fpi_ssm_jump_to_state (state : nat)
| fpi_ssm_mark_failed (error : GError)
| fpi_ssm_mark_completed.

(** How a state handler or a callback ends. *)
Inductive Effect :=
| DoSsm (call : FpiSsmCall)                     (* a call on the task machine *)
| DoCmd (name : CommandName) (body : list byte)
        (callback : SynCmdMsgCallback)          (* egismoc_get_cmd (compose (body), callback) *)
| DoWaitFinger                                  (* egismoc_wait_finger_on_sensor *)
| DoFault                                       (* a NULL or out-of-range dereference *)
| DoNothing.                                    (* returns, machine untouched *)

(** Modelled from the spec: the [*_STATES] enumerations of [egismoc.h],
    which are not part of the sources at hand; the values follow the order
    of the steps of each operation, which is the order of the cases in the
    handlers. *)
Inductive EnrollState :=
| ENROLL_GET_ENROLLED_IDS
| ENROLL_CHECK_ENROLLED_NUM
| ENROLL_SENSOR_RESET
| ENROLL_SENSOR_ENROLL
| ENROLL_WAIT_FINGER
| ENROLL_SENSOR_CHECK
| ENROLL_CHECK
| ENROLL_START
| ENROLL_CAPTURE_SENSOR_RESET
| ENROLL_CAPTURE_SENSOR_START_CAPTURE
| ENROLL_CAPTURE_WAIT_FINGER
| ENROLL_CAPTURE_READ_RESPONSE
| ENROLL_COMMIT_START
| ENROLL_COMMIT
| ENROLL_COMMIT_SENSOR_RESET
| ENROLL_COMPLETE.

Definition enroll_states : list EnrollState :=
  [ENROLL_GET_ENROLLED_IDS; ENROLL_CHECK_ENROLLED_NUM; ENROLL_SENSOR_RESET;
   ENROLL_SENSOR_ENROLL; ENROLL_WAIT_FINGER; ENROLL_SENSOR_CHECK; ENROLL_CHECK;
   ENROLL_START; ENROLL_CAPTURE_SENSOR_RESET;
   ENROLL_CAPTURE_SENSOR_START_CAPTURE; ENROLL_CAPTURE_WAIT_FINGER;
   ENROLL_CAPTURE_READ_RESPONSE; ENROLL_COMMIT_START; ENROLL_COMMIT;
   ENROLL_COMMIT_SENSOR_RESET; ENROLL_COMPLETE].
Definition ENROLL_STATES : nat := length enroll_states.

(** The integer value of [ENROLL_CAPTURE_SENSOR_RESET]. *)
Definition ENROLL_CAPTURE_SENSOR_RESET_value : nat := 8.

Inductive IdentifyState :=
| IDENTIFY_GET_ENROLLED_IDS
| IDENTIFY_CHECK_ENROLLED_NUM
| IDENTIFY_SENSOR_RESET
| IDENTIFY_SENSOR_IDENTIFY
| IDENTIFY_WAIT_FINGER
| IDENTIFY_SENSOR_CHECK
| IDENTIFY_CHECK
| IDENTIFY_COMPLETE_SENSOR_RESET
| IDENTIFY_COMPLETE.

Definition identify_states : list IdentifyState :=
  [IDENTIFY_GET_ENROLLED_IDS; IDENTIFY_CHECK_ENROLLED_NUM; IDENTIFY_SENSOR_RESET;
   IDENTIFY_SENSOR_IDENTIFY; IDENTIFY_WAIT_FINGER; IDENTIFY_SENSOR_CHECK;
   IDENTIFY_CHECK; IDENTIFY_COMPLETE_SENSOR_RESET; IDENTIFY_COMPLETE].
Definition IDENTIFY_STATES : nat := length identify_states.

Inductive ClearStorageState :=
| CLEAR_STORAGE_GET_ENROLLED_IDS_BEFORE
| CLEAR_STORAGE_CLEAR
| CLEAR_STORAGE_GET_ENROLLED_IDS_AFTER
| CLEAR_STORAGE_COMPLETE.

Definition clear_storage_states : list ClearStorageState :=
  [CLEAR_STORAGE_GET_ENROLLED_IDS_BEFORE; CLEAR_STORAGE_CLEAR;
   CLEAR_STORAGE_GET_ENROLLED_IDS_AFTER; CLEAR_STORAGE_COMPLETE].
Definition CLEAR_STORAGE_STATES : nat := length clear_storage_states.

(** [egismoc_set_print_data], as far as [fpi-data] goes: the tuple over the
    32 bytes of the identifier. *)
Definition egismoc_set_print_data (p : FpPrint) (device_print_id : list byte) : FpPrint :=
  {| fpi_data :=
       GVariantByteArrayTuple
         (buf_slice device_print_id 0 EGISMOC_FINGERPRINT_DATA_SIZE) |}.

Definition gvariant_eqb (a b : GVariant) : bool :=
  match a, b with
  | GVariantByteArrayTuple x, GVariantByteArrayTuple y => bytes_eqb x y
  | GVariantOther, GVariantOther => true
  | _, _ => false
  end.

(** Modelled from the spec: [fp_print_equal] of the framework, which is not
    part of the sources at hand; two raw prints are equal when their
    [fpi-data] are. *)
Definition fp_print_equal (a b : FpPrint) : bool :=
  gvariant_eqb (fpi_data a) (fpi_data b).

(** [g_ptr_array_find_with_equal_func], returning the element found. *)
Fixpoint g_ptr_array_find_with_equal_func (prints : list FpPrint) (p : FpPrint)
  : option FpPrint :=
  match prints with
  | [] => None
  | q :: rest =>
      if fp_print_equal q p then Some q
      else g_ptr_array_find_with_equal_func rest p
  end.

Section Tasks.
Context {T : EgisMocTables}.

(** [egismoc_fill_enrolled_ids]. *)
Definition egismoc_fill_enrolled_ids (st : DriverState)
  : DriverState * list Event * Effect :=
  (set_self st (fill_enrolled_ids_new_array (self st)), [],
   DoCmd CMD_LIST cmd_list CB_list).

(** [egismoc_list_cb]; the task machine is there whenever a refresh runs. *)
Definition egismoc_list_cb (st : DriverState) (buffer_in : list byte)
  (length_in : nat) (error : option GError) : DriverState * list Event * Effect :=
  match error with
  | Some e => (st, [], DoSsm (fpi_ssm_mark_failed e))
  | None =>
      (set_self st (list_cb_update (self st) buffer_in length_in), [],
       DoSsm fpi_ssm_next_state)
  end.

(** [egismoc_task_ssm_next_state_cb]. *)
Definition egismoc_task_ssm_next_state_cb (st : DriverState)
  (buffer_in : list byte) (length_in : nat) (error : option GError)
  : DriverState * list Event * Effect :=
  match error with
  | Some e => (st, [], DoSsm (fpi_ssm_mark_failed e))
  | None => (st, [], DoSsm fpi_ssm_next_state)
  end.

(** [egismoc_enroll_status_report]; the duplicate report passes a [NULL]
    [enroll_print], which that case does not read. *)
Definition egismoc_enroll_status_report (ep : EnrollPrint) (status : EnrollStatus)
  (error : option GError) : EnrollPrint * list Event :=
  match status with
  | ENROLL_STATUS_DEVICE_FULL
  | ENROLL_STATUS_DUPLICATE => (ep, [EnrollComplete None error])
  | ENROLL_STATUS_RETRY => (ep, [EnrollProgress (stage ep) None error])
  | ENROLL_STATUS_PARTIAL_OK =>
      let ep := {| print := print ep; stage := stage ep + 1 |} in
      (ep, [EnrollProgress (stage ep) (Some (print ep)) None])
  | ENROLL_STATUS_COMPLETE => (ep, [EnrollComplete (Some (print ep)) None])
  end.

(** [egismoc_read_capture_cb]. *)
Definition egismoc_read_capture_cb (st : DriverState) (buffer_in : list byte)
  (length_in : nat) (error : option GError) : DriverState * list Event * Effect :=
  match error with
  | Some e => (st, [], DoSsm (fpi_ssm_mark_failed e))
  | None =>
      let '(ep, evs) :=
        if egismoc_validate_response_prefix buffer_in length_in rsp_read_success_prefix
           && egismoc_validate_response_suffix buffer_in length_in rsp_read_success_suffix
        then
          egismoc_enroll_status_report (enroll_print st) ENROLL_STATUS_PARTIAL_OK None
        else
          let error :=
            if egismoc_validate_response_prefix buffer_in length_in
                 rsp_read_offcenter_prefix
               && egismoc_validate_response_suffix buffer_in length_in
                    rsp_read_offcenter_suffix
            then fpi_device_retry_new FP_DEVICE_RETRY_CENTER_FINGER
            else if egismoc_validate_response_prefix buffer_in length_in
                      rsp_read_dirty_prefix
            then fpi_device_retry_new_msg FP_DEVICE_RETRY_REMOVE_FINGER
                   "Your device is having trouble recognizing you. Make sure your sensor is clean."
            else fpi_device_retry_new_msg FP_DEVICE_RETRY_REMOVE_FINGER
                   "Unknown failure trying to read your finger. Please try again." in
          egismoc_enroll_status_report (enroll_print st) ENROLL_STATUS_RETRY (Some error) in
      (set_enroll_print st ep, evs,
       if stage ep =? EGISMOC_ENROLL_TIMES
       then DoSsm fpi_ssm_next_state
       else DoSsm (fpi_ssm_jump_to_state ENROLL_CAPTURE_SENSOR_RESET_value))
  end.

(** [egismoc_enroll_check_cb]. *)
Definition egismoc_enroll_check_cb (st : DriverState) (buffer_in : list byte)
  (length_in : nat) (error : option GError) : DriverState * list Event * Effect :=
  match error with
  | Some e => (st, [], DoSsm (fpi_ssm_mark_failed e))
  | None =>
      if egismoc_validate_response_prefix buffer_in length_in
           rsp_check_not_yet_enrolled_prefix
      then (st, [], DoSsm fpi_ssm_next_state)
      else
        let error := fpi_device_error_new FP_DEVICE_ERROR_DATA_DUPLICATE in
        let '(_, evs) :=
          egismoc_enroll_status_report (enroll_print st) ENROLL_STATUS_DUPLICATE
                                       (Some error) in
        (st, evs, DoNothing)
  end.

(** The command of a builder, handed to [egismoc_compose_cmd] and
    [egismoc_get_cmd]. *)
Definition send_built (name : CommandName) (built : BuiltCommand)
  (callback : SynCmdMsgCallback) : Effect :=
  match built with
  | CmdBuilt cmd => DoCmd name cmd callback
  | CmdNullDataInvalid | CmdFault => DoFault
  end.

(** [egismoc_enroll_run_state]. *)
Definition egismoc_enroll_run_state (fp : FpDeviceData) (cur_state : nat)
  (st : DriverState) : DriverState * list Event * Effect :=
  match nth_error enroll_states cur_state with
  | Some ENROLL_GET_ENROLLED_IDS => egismoc_fill_enrolled_ids st
  | Some ENROLL_CHECK_ENROLLED_NUM =>
      if enrolled_num (self st) >=? EGISMOC_MAX_ENROLL_NUM then
        let '(ep, evs) :=
          egismoc_enroll_status_report (enroll_print st) ENROLL_STATUS_DEVICE_FULL
            (Some (fpi_device_error_new FP_DEVICE_ERROR_DATA_FULL)) in
        (set_enroll_print st ep, evs, DoNothing)
      else (st, [], DoSsm fpi_ssm_next_state)
  | Some ENROLL_SENSOR_RESET =>
      (st, [], DoCmd CMD_SENSOR_RESET cmd_sensor_reset CB_task_ssm_next_state)
  | Some ENROLL_SENSOR_ENROLL =>
      (st, [], DoCmd CMD_SENSOR_ENROLL cmd_sensor_enroll CB_task_ssm_next_state)
  | Some ENROLL_WAIT_FINGER => (st, [], DoWaitFinger)
  | Some ENROLL_SENSOR_CHECK =>
      (st, [], DoCmd CMD_SENSOR_CHECK cmd_sensor_check CB_task_ssm_next_state)
  | Some ENROLL_CHECK =>
      (st, [], send_built CMD_CHECK (egismoc_get_check_cmd (self st)) CB_enroll_check)
  | Some ENROLL_START =>
      (st, [], DoCmd CMD_ENROLL_STARTING cmd_enroll_starting CB_task_ssm_next_state)
  | Some ENROLL_CAPTURE_SENSOR_RESET =>
      (st, [], DoCmd CMD_SENSOR_RESET cmd_sensor_reset CB_task_ssm_next_state)
  | Some ENROLL_CAPTURE_SENSOR_START_CAPTURE =>
      (st, [], DoCmd CMD_SENSOR_START_CAPTURE cmd_sensor_start_capture
                     CB_task_ssm_next_state)
  | Some ENROLL_CAPTURE_WAIT_FINGER => (st, [], DoWaitFinger)
  | Some ENROLL_CAPTURE_READ_RESPONSE =>
      (st, [], DoCmd CMD_READ_CAPTURE cmd_read_capture CB_read_capture)
  | Some ENROLL_COMMIT_START =>
      (st, [], DoCmd CMD_COMMIT_STARTING cmd_commit_starting CB_task_ssm_next_state)
  | Some ENROLL_COMMIT =>
      (* memcpy copies EGISMOC_FINGERPRINT_DATA_SIZE bytes from the pointer,
         whatever the length of the string *)
      let user_id := user_id_memory fp EGISMOC_FINGERPRINT_DATA_SIZE in
      let device_print_id :=
        memcpy_at (repeat x00 EGISMOC_FINGERPRINT_DATA_SIZE) 0 user_id
                  EGISMOC_FINGERPRINT_DATA_SIZE in
      let ep := enroll_print st in
      let ep := {| print := egismoc_set_print_data (print ep) device_print_id;
                   stage := stage ep |} in
      let cmd_length :=
        (length cmd_new_print_prefix + EGISMOC_FINGERPRINT_DATA_SIZE)%nat in
      let cmd := repeat x00 cmd_length in
      let cmd := memcpy_at cmd 0 cmd_new_print_prefix (length cmd_new_print_prefix) in
      let cmd := memcpy_at cmd (length cmd_new_print_prefix) device_print_id
                           EGISMOC_FINGERPRINT_DATA_SIZE in
      (set_enroll_print st ep, [], DoCmd CMD_NEW_PRINT cmd CB_task_ssm_next_state)
  | Some ENROLL_COMMIT_SENSOR_RESET =>
      (st, [], DoCmd CMD_SENSOR_RESET cmd_sensor_reset CB_task_ssm_next_state)
  | Some ENROLL_COMPLETE =>
      let '(ep, evs) :=
        egismoc_enroll_status_report (enroll_print st) ENROLL_STATUS_COMPLETE None in
      (set_enroll_print st ep, evs, DoSsm fpi_ssm_next_state)
  | None => (st, [], DoNothing)
  end.

(** [egismoc_identify_check_cb]. *)
Definition egismoc_identify_check_cb (fp : FpDeviceData) (st : DriverState)
  (buffer_in : list byte) (length_in : nat) (error : option GError)
  : DriverState * list Event * Effect :=
  match error with
  | Some e => (st, [], DoSsm (fpi_ssm_mark_failed e))
  | None =>
      if egismoc_validate_response_prefix buffer_in length_in rsp_identify_match_prefix
         && egismoc_validate_response_suffix buffer_in length_in rsp_identify_match_suffix
      then
        let device_print_id :=
          buf_slice buffer_in EGISMOC_IDENTIFY_RESPONSE_PRINT_ID_OFFSET
                    EGISMOC_FINGERPRINT_DATA_SIZE in
        let p := egismoc_set_print_data {| fpi_data := GVariantOther |} device_print_id in
        match current_action fp with
        | FPI_DEVICE_ACTION_IDENTIFY =>
            (st,
             [IdentifyReport (g_ptr_array_find_with_equal_func (identify_data fp) p)
                             (Some p) None],
             DoSsm fpi_ssm_next_state)
        | _ =>
            (st,
             [VerifyReport (if fp_print_equal (verify_data fp) p
                            then FPI_MATCH_SUCCESS else FPI_MATCH_FAIL)
                           (Some p) None],
             DoSsm fpi_ssm_next_state)
        end
      else if egismoc_validate_response_prefix buffer_in length_in
                rsp_identify_notmatch_prefix
      then
        match current_action fp with
        | FPI_DEVICE_ACTION_VERIFY =>
            (st, [VerifyReport FPI_MATCH_FAIL None None], DoSsm fpi_ssm_next_state)
        | _ => (st, [IdentifyReport None None None], DoSsm fpi_ssm_next_state)
        end
      else
        (st, [],
         DoSsm (fpi_ssm_mark_failed
                  (fpi_device_error_new_msg FP_DEVICE_ERROR_PROTO
                     "Unrecognized response from device.")))
  end.

(** [egismoc_identify_run_state]. *)
Definition egismoc_identify_run_state (fp : FpDeviceData) (cur_state : nat)
  (st : DriverState) : DriverState * list Event * Effect :=
  match nth_error identify_states cur_state with
  | Some IDENTIFY_GET_ENROLLED_IDS => egismoc_fill_enrolled_ids st
  | Some IDENTIFY_CHECK_ENROLLED_NUM =>
      if enrolled_num (self st) =? 0 then
        (st, [],
         DoSsm (fpi_ssm_mark_failed
                  (fpi_device_error_new FP_DEVICE_ERROR_DATA_NOT_FOUND)))
      else (st, [], DoSsm fpi_ssm_next_state)
  | Some IDENTIFY_SENSOR_RESET =>
      (st, [], DoCmd CMD_SENSOR_RESET cmd_sensor_reset CB_task_ssm_next_state)
  | Some IDENTIFY_SENSOR_IDENTIFY =>
      (st, [], DoCmd CMD_SENSOR_IDENTIFY cmd_sensor_identify CB_task_ssm_next_state)
  | Some IDENTIFY_WAIT_FINGER => (st, [], DoWaitFinger)
  | Some IDENTIFY_SENSOR_CHECK =>
      (st, [], DoCmd CMD_SENSOR_CHECK cmd_sensor_check CB_task_ssm_next_state)
  | Some IDENTIFY_CHECK =>
      (st, [], send_built CMD_CHECK (egismoc_get_check_cmd (self st)) CB_identify_check)
  | Some IDENTIFY_COMPLETE_SENSOR_RESET =>
      (st, [], DoCmd CMD_SENSOR_RESET cmd_sensor_reset CB_task_ssm_next_state)
  | Some IDENTIFY_COMPLETE =>
      (st,
       [match current_action fp with
        | FPI_DEVICE_ACTION_IDENTIFY => IdentifyComplete None
        | _ => VerifyComplete None
        end],
       DoSsm fpi_ssm_mark_completed)
  | None => (st, [], DoNothing)
  end.

(** [egismoc_clear_storage_cb]. *)
Definition egismoc_clear_storage_cb (st : DriverState) (buffer_in : list byte)
  (length_in : nat) (error : option GError) : DriverState * list Event * Effect :=
  match error with
  | Some e => (st, [ClearStorageComplete (Some e)], DoNothing)
  | None =>
      if egismoc_validate_response_prefix buffer_in length_in rsp_delete_success_prefix
      then (st, [], DoSsm fpi_ssm_next_state)
      else
        (st,
         [ClearStorageComplete
            (Some (fpi_device_error_new_msg FP_DEVICE_ERROR_PROTO
                     "Clear storage was not successfull"))],
         DoNothing)
  end.

(** [egismoc_clear_storage_run_state]. *)
Definition egismoc_clear_storage_run_state (fp : FpDeviceData) (cur_state : nat)
  (st : DriverState) : DriverState * list Event * Effect :=
  match nth_error clear_storage_states cur_state with
  | Some CLEAR_STORAGE_GET_ENROLLED_IDS_BEFORE => egismoc_fill_enrolled_ids st
  | Some CLEAR_STORAGE_CLEAR =>
      (st, [],
       send_built CMD_DELETE (egismoc_get_delete_cmd (self st) None) CB_clear_storage)
  | Some CLEAR_STORAGE_GET_ENROLLED_IDS_AFTER => egismoc_fill_enrolled_ids st
  | Some CLEAR_STORAGE_COMPLETE =>
      if enrolled_num (self st) =? 0 then
        (st, [ClearStorageComplete None], DoSsm fpi_ssm_mark_completed)
      else
        (st,
         [ClearStorageComplete
            (Some (fpi_device_error_new_msg FP_DEVICE_ERROR_PROTO
                     "Clear storage submitted but storage on device is not empty."))],
         DoNothing)
  | None => (st, [], DoNothing)
  end.

(** *** The transfer engine and the machine *)

(** [egismoc_cmd_receive_cb] with [egismoc_cmd_ssm_done]: the arguments the
    callback of the exchange is called with.  An error of the transfer, or
    a reply shorter than the read prefix, fails the command machine, whose
    completion calls the callback with (NULL, 0, error); otherwise the
    callback gets the transfer buffer and the length received.  The user
    data and the callback are never NULL: [egismoc_get_cmd] sets both. *)
Definition egismoc_cmd_receive_cb (error : option GError) (buffer : list byte)
  (actual_length : nat) : list byte * nat * option GError :=
  match error with
  | Some e => ([], 0%nat, Some e)
  | None =>
      if (actual_length <? egismoc_read_prefix_len)%nat
      then ([], 0%nat, Some (fpi_device_error_new FP_DEVICE_ERROR_GENERAL))
      else (buffer, actual_length, None)
  end.

Inductive Task := TASK_ENROLL | TASK_IDENTIFY | TASK_CLEAR_STORAGE.

Definition task_nr_states (t : Task) : nat :=
  match t with
  | TASK_ENROLL => ENROLL_STATES
  | TASK_IDENTIFY => IDENTIFY_STATES
  | TASK_CLEAR_STORAGE => CLEAR_STORAGE_STATES
  end.

Definition task_run_state (t : Task) (fp : FpDeviceData) (cur_state : nat)
  (st : DriverState) : DriverState * list Event * Effect :=
  match t with
  | TASK_ENROLL => egismoc_enroll_run_state fp cur_state st
  | TASK_IDENTIFY => egismoc_identify_run_state fp cur_state st
  | TASK_CLEAR_STORAGE => egismoc_clear_storage_run_state fp cur_state st
  end.

Definition run_callback (callback : SynCmdMsgCallback) (fp : FpDeviceData)
  (st : DriverState) (buffer_in : list byte) (length_in : nat)
  (error : option GError) : DriverState * list Event * Effect :=
  match callback with
  | CB_task_ssm_next_state => egismoc_task_ssm_next_state_cb st buffer_in length_in error
  | CB_list => egismoc_list_cb st buffer_in length_in error
  | CB_enroll_check => egismoc_enroll_check_cb st buffer_in length_in error
  | CB_read_capture => egismoc_read_capture_cb st buffer_in length_in error
  | CB_identify_check => egismoc_identify_check_cb fp st buffer_in length_in error
  | CB_clear_storage => egismoc_clear_storage_cb st buffer_in length_in error
  end.

(** What the machine waits for. *)
Inductive Pending :=
| AwaitReply (callback : SynCmdMsgCallback)  (* a command exchange in flight *)
| AwaitFinger                                (* the interrupt transfer in flight *)
| TaskDone (error : option GError)           (* completed, egismoc_task_ssm_done ran *)
| TaskIdle                                   (* nothing in flight, machine not completed *)
| TaskFaulted
| FuelExhausted.

Record Machine := {
  task : Task;
  state : DriverState;
  cur_state : nat;
  pending : Pending;
  trace : list Event
}.

(** [egismoc_task_ssm_done]. *)
Definition egismoc_task_ssm_done (t : Task) (st : DriverState) (cur : nat)
  (tr : list Event) (error : option GError) : Machine :=
  {| task := t;
     state := set_self st {| enrolled_num := enrolled_num (self st);
                             enrolled_ids := None |};
     cur_state := cur;
     pending := TaskDone error;
     trace := tr ++ match error with
                    | Some e => [ActionError e]
                    | None => []
                    end |}.

(** Modelled from the spec: the sequential state machine of the framework
    ([fpi_ssm_*]), which is not part of the sources at hand.  A machine is
    an ordered sequence of steps; [fpi_ssm_next_state] moves to the next
    step and runs its handler, or completes the machine after the last
    step; [fpi_ssm_jump_to_state] runs the handler of the given step;
    [fpi_ssm_mark_failed] and [fpi_ssm_mark_completed] end the machine and
    call its completion callback.  [ssm_apply] carries out the effect a
    handler or callback ended with; handlers that advance synchronously are
    chained, [fuel] bounding the chain. *)
Fixpoint ssm_apply (fuel : nat) (t : Task) (fp : FpDeviceData) (st : DriverState)
  (cur : nat) (tr : list Event) (eff : Effect) : Machine :=
  let stop p tr :=
    {| task := t; state := st; cur_state := cur; pending := p; trace := tr |} in
  let enter next :=
    match fuel with
    | O => stop FuelExhausted tr
    | S fuel' =>
        let '(st', evs, eff') := task_run_state t fp next st in
        ssm_apply fuel' t fp st' next (tr ++ evs) eff'
    end in
  match eff with
  | DoCmd name body callback =>
      stop (AwaitReply callback) (tr ++ [UsbBulkOut name (egismoc_compose_cmd body)])
  | DoWaitFinger =>
      stop AwaitFinger (tr ++ [ReportFingerStatus FP_FINGER_STATUS_NEEDED])
  | DoFault => stop TaskFaulted tr
  | DoNothing => stop TaskIdle tr
  | DoSsm fpi_ssm_next_state =>
      if (S cur =? task_nr_states t)%nat
      then egismoc_task_ssm_done t st (S cur) tr None
      else enter (S cur)
  | DoSsm (fpi_ssm_jump_to_state s) => enter s
  | DoSsm (fpi_ssm_mark_failed e) => egismoc_task_ssm_done t st cur tr (Some e)
  | DoSsm fpi_ssm_mark_completed => egismoc_task_ssm_done t st cur tr None
  end.

Definition SSM_FUEL : nat := 32.

(** [fpi_ssm_start]: the handler of the first step runs. *)
Definition fpi_ssm_start (t : Task) (fp : FpDeviceData) (st : DriverState) : Machine :=
  ssm_apply SSM_FUEL t fp st 0 [] (DoSsm (fpi_ssm_jump_to_state 0)).

(** What the USB layer delivers: the outcome of a command exchange (the
    error of the OUT or of the IN transfer, or the reply buffer with the
    length received), or the completion of the finger interrupt. *)
Inductive Input :=
| BulkExchange (error : option GError) (buffer : list byte) (actual_length : nat)
| FingerInterrupt (error : option GError).

(** One completion delivered to the machine: [egismoc_cmd_receive_cb] and
    the callback of the exchange, or [egismoc_finger_on_sensor_cb]. *)
Definition machine_step (fp : FpDeviceData) (m : Machine) (i : Input) : Machine :=
  match pending m, i with
  | AwaitReply callback, BulkExchange error buffer actual_length =>
      let '(buffer_in, length_in, err) :=
        egismoc_cmd_receive_cb error buffer actual_length in
      let '(st, evs, eff) :=
        run_callback callback fp (state m) buffer_in length_in err in
      ssm_apply SSM_FUEL (task m) fp st (cur_state m) (trace m ++ evs) eff
  | AwaitFinger, FingerInterrupt error =>
      ssm_apply SSM_FUEL (task m) fp (state m) (cur_state m)
        (trace m ++ [ReportFingerStatus FP_FINGER_STATUS_PRESENT])
        (match error with
         | Some e => DoSsm (fpi_ssm_mark_failed e)
         | None => DoSsm fpi_ssm_next_state
         end)
  | _, _ => m
  end.

Definition machine_run (fp : FpDeviceData) (m : Machine) (inputs : list Input)
  : Machine :=
  fold_left (machine_step fp) inputs m.

(** [egismoc_enroll]. *)
Definition egismoc_enroll (fp : FpDeviceData) (dev : FpiDeviceEgisMoc) : Machine :=
  fpi_ssm_start TASK_ENROLL fp
    {| self := dev; enroll_print := {| print := enroll_data fp; stage := 0 |} |}.

(** [egismoc_identify_verify]; the task data of the enroll machine plays no
    part. *)
Definition egismoc_identify_verify (fp : FpDeviceData) (st : DriverState) : Machine :=
  fpi_ssm_start TASK_IDENTIFY fp st.

(** [egismoc_clear_storage]. *)
Definition egismoc_clear_storage (fp : FpDeviceData) (st : DriverState) : Machine :=
  if enrolled_num (self st) =? 0 then
    {| task := TASK_CLEAR_STORAGE; state := st; cur_state := 0%nat;
       pending := TaskIdle;
       trace := [ClearStorageComplete
                   (Some (fpi_device_error_new FP_DEVICE_ERROR_DATA_NOT_FOUND))] |}
  else fpi_ssm_start TASK_CLEAR_STORAGE fp st.

End Tasks.

(** ** Notions used to state the properties *)

(** The names of the commands submitted in a trace, in order. *)
Fixpoint commands_sent (tr : list Event) : list CommandName :=
  match tr with
  | [] => []
  | UsbBulkOut name _ :: rest => name :: commands_sent rest
  | _ :: rest => commands_sent rest
  end.

(** The 16-bit words of a frame, low byte first, the last one completed
    with a zero high byte when the length is odd, and their sum. *)
Fixpoint le_words (frame : list byte) : list Z :=
  match frame with
  | [] => []
  | [lo] => [le16 lo x00]
  | lo :: hi :: rest => le16 lo hi :: le_words rest
  end.

Definition exact_word_sum (frame : list byte) : Z :=
  fold_right Z.add 0 (le_words frame).

(** Whether a commit-start or a new-print command was submitted. *)
Definition commit_sent (tr : list Event) : bool :=
  existsb (fun name => match name with
                       | CMD_COMMIT_STARTING | CMD_NEW_PRINT => true
                       | _ => false
                       end)
          (commands_sent tr).

(** The big-endian two-byte field holding [v]. *)
Definition be16 (v : Z) : list byte := [z2b (v / 256); z2b v].

Definition is_print_id (id : list byte) : Prop :=
  length id = EGISMOC_FINGERPRINT_DATA_SIZE.

(** The device instance whose registry is [R] and whose count is its length. *)
Definition device_with_registry (R : list (list byte)) : FpiDeviceEgisMoc :=
  {| enrolled_num := Z.of_nat (length R); enrolled_ids := Some R |}.

Section SpecWording.
Context {T : EgisMocTables}.

(** The size fields of the check body as the specification words them: one
    byte up to six enrolled prints, otherwise 01 followed by
    ((N - 7) * 0x20) + c. *)
Definition spec_check_size_field (n c : Z) : list Z :=
  if n <=? 6 then [(n + 1) * 32 + c] else [1; (n - 7) * 32 + c].

(** The check body as the specification words it, as a sequence of byte
    values. *)
Definition spec_check_body (R : list (list byte)) : list Z :=
  let n := Z.of_nat (length R) in
  [0; 0] ++ spec_check_size_field n 9 ++ map b2z cmd_check_prefix
    ++ spec_check_size_field n 0 ++ repeat 0 32
    ++ map b2z (concat R) ++ map b2z cmd_check_suffix.

(** The length the specification gives for the check body. *)
Definition spec_check_body_length (R : list (list byte)) : nat :=
  let s_len := if Z.of_nat (length R) <=? 6 then 1%nat else 2%nat in
  (2 + s_len + length cmd_check_prefix + s_len + 32 + 32 * length R
   + length cmd_check_suffix)%nat.

(** The size fields of the delete body as the specification words them,
    with the split of the check body moved to seven identifiers: 00
    followed by (K * 0x20) + c up to K = 7, otherwise 01 followed by
    ((K - 8) * 0x20) + c. *)
Definition spec_delete_size_field (k c : Z) : list Z :=
  if k <=? 7 then [0; k * 32 + c] else [1; (k - 8) * 32 + c].

(** The delete body as the specification words it, as a sequence of byte
    values. *)
Definition spec_delete_body (ids : list (list byte)) : list Z :=
  let k := Z.of_nat (length ids) in
  [0; 0] ++ spec_delete_size_field k 7 ++ map b2z cmd_delete_prefix
    ++ spec_delete_size_field k 0 ++ map b2z (concat ids).

End SpecWording.

Section EnrollInvariant.
Context {T : EgisMocTables}.

(** The callback the enroll machine waits on in each step that sends a
    command. *)
Definition enroll_expected_callback (cur : nat) : option SynCmdMsgCallback :=
  match nth_error enroll_states cur with
  | Some ENROLL_GET_ENROLLED_IDS => Some CB_list
  | Some ENROLL_CHECK => Some CB_enroll_check
  | Some ENROLL_CAPTURE_READ_RESPONSE => Some CB_read_capture
  | Some ENROLL_CHECK_ENROLLED_NUM | Some ENROLL_WAIT_FINGER
  | Some ENROLL_CAPTURE_WAIT_FINGER | Some ENROLL_COMPLETE | None => None
  | Some _ => Some CB_task_ssm_next_state
  end.

(** What holds of the enroll machine all along a run: the pending
    completion belongs to the current step; up to the end of the capture
    loop no commit command has been submitted and the stage counter is
    below the number of stages. *)
Definition enroll_inv (m : Machine) : Prop :=
  task m = TASK_ENROLL
  /\ match pending m with
     | AwaitReply callback => enroll_expected_callback (cur_state m) = Some callback
     | AwaitFinger =>
         nth_error enroll_states (cur_state m) = Some ENROLL_WAIT_FINGER
         \/ nth_error enroll_states (cur_state m) = Some ENROLL_CAPTURE_WAIT_FINGER
     | _ => True
     end
  /\ ((cur_state m <= 11)%nat -> commit_sent (trace m) = false)
  /\ (0 < EGISMOC_ENROLL_TIMES -> (cur_state m <= 11)%nat ->
      0 <= stage (enroll_print (state m)) < EGISMOC_ENROLL_TIMES).

End EnrollInvariant.

(** ** Sample values, to evaluate the driver on *)

Definition sample_fp : FpDeviceData :=
  {| current_action := FPI_DEVICE_ACTION_ENROLL;
     enroll_data := {| fpi_data := GVariantOther |};
     identify_data := [];
     verify_data := {| fpi_data := GVariantOther |};
     generated_user_id := [];
     user_id_tail := fun _ => x00 |}.

(** A device instance whose count was left at [n] by an earlier task. *)
Definition sample_dev (n : Z) : FpiDeviceEgisMoc :=
  {| enrolled_num := n; enrolled_ids := None |}.

Definition sample_state (n : Z) : DriverState :=
  {| self := sample_dev n;
     enroll_print := {| print := {| fpi_data := GVariantOther |}; stage := 0 |} |}.

(** A reply made of the 8 bytes of read prefix and check bytes, zeroed,
    and a payload. *)
Definition sample_reply (payload : list byte) : Input :=
  BulkExchange None (repeat x00 8 ++ payload) (8 + length payload).

(** The steps of an enroll up to the check command: the list reply (no
    print enrolled), sensor reset, sensor enroll, the finger, sensor check. *)
Definition sample_inputs_to_check : list Input :=
  [sample_reply (repeat x00 8); sample_reply []; sample_reply [];
   FingerInterrupt None; sample_reply []].

(** And on to the first read of the capture loop: the check reply
    (not yet enrolled), enroll start, sensor reset, start capture, the
    finger. *)
Definition sample_inputs_to_read_capture : list Input :=
  sample_inputs_to_check
    ++ [sample_reply (@rsp_check_not_yet_enrolled_prefix example_tables);
        sample_reply []; sample_reply []; sample_reply []; FingerInterrupt None].

(** A list reply of 80 bytes, the byte at offset i being i. *)
Definition sample_list_reply : list byte :=
  map (fun i => z2b (Z.of_nat i)) (seq 0 80).


(** ** Further parts of the driver *)

(** [egismoc_get_enrolled_prints]: one new print per registry entry, filled
    by [egismoc_set_print_data]; there is nothing to return when an entry
    is read outside the array. *)
Definition egismoc_get_enrolled_prints (self : FpiDeviceEgisMoc)
  : option (list FpPrint) :=
  fold_left
    (fun acc i =>
       match acc with
       | None => None
       | Some result =>
           match g_ptr_array_index (enrolled_ids self) i with
           | Some device_print_id =>
               Some (result
                       ++ [egismoc_set_print_data {| fpi_data := GVariantOther |}
                             device_print_id])
           | None => None
           end
       end)
    (seq 0 (Z.to_nat (enrolled_num self)))
    (Some []).

(** ** Further notions used to state the properties *)

(** The events that tell the framework the operation is over:
    [fpi_device_*_complete] and [fpi_device_action_error]. *)
Definition is_completion (e : Event) : bool :=
  match e with
  | EnrollComplete _ _ | IdentifyComplete _ | VerifyComplete _
  | ClearStorageComplete _ | ActionError _ => true
  | _ => false
  end.

Definition completions (tr : list Event) : nat :=
  length (filter is_completion tr).

(** Whether a transfer of the task is in flight. *)
Definition in_flight (m : Machine) : bool :=
  match pending m with
  | AwaitReply _ | AwaitFinger => true
  | _ => false
  end.

(** A registry whose count is the length of its array, of 32-byte
    identifiers. *)
Definition registry_ok (self0 : FpiDeviceEgisMoc) : Prop :=
  exists R : list (list byte),
    self0 = device_with_registry R /\ Forall is_print_id R.

Section RunInvariant.
Context {T : EgisMocTables}.

Definition identify_expected_callback (cur : nat) : option SynCmdMsgCallback :=
  match nth_error identify_states cur with
  | Some IDENTIFY_GET_ENROLLED_IDS => Some CB_list
  | Some IDENTIFY_CHECK => Some CB_identify_check
  | Some IDENTIFY_CHECK_ENROLLED_NUM | Some IDENTIFY_WAIT_FINGER
  | Some IDENTIFY_COMPLETE | None => None
  | Some _ => Some CB_task_ssm_next_state
  end.

Definition clear_storage_expected_callback (cur : nat) : option SynCmdMsgCallback :=
  match nth_error clear_storage_states cur with
  | Some CLEAR_STORAGE_GET_ENROLLED_IDS_BEFORE
  | Some CLEAR_STORAGE_GET_ENROLLED_IDS_AFTER => Some CB_list
  | Some CLEAR_STORAGE_CLEAR => Some CB_clear_storage
  | Some CLEAR_STORAGE_COMPLETE | None => None
  end.

(** The callback a task waits on in each step that sends a command. *)
Definition task_expected_callback (t : Task) (cur : nat) : option SynCmdMsgCallback :=
  match t with
  | TASK_ENROLL => enroll_expected_callback cur
  | TASK_IDENTIFY => identify_expected_callback cur
  | TASK_CLEAR_STORAGE => clear_storage_expected_callback cur
  end.

(** The steps that wait for the finger. *)
Definition task_waits_finger (t : Task) (cur : nat) : bool :=
  match t with
  | TASK_ENROLL =>
      match nth_error enroll_states cur with
      | Some ENROLL_WAIT_FINGER | Some ENROLL_CAPTURE_WAIT_FINGER => true
      | _ => false
      end
  | TASK_IDENTIFY =>
      match nth_error identify_states cur with
      | Some IDENTIFY_WAIT_FINGER => true
      | _ => false
      end
  | TASK_CLEAR_STORAGE => false
  end.

(** What holds of every task machine all along a run: while a transfer is
    in flight it belongs to the current step, no completion has been
    reported, and the registry is either being refreshed (a fresh array) or
    consistent; once nothing is in flight, the completion has been reported
    exactly once; the machine never dereferences outside the registry and
    never runs out of fuel. *)
Definition run_inv (m : Machine) : Prop :=
  match pending m with
  | AwaitReply callback =>
      task_expected_callback (task m) (cur_state m) = Some callback
      /\ completions (trace m) = 0%nat
      /\ match callback with
         | CB_list => enrolled_ids (self (state m)) = Some []
         | _ => registry_ok (self (state m))
         end
  | AwaitFinger =>
      task_waits_finger (task m) (cur_state m) = true
      /\ completions (trace m) = 0%nat
      /\ registry_ok (self (state m))
  | TaskDone _ | TaskIdle => completions (trace m) = 1%nat
  | TaskFaulted | FuelExhausted => False
  end.

End RunInvariant.

(** A capture the device accepted: the progress report that carries the
    print and no error. *)
Definition is_stage_passed (e : Event) : bool :=
  match e with
  | EnrollProgress _ (Some _) None => true
  | _ => false
  end.

Definition stages_passed (tr : list Event) : nat :=
  length (filter is_stage_passed tr).

(** The enroll completion that carries the print and no error. *)
Definition is_enroll_success (e : Event) : bool :=
  match e with
  | EnrollComplete (Some _) None => true
  | _ => false
  end.

Definition enroll_succeeded (tr : list Event) : bool :=
  existsb is_enroll_success tr.

(** Whether the new-print command was submitted. *)
Definition new_print_sent (tr : list Event) : bool :=
  existsb (fun name => match name with
                       | CMD_NEW_PRINT => true
                       | _ => false
                       end)
          (commands_sent tr).

Section EnrollStages.
Context {T : EgisMocTables}.

(** What holds of the enroll machine all along a run: the stage counter is
    the number of captures accepted so far; past the capture loop it is
    [EGISMOC_ENROLL_TIMES]; from the commit step on the new-print command
    has been submitted; success is not reported before the last step, after
    which the machine has completed without error. *)
Definition enroll_stage_inv (m : Machine) : Prop :=
  task m = TASK_ENROLL
  /\ match pending m with
     | AwaitReply callback => enroll_expected_callback (cur_state m) = Some callback
     | AwaitFinger => task_waits_finger TASK_ENROLL (cur_state m) = true
     | _ => True
     end
  /\ Z.of_nat (stages_passed (trace m)) = stage (enroll_print (state m))
  /\ ((12 <= cur_state m)%nat ->
      stage (enroll_print (state m)) = EGISMOC_ENROLL_TIMES)
  /\ ((13 <= cur_state m)%nat -> new_print_sent (trace m) = true)
  /\ ((cur_state m <= 15)%nat -> enroll_succeeded (trace m) = false)
  /\ ((16 <= cur_state m)%nat -> pending m = TaskDone None).

End EnrollStages.

(** The commands of each operation, in the order of its steps; an enroll
    repeats the three commands of a capture. *)
Definition identify_protocol : list CommandName :=
  [CMD_LIST; CMD_SENSOR_RESET; CMD_SENSOR_IDENTIFY; CMD_SENSOR_CHECK; CMD_CHECK;
   CMD_SENSOR_RESET].

Definition clear_storage_protocol : list CommandName :=
  [CMD_LIST; CMD_DELETE; CMD_LIST].

Definition enroll_prologue : list CommandName :=
  [CMD_LIST; CMD_SENSOR_RESET; CMD_SENSOR_ENROLL; CMD_SENSOR_CHECK; CMD_CHECK;
   CMD_ENROLL_STARTING].

Definition enroll_capture : list CommandName :=
  [CMD_SENSOR_RESET; CMD_SENSOR_START_CAPTURE; CMD_READ_CAPTURE].

Definition enroll_epilogue : list CommandName :=
  [CMD_COMMIT_STARTING; CMD_NEW_PRINT; CMD_SENSOR_RESET].

Definition enroll_protocol (captures : nat) : list CommandName :=
  enroll_prologue ++ concat (repeat enroll_capture captures) ++ enroll_epilogue.

(** What has been submitted when a transfer of step [cur] is in flight,
    [captures] captures having been read before. *)
Definition task_sent (t : Task) (cur captures : nat) : list CommandName :=
  match t with
  | TASK_ENROLL =>
      if (cur <=? 7)%nat
      then firstn (nth cur [1; 1; 2; 3; 3; 4; 5; 6]%nat 0%nat) enroll_prologue
      else if (cur <=? 11)%nat
      then enroll_prologue ++ concat (repeat enroll_capture captures)
             ++ firstn (nth (cur - 8) [1; 2; 2; 3]%nat 0%nat) enroll_capture
      else enroll_prologue ++ concat (repeat enroll_capture captures)
             ++ firstn (cur - 11) enroll_epilogue
  | TASK_IDENTIFY =>
      firstn (nth cur [1; 1; 2; 3; 3; 4; 5; 6; 6]%nat 0%nat) identify_protocol
  | TASK_CLEAR_STORAGE => firstn (S cur) clear_storage_protocol
  end.

Section ProtocolInvariant.
Context {T : EgisMocTables}.

Definition protocol_inv (t : Task) (m : Machine) : Prop :=
  task m = t
  /\ run_inv m
  /\ exists cur captures : nat,
       commands_sent (trace m) = task_sent t cur captures
       /\ (in_flight m = true -> cur = cur_state m).

End ProtocolInvariant.

(** ** The list and delete operations *)

(** Modelled from the spec: the [LIST_*] and [DELETE_*] enumerations of
    [egismoc.h], which are not part of the sources at hand; the values
    follow the order of the cases in the handlers. *)
Inductive ListState :=
| LIST_GET_ENROLLED_IDS
| LIST_RETURN_ENROLLED_PRINTS.

Definition list_states : list ListState :=
  [LIST_GET_ENROLLED_IDS; LIST_RETURN_ENROLLED_PRINTS].
Definition LIST_STATES : nat := length list_states.

Inductive DeleteState :=
| DELETE_GET_ENROLLED_IDS
| DELETE_DELETE.

Definition delete_states : list DeleteState :=
  [DELETE_GET_ENROLLED_IDS; DELETE_DELETE].
Definition DELETE_STATES : nat := length delete_states.

(** The two operations; the data of the delete machine is the print to
    delete. *)
Inductive StorageTask :=
| TASK_LIST
| TASK_DELETE (delete_print : FpPrint).

(** What these operations call besides the calls of [Event]. *)
Inductive StorageEvent :=
| DriverEvent (e : Event)
| ListComplete (prints : list FpPrint) (error : option GError)
| DeleteComplete (error : option GError).

(** How their handlers and callbacks end: as those of the other operations
    do, or with the delete command submitted for [egismoc_delete_cb]. *)
Inductive StorageEffect :=
| Shared (eff : Effect)
| DoCmdDelete (body : list byte).

Inductive StoragePending :=
| Waiting (p : Pending)
| AwaitDeleteReply.

Record StorageMachine := {
  storage_task : StorageTask;
  storage_state : DriverState;
  storage_cur_state : nat;
  storage_pending : StoragePending;
  storage_trace : list StorageEvent
}.

Definition storage_nr_states (t : StorageTask) : nat :=
  match t with
  | TASK_LIST => LIST_STATES
  | TASK_DELETE _ => DELETE_STATES
  end.

(** The result of a handler or callback shared with the other operations. *)
Definition shared_result (r : DriverState * list Event * Effect)
  : DriverState * list StorageEvent * StorageEffect :=
  let '(st, evs, eff) := r in (st, map DriverEvent evs, Shared eff).

(** [egismoc_task_ssm_done], on these machines. *)
Definition storage_task_ssm_done (t : StorageTask) (st : DriverState) (cur : nat)
  (tr : list StorageEvent) (error : option GError) : StorageMachine :=
  {| storage_task := t;
     storage_state := set_self st {| enrolled_num := enrolled_num (self st);
                                     enrolled_ids := None |};
     storage_cur_state := cur;
     storage_pending := Waiting (TaskDone error);
     storage_trace := tr ++ match error with
                            | Some e => [DriverEvent (ActionError e)]
                            | None => []
                            end |}.

Section StorageTasks.
Context {T : EgisMocTables}.

(** [egismoc_list_run_state]. *)
Definition egismoc_list_run_state (cur_state : nat) (st : DriverState)
  : DriverState * list StorageEvent * StorageEffect :=
  match nth_error list_states cur_state with
  | Some LIST_GET_ENROLLED_IDS => shared_result (egismoc_fill_enrolled_ids st)
  | Some LIST_RETURN_ENROLLED_PRINTS =>
      match egismoc_get_enrolled_prints (self st) with
      | Some enrolled_prints =>
          (st, [ListComplete enrolled_prints None], Shared (DoSsm fpi_ssm_next_state))
      | None => (st, [], Shared DoFault)
      end
  | None => (st, [], Shared DoNothing)
  end.

(** [egismoc_delete_cb]. *)
Definition egismoc_delete_cb (st : DriverState) (buffer_in : list byte)
  (length_in : nat) (error : option GError)
  : DriverState * list StorageEvent * StorageEffect :=
  match error with
  | Some e => (st, [DeleteComplete (Some e)], Shared DoNothing)
  | None =>
      if egismoc_validate_response_prefix buffer_in length_in rsp_delete_success_prefix
      then (st, [DeleteComplete None], Shared (DoSsm fpi_ssm_next_state))
      else
        (st,
         [DeleteComplete
            (Some (fpi_device_error_new_msg FP_DEVICE_ERROR_PROTO
                     "Delete print was not successfull"))],
         Shared DoNothing)
  end.

(** [egismoc_delete_run_state].  When [egismoc_get_delete_cmd] has
    completed the delete with data-invalid and returned [NULL], the handler
    goes on to read [cmd->cmd]. *)
Definition egismoc_delete_run_state (delete_print : FpPrint) (cur_state : nat)
  (st : DriverState) : DriverState * list StorageEvent * StorageEffect :=
  match nth_error delete_states cur_state with
  | Some DELETE_GET_ENROLLED_IDS => shared_result (egismoc_fill_enrolled_ids st)
  | Some DELETE_DELETE =>
      match egismoc_get_delete_cmd (self st) (Some delete_print) with
      | CmdBuilt cmd => (st, [], DoCmdDelete cmd)
      | CmdNullDataInvalid =>
          (st,
           [DeleteComplete (Some (fpi_device_error_new FP_DEVICE_ERROR_DATA_INVALID))],
           Shared DoFault)
      | CmdFault => (st, [], Shared DoFault)
      end
  | None => (st, [], Shared DoNothing)
  end.

Definition storage_run_state (t : StorageTask) (cur_state : nat)
  (st : DriverState) : DriverState * list StorageEvent * StorageEffect :=
  match t with
  | TASK_LIST => egismoc_list_run_state cur_state st
  | TASK_DELETE delete_print => egismoc_delete_run_state delete_print cur_state st
  end.

(** The framework calls, as in [ssm_apply], on the handlers of these two
    machines. *)
Fixpoint storage_ssm_apply (fuel : nat) (t : StorageTask) (st : DriverState)
  (cur : nat) (tr : list StorageEvent) (eff : StorageEffect) : StorageMachine :=
  let stop p tr :=
    {| storage_task := t; storage_state := st; storage_cur_state := cur;
       storage_pending := p; storage_trace := tr |} in
  let enter next :=
    match fuel with
    | O => stop (Waiting FuelExhausted) tr
    | S fuel' =>
        let '(st', evs, eff') := storage_run_state t next st in
        storage_ssm_apply fuel' t st' next (tr ++ evs) eff'
    end in
  match eff with
  | DoCmdDelete body =>
      stop AwaitDeleteReply
           (tr ++ [DriverEvent (UsbBulkOut CMD_DELETE (egismoc_compose_cmd body))])
  | Shared (DoCmd name body callback) =>
      stop (Waiting (AwaitReply callback))
           (tr ++ [DriverEvent (UsbBulkOut name (egismoc_compose_cmd body))])
  | Shared DoWaitFinger =>
      stop (Waiting AwaitFinger)
           (tr ++ [DriverEvent (ReportFingerStatus FP_FINGER_STATUS_NEEDED)])
  | Shared DoFault => stop (Waiting TaskFaulted) tr
  | Shared DoNothing => stop (Waiting TaskIdle) tr
  | Shared (DoSsm fpi_ssm_next_state) =>
      if (S cur =? storage_nr_states t)%nat
      then storage_task_ssm_done t st (S cur) tr None
      else enter (S cur)
  | Shared (DoSsm (fpi_ssm_jump_to_state s)) => enter s
  | Shared (DoSsm (fpi_ssm_mark_failed e)) =>
      storage_task_ssm_done t st cur tr (Some e)
  | Shared (DoSsm fpi_ssm_mark_completed) =>
      storage_task_ssm_done t st cur tr None
  end.

(** One completion delivered to the machine, as in [machine_step]. *)
Definition storage_step (fp : FpDeviceData) (m : StorageMachine) (i : Input)
  : StorageMachine :=
  match storage_pending m, i with
  | Waiting (AwaitReply callback), BulkExchange error buffer actual_length =>
      let '(buffer_in, length_in, err) :=
        egismoc_cmd_receive_cb error buffer actual_length in
      let '(st, evs, eff) :=
        shared_result
          (run_callback callback fp (storage_state m) buffer_in length_in err) in
      storage_ssm_apply SSM_FUEL (storage_task m) st (storage_cur_state m)
        (storage_trace m ++ evs) eff
  | AwaitDeleteReply, BulkExchange error buffer actual_length =>
      let '(buffer_in, length_in, err) :=
        egismoc_cmd_receive_cb error buffer actual_length in
      let '(st, evs, eff) :=
        egismoc_delete_cb (storage_state m) buffer_in length_in err in
      storage_ssm_apply SSM_FUEL (storage_task m) st (storage_cur_state m)
        (storage_trace m ++ evs) eff
  | Waiting AwaitFinger, FingerInterrupt error =>
      storage_ssm_apply SSM_FUEL (storage_task m) (storage_state m)
        (storage_cur_state m)
        (storage_trace m
           ++ [DriverEvent (ReportFingerStatus FP_FINGER_STATUS_PRESENT)])
        (Shared (match error with
                 | Some e => DoSsm (fpi_ssm_mark_failed e)
                 | None => DoSsm fpi_ssm_next_state
                 end))
  | _, _ => m
  end.

Definition storage_run (fp : FpDeviceData) (m : StorageMachine)
  (inputs : list Input) : StorageMachine :=
  fold_left (storage_step fp) inputs m.

(** [egismoc_list]. *)
Definition egismoc_list (st : DriverState) : StorageMachine :=
  storage_ssm_apply SSM_FUEL TASK_LIST st 0 []
    (Shared (DoSsm (fpi_ssm_jump_to_state 0))).

(** [egismoc_delete]; [delete_print] is what [fpi_device_get_delete_data]
    hands over. *)
Definition egismoc_delete (st : DriverState) (delete_print : FpPrint)
  : StorageMachine :=
  storage_ssm_apply SSM_FUEL (TASK_DELETE delete_print) st 0 []
    (Shared (DoSsm (fpi_ssm_jump_to_state 0))).

End StorageTasks.

(** The print [egismoc_set_print_data] makes of an identifier. *)
Definition print_of_id (id : list byte) : FpPrint :=
  {| fpi_data := GVariantByteArrayTuple id |}.

(** ** Further sample values *)

(** A registry of two identifiers. *)
Definition sample_registry_2 : list (list byte) := [repeat x01 32; repeat x02 32].

(** A list reply carrying a registry: 14 bytes of framing, the identifiers
    end to end, 2 closing bytes. *)
Definition sample_list_reply_of (R : list (list byte)) : list byte :=
  repeat x00 14 ++ concat R ++ [x90; x00].

(** The payload of [sample_list_reply] in other framing, with other closing
    bytes and other bytes behind the 80 received. *)
Definition sample_list_reply_reframed : list byte :=
  repeat xff 14 ++ buf_slice sample_list_reply 14 64 ++ repeat xff 18.

(** The task data of an enroll that has passed [s] stages. *)
Definition sample_state_at_stage (s : Z) : DriverState :=
  {| self := sample_dev 0;
     enroll_print := {| print := {| fpi_data := GVariantOther |}; stage := s |} |}.

(** An enroll whose generated user id is a string of 32 characters. *)
Definition sample_fp_user_id : FpDeviceData :=
  {| current_action := FPI_DEVICE_ACTION_ENROLL;
     enroll_data := {| fpi_data := GVariantOther |};
     identify_data := [];
     verify_data := {| fpi_data := GVariantOther |};
     generated_user_id := list_byte_of_string "FP1-20261030-7-0A1B2C3D-username";
     user_id_tail := fun _ => xff |}.

(** The reply to a read-capture command that reports a good capture. *)
Definition sample_capture_ok : list byte :=
  repeat x00 8 ++ [x00; x00; x00; x04; x0a; x90; x00].

(** A whole enroll: up to the first read, then ten good captures, each
    later one after sensor reset, start capture and the finger, then the
    replies to commit start, new print and sensor reset. *)
Definition sample_inputs_full_enroll : list Input :=
  sample_inputs_to_read_capture
    ++ [BulkExchange None sample_capture_ok 15]
    ++ concat (repeat [sample_reply []; sample_reply []; FingerInterrupt None;
                       BulkExchange None sample_capture_ok 15] 9)
    ++ [sample_reply []; sample_reply []; sample_reply []].

(** An identify against a gallery of one print, and the reply to the check
    command that reports a match with that print. *)
Definition sample_fp_identify : FpDeviceData :=
  {| current_action := FPI_DEVICE_ACTION_IDENTIFY;
     enroll_data := {| fpi_data := GVariantOther |};
     identify_data := [{| fpi_data := GVariantByteArrayTuple (repeat x01 32) |}];
     verify_data := {| fpi_data := GVariantOther |};
     generated_user_id := [];
     user_id_tail := fun _ => x00 |}.

Definition sample_identify_match : list byte :=
  repeat x00 8 ++ [x00; x00; x00; x42] ++ repeat x00 34 ++ repeat x01 32
    ++ [x90; x00].

(** The reply to a delete command that reports success. *)
Definition sample_delete_ok : list byte :=
  repeat x00 8 ++ [x00; x00; x00; x02; x90; x00].
(** ** Properties *)

(** *** Bytes and buffers *)

Lemma b2z_range (b : byte) : 0 <= b2z b < 256.
Proof.
  unfold b2z. pose proof (Byte.to_N_bounded b). lia.
Qed.

Lemma b2z_z2b (z : Z) : b2z (z2b z) = z mod 256.
Proof.
  unfold z2b, b2z.
  assert (Hr : 0 <= z mod 256 < 256) by (apply Z.mod_pos_bound; lia).
  destruct (Byte.of_N (Z.to_N (z mod 256))) as [b|] eqn:E.
  - apply Byte.to_of_N in E. rewrite E. apply Z2N.id. lia.
  - apply Byte.of_N_None_iff in E. lia.
Qed.

Lemma z2b_b2z (b : byte) : z2b (b2z b) = b.
Proof.
  unfold z2b. rewrite Z.mod_small by apply b2z_range.
  unfold b2z. rewrite N2Z.id, Byte.of_to_N. reflexivity.
Qed.

Lemma bytes_eqb_eq (a b : list byte) : bytes_eqb a b = true <-> a = b.
Proof.
  revert b. induction a as [|x a IH]; intros [|y b]; simpl; try (split; congruence); [].
  rewrite andb_true_iff, IH. split.
  - intros [Hx ->]. f_equal. now apply Byte.byte_dec_bl.
  - intros [= -> ->]. split; auto. now apply Byte.byte_dec_lb.
Qed.

Lemma buf_slice_length (buffer : list byte) (off n : nat) :
  length (buf_slice buffer off n) = n.
Proof. unfold buf_slice. now rewrite length_map, length_seq. Qed.

Lemma buf_slice_firstn_skipn (buffer : list byte) (off n : nat) :
  (off + n <= length buffer)%nat ->
  buf_slice buffer off n = firstn n (skipn off buffer).
Proof.
  unfold buf_slice, buf_get. revert off buffer.
  induction n as [|n IH]; intros off buffer H.
  - reflexivity.
  - rewrite <- cons_seq, <- seq_shift. simpl. rewrite map_map.
    destruct (skipn off buffer) as [|b rest] eqn:E.
    + assert (length (skipn off buffer) = 0%nat) by now rewrite E.
      rewrite length_skipn in *. lia.
    + simpl. f_equal.
      * rewrite Nat.add_0_r.
        rewrite <- (firstn_skipn off buffer) at 1.
        rewrite app_nth2; rewrite length_firstn; [|lia].
        replace (off - Init.Nat.min off (length buffer))%nat with 0%nat by lia.
        now rewrite E.
      * specialize (IH (S off) buffer ltac:(lia)).
        replace (skipn (S off) buffer) with rest in IH.
        -- rewrite <- IH. apply map_ext. intros a. f_equal. lia.
        -- change (S off) with (1 + off)%nat. rewrite <- skipn_skipn, E.
           reflexivity.
Qed.

Lemma buf_slice_all (src : list byte) : buf_slice src 0 (length src) = src.
Proof.
  rewrite buf_slice_firstn_skipn by lia. simpl. apply firstn_all.
Qed.

Lemma memcpy_at_fill (pre post src : list byte) (n : nat) :
  length src = n ->
  memcpy_at (pre ++ repeat x00 n ++ post) (length pre) src n = pre ++ src ++ post.
Proof.
  intros <-. unfold memcpy_at.
  rewrite buf_slice_all.
  rewrite firstn_app, firstn_all, Nat.sub_diag, firstn_O, app_nil_r.
  f_equal. f_equal.
  rewrite skipn_app, skipn_all2 by lia. simpl.
  replace (length pre + length src - length pre)%nat with (length src) by lia.
  rewrite skipn_app, skipn_all2 by (rewrite repeat_length; lia).
  rewrite repeat_length, Nat.sub_diag. reflexivity.
Qed.

Lemma memset_at_fill (pre post : list byte) (c : Z) :
  memset_at (pre ++ x00 :: post) (length pre) c = pre ++ z2b c :: post.
Proof.
  unfold memset_at.
  exact (memcpy_at_fill pre post [z2b c] 1 eq_refl).
Qed.

(** *** Frame codec *)

(** Induction two bytes at a time, as the loops over words go. *)
Lemma list_pair_ind (A : Type) (P : list A -> Prop) :
  P [] -> (forall a, P [a]) -> (forall a b l, P l -> P (a :: b :: l)) ->
  forall l, P l.
Proof.
  intros H0 H1 H2 l.
  assert (H : P l /\ forall a, P (a :: l)).
  { induction l as [|b l [IHa IHb]]; split; auto. }
  apply H.
Qed.

Lemma word_value (lo hi : byte) :
  (Z.lor (Z.shiftl (b2z hi) 8) (Z.land 255 (b2z lo))) mod USHRT_MOD = le16 lo hi.
Proof.
  pose proof (b2z_range lo) as Hlo. pose proof (b2z_range hi) as Hhi.
  unfold le16, USHRT_MOD.
  assert (Hland : Z.land 255 (b2z lo) = b2z lo).
  { rewrite Z.land_comm. change 255 with (Z.ones 8).
    rewrite Z.land_ones by lia. apply Z.mod_small. lia. }
  rewrite Hland, Z.shiftl_mul_pow2 by lia.
  assert (Hdisj : Z.land (b2z hi * 2 ^ 8) (b2z lo) = 0).
  { apply Z.bits_inj'. intros n Hn. rewrite Z.land_spec, Z.bits_0.
    destruct (Z.ltb_spec n 8).
    - rewrite Z.mul_pow2_bits_low by lia. reflexivity.
    - rewrite <- (Z.mod_small (b2z lo) (2 ^ 8)) by lia.
      rewrite Z.mod_pow2_bits_high by lia. apply andb_false_r. }
  rewrite <- Z.lxor_lor, <- Z.add_nocarry_lxor by assumption.
  rewrite Z.mod_small; lia.
Qed.

Lemma b2z_x00 : b2z x00 = 0.
Proof. reflexivity. Qed.

Lemma value_bigendian_shorts_le_words (value : list byte) :
  value_bigendian_shorts value = le_words value.
Proof.
  induction value as [|lo|lo hi rest IH] using list_pair_ind.
  - reflexivity.
  - cbn [value_bigendian_shorts le_words].
    change (Z.shiftl 0 8) with (Z.shiftl (b2z x00) 8).
    now rewrite word_value.
  - cbn [value_bigendian_shorts le_words]. now rewrite word_value, IH.
Qed.

Lemma le16_range (lo hi : byte) : 0 <= le16 lo hi < 65536.
Proof.
  unfold le16. pose proof (b2z_range lo). pose proof (b2z_range hi). lia.
Qed.

Lemma le_words_range (frame : list byte) :
  Forall (fun w => 0 <= w < 65536) (le_words frame).
Proof.
  induction frame as [|lo|lo hi rest IH] using list_pair_ind;
    cbn [le_words]; repeat constructor; try apply le16_range; assumption.
Qed.

Lemma le_words_length (frame : list byte) :
  (length (le_words frame) <= length frame)%nat.
Proof.
  induction frame as [|lo|lo hi rest IH] using list_pair_ind;
    cbn [le_words length]; lia.
Qed.

Lemma le_words_app_even (a b : list byte) :
  Nat.even (length a) = true -> le_words (a ++ b) = le_words a ++ le_words b.
Proof.
  induction a as [|x|x y a IH] using list_pair_ind; intros H.
  - reflexivity.
  - discriminate.
  - cbn [app le_words]. rewrite IH by exact H. reflexivity.
Qed.

(** The 64-bit accumulator does not wrap on a buffer an [int] can index. *)
Lemma sum_shorts_exact_from (ws : list Z) (acc : Z) :
  Forall (fun w => 0 <= w < 65536) ws ->
  0 <= acc -> acc + 65536 * Z.of_nat (length ws) < ULONG_MOD ->
  fold_left (fun a w => (a + w) mod ULONG_MOD) ws acc = acc + fold_right Z.add 0 ws.
Proof.
  revert acc. induction ws as [|w ws IH]; intros acc Hall Hacc Hb.
  - simpl. lia.
  - inversion Hall as [|? ? Hw Hws]; subst.
    cbn [fold_left fold_right]. cbn [length] in Hb.
    rewrite Z.mod_small by lia.
    rewrite IH; [lia | assumption | lia | lia].
Qed.

Lemma word_sum_exact (frame : list byte) :
  Z.of_nat (length frame) <= INT_MAX -> word_sum frame = exact_word_sum frame.
Proof.
  intros H. unfold word_sum, exact_word_sum, sum_shorts.
  rewrite value_bigendian_shorts_le_words.
  rewrite sum_shorts_exact_from.
  - lia.
  - apply le_words_range.
  - lia.
  - pose proof (le_words_length frame). unfold ULONG_MOD, INT_MAX in *. lia.
Qed.

Lemma check_short_value (value : list byte) :
  check_short value = 65535 - word_sum value mod 65535
  /\ 1 <= check_short value <= 65535.
Proof.
  unfold check_short, word_sum, USHRT_MOD.
  pose proof (Z.mod_pos_bound (sum_shorts (value_bigendian_shorts value)) 65535
                ltac:(lia)).
  rewrite Z.mod_small by lia. lia.
Qed.

Lemma get_check_bytes_split (value : list byte) :
  egismoc_get_check_bytes value EGISMOC_CHECK_BYTES_LENGTH
  = [z2b (check_short value); z2b (Z.shiftr (check_short value) 8)].
Proof. reflexivity. Qed.

Lemma check_bytes_le16 (value : list byte) :
  le16 (z2b (check_short value)) (z2b (Z.shiftr (check_short value) 8))
  = check_short value.
Proof.
  destruct (check_short_value value) as [_ Hr].
  unfold le16. rewrite !b2z_z2b, Z.shiftr_div_pow2 by lia.
  change (2 ^ 8) with 256.
  rewrite (Z.mod_small (check_short value / 256)).
  - pose proof (Z.div_mod (check_short value) 256 ltac:(lia)). lia.
  - split; [apply Z.div_pos; lia | apply Z.div_lt_upper_bound; lia].
Qed.

Lemma repeat_add (A : Type) (x : A) (n m : nat) :
  repeat x (n + m) = repeat x n ++ repeat x m.
Proof. apply repeat_app. Qed.

(** The composed frame: prefix, check bytes over the frame with zeroed
    slots, body. *)
Lemma egismoc_compose_cmd_layout (body : list byte) :
  egismoc_compose_cmd body
  = egismoc_write_prefix
      ++ egismoc_get_check_bytes (frame_without_check body) EGISMOC_CHECK_BYTES_LENGTH
      ++ body.
Proof.
  unfold egismoc_compose_cmd.
  set (p := egismoc_write_prefix).
  assert (Hp : egismoc_write_prefix_len = length p) by reflexivity.
  rewrite Hp.
  assert (H1 : memcpy_at (repeat x00 (length p + EGISMOC_CHECK_BYTES_LENGTH + length body))
                 0 p (length p)
               = p ++ repeat x00 (EGISMOC_CHECK_BYTES_LENGTH + length body)).
  { rewrite <- Nat.add_assoc, repeat_add.
    exact (memcpy_at_fill [] _ p (length p) eq_refl). }
  rewrite H1.
  assert (H2 : memcpy_at (p ++ repeat x00 (EGISMOC_CHECK_BYTES_LENGTH + length body))
                 (length p + EGISMOC_CHECK_BYTES_LENGTH) body (length body)
               = frame_without_check body).
  { rewrite repeat_add.
    replace (p ++ repeat x00 EGISMOC_CHECK_BYTES_LENGTH ++ repeat x00 (length body))
      with ((p ++ [x00; x00]) ++ repeat x00 (length body) ++ [])
      by (rewrite app_nil_r, <- app_assoc; reflexivity).
    replace (length p + EGISMOC_CHECK_BYTES_LENGTH)%nat with (length (p ++ [x00; x00]))
      by (rewrite length_app; reflexivity).
    rewrite memcpy_at_fill by reflexivity.
    rewrite app_nil_r, <- app_assoc. reflexivity. }
  rewrite H2.
  unfold frame_without_check. fold p.
  change [x00; x00] with (repeat x00 EGISMOC_CHECK_BYTES_LENGTH).
  apply memcpy_at_fill.
  reflexivity.
Qed.

(** C9: the check value [0xFFFF - (word-sum mod 0xFFFF)] lies in 1..0xFFFF
    for every buffer, so the two check bytes are never both zero, neither
    those [egismoc_get_check_bytes] returns nor those at offsets 8 and 9 of
    a composed command; when the word-sum is a multiple of 0xFFFF the check
    field is FF FF. *)
Theorem check_value_never_zero :
  (forall value : list byte,
      1 <= check_short value <= 65535
      /\ check_short value = 65535 - word_sum value mod 65535
      /\ egismoc_get_check_bytes value EGISMOC_CHECK_BYTES_LENGTH
         = [z2b (check_short value); z2b (Z.shiftr (check_short value) 8)]
      /\ egismoc_get_check_bytes value EGISMOC_CHECK_BYTES_LENGTH <> [x00; x00]
      /\ (word_sum value mod 65535 = 0 ->
          egismoc_get_check_bytes value EGISMOC_CHECK_BYTES_LENGTH = [xff; xff]))
  /\ (forall body : list byte,
         buf_slice (egismoc_compose_cmd body) 8 2 <> [x00; x00]
         /\ (word_sum (frame_without_check body) mod 65535 = 0 ->
             buf_slice (egismoc_compose_cmd body) 8 2 = [xff; xff])).
Proof.
  assert (Hval : forall value : list byte,
             egismoc_get_check_bytes value EGISMOC_CHECK_BYTES_LENGTH <> [x00; x00]
             /\ (word_sum value mod 65535 = 0 ->
                 egismoc_get_check_bytes value EGISMOC_CHECK_BYTES_LENGTH = [xff; xff])).
  { intros value. destruct (check_short_value value) as [Hcs Hr]. split.
    - rewrite get_check_bytes_split. intros [= Hlo Hhi].
      pose proof (check_bytes_le16 value) as Hle.
      rewrite Hlo, Hhi in Hle. unfold le16 in Hle. rewrite b2z_x00 in Hle. lia.
    - intros H0. rewrite get_check_bytes_split, Hcs, H0. reflexivity. }
  split.
  - intros value. destruct (check_short_value value) as [Hcs Hr].
    destruct (Hval value) as [Hnz Hff].
    repeat split; try assumption; try lia.
  - intros body.
    assert (Hsl : buf_slice (egismoc_compose_cmd body) 8 2
                  = egismoc_get_check_bytes (frame_without_check body)
                      EGISMOC_CHECK_BYTES_LENGTH).
    { rewrite egismoc_compose_cmd_layout, get_check_bytes_split. reflexivity. }
    rewrite Hsl. apply Hval.
Qed.

(** C9, at the empty buffer: the word-sum is 0, a multiple of 0xFFFF, and
    the check field is FF FF. *)
Lemma check_value_never_zero_witness :
  word_sum [] mod 65535 = 0
  /\ egismoc_get_check_bytes [] EGISMOC_CHECK_BYTES_LENGTH = [xff; xff].
Proof.
  split.
  - reflexivity.
  - apply (proj1 check_value_never_zero []). reflexivity.
Defined.

(** C1: for every body [B] (one an [int] can index once framed),
    [egismoc_compose_cmd B] has length 10 + len(B) and is the 8-byte write
    prefix 'E' 'G' 'I' 'S' 00 00 00 01, then two check bytes whose
    little-endian value is 0xFFFF minus the word-sum, mod 0xFFFF, of the
    frame with the check slots zeroed, then [B] at offset 10; and the
    word-sum of the composed frame is congruent to 0 mod 0xFFFF. *)
Theorem compose_cmd_layout_and_checksum (B : list byte) :
  Z.of_nat (length B) + 10 <= INT_MAX ->
  let frame := egismoc_compose_cmd B in
  length frame = (10 + length B)%nat
  /\ firstn 8 frame = [x45; x47; x49; x53; x00; x00; x00; x01]
  /\ le16 (buf_get frame 8) (buf_get frame 9)
     = 65535 - exact_word_sum (egismoc_write_prefix ++ [x00; x00] ++ B) mod 65535
  /\ skipn 10 frame = B
  /\ exact_word_sum frame mod 65535 = 0
  /\ word_sum frame mod 65535 = 0.
Proof.
  intros Hlen frame. subst frame.
  rewrite egismoc_compose_cmd_layout, get_check_bytes_split.
  set (cs := check_short (frame_without_check B)).
  assert (Hcs : cs = 65535 - exact_word_sum (frame_without_check B) mod 65535).
  { unfold cs. rewrite (proj1 (check_short_value _)), word_sum_exact; [reflexivity|].
    unfold frame_without_check, egismoc_write_prefix.
    rewrite !length_app. cbn [length]. unfold INT_MAX in *. lia. }
  assert (Hle : le16 (z2b cs) (z2b (Z.shiftr cs 8)) = cs)
    by apply check_bytes_le16.
  assert (Hsum : exact_word_sum
                   (egismoc_write_prefix ++ [z2b cs; z2b (Z.shiftr cs 8)] ++ B)
                 = exact_word_sum (frame_without_check B) + cs).
  { unfold exact_word_sum, frame_without_check.
    rewrite !(le_words_app_even egismoc_write_prefix) by reflexivity.
    rewrite !fold_right_app.
    cbn [app le_words fold_right]. rewrite Hle.
    change (le16 x00 x00) with 0.
    generalize (fold_right Z.add 0 (le_words B)). intros s.
    cbn [egismoc_write_prefix le_words fold_right]. lia. }
  assert (Hzero : exact_word_sum
                   (egismoc_write_prefix ++ [z2b cs; z2b (Z.shiftr cs 8)] ++ B)
                  mod 65535 = 0).
  { rewrite Hsum, Hcs.
    set (s := exact_word_sum (frame_without_check B)).
    replace (s + (65535 - s mod 65535)) with (s - s mod 65535 + 1 * 65535) by lia.
    rewrite Z.mod_add by lia.
    rewrite Zminus_mod, Z.mod_mod, Z.sub_diag by lia. reflexivity. }
  split; [|split; [|split; [|split; [|split]]]].
  - rewrite !length_app. reflexivity.
  - reflexivity.
  - cbn [egismoc_write_prefix app buf_get nth]. rewrite Hle. exact Hcs.
  - reflexivity.
  - exact Hzero.
  - rewrite word_sum_exact; [exact Hzero|].
    unfold egismoc_write_prefix.
    rewrite !length_app. cbn [length]. unfold INT_MAX in *. lia.
Qed.

(** C1, at the body 01 02 03 04 05. *)
Lemma compose_cmd_layout_and_checksum_witness :
  Z.of_nat (length [x01; x02; x03; x04; x05]) + 10 <= INT_MAX
  /\ exact_word_sum (egismoc_compose_cmd [x01; x02; x03; x04; x05]) mod 65535 = 0.
Proof.
  split.
  - unfold INT_MAX. simpl. lia.
  - apply (compose_cmd_layout_and_checksum [x01; x02; x03; x04; x05]).
    unfold INT_MAX. simpl. lia.
Defined.

(** *** Command builders *)

Lemma memcpy_at_fill_at (pre post src : list byte) (n pos : nat) :
  length src = n -> pos = length pre ->
  memcpy_at (pre ++ repeat x00 n ++ post) pos src n = pre ++ src ++ post.
Proof. intros Hs ->. now apply memcpy_at_fill. Qed.

Lemma memset_at_fill_at (pre post : list byte) (c : Z) (pos : nat) :
  pos = length pre ->
  memset_at (pre ++ x00 :: post) pos c = pre ++ z2b c :: post.
Proof. intros ->. apply memset_at_fill. Qed.

Lemma z2b_mod (a b : Z) : a mod 256 = b mod 256 -> z2b a = z2b b.
Proof. unfold z2b. now intros ->. Qed.

Lemma concat_print_ids_length (R : list (list byte)) :
  Forall is_print_id R ->
  length (concat R) = (length R * EGISMOC_FINGERPRINT_DATA_SIZE)%nat.
Proof.
  unfold is_print_id. change EGISMOC_FINGERPRINT_DATA_SIZE with 32%nat.
  induction 1 as [|id R Hid _ IH]; [reflexivity|].
  cbn [concat length]. rewrite length_app, IH, Hid. lia.
Qed.

Lemma firstn_succ_nth_error (A : Type) (l : list A) (k : nat) (x : A) :
  nth_error l k = Some x -> firstn (S k) l = firstn k l ++ [x].
Proof.
  revert k. induction l as [|a l IH]; intros [|k] H; try discriminate.
  - now injection H as ->.
  - cbn [firstn app]. f_equal. now apply IH.
Qed.

(** The loop over the registry fills the zeroed slots with the identifiers
    in registry order. *)
Lemma append_enrolled_ids_upto (R : list (list byte)) (pre post : list byte)
  (k : nat) :
  Forall is_print_id R -> (k <= length R)%nat ->
  fold_left
    (fun acc i =>
       match acc with
       | None => None
       | Some result =>
           match g_ptr_array_index (Some R) i with
           | Some print_id =>
               Some (memcpy_at result
                       (length pre + EGISMOC_FINGERPRINT_DATA_SIZE * i)%nat
                       print_id EGISMOC_FINGERPRINT_DATA_SIZE)
           | None => None
           end
       end)
    (seq 0 k)
    (Some (pre ++ repeat x00 (length R * EGISMOC_FINGERPRINT_DATA_SIZE) ++ post))
  = Some (pre ++ concat (firstn k R)
              ++ repeat x00 ((length R - k) * EGISMOC_FINGERPRINT_DATA_SIZE) ++ post).
Proof.
  intros Hall.
  pose proof concat_print_ids_length as Hcat.
  unfold is_print_id in *. change EGISMOC_FINGERPRINT_DATA_SIZE with 32%nat in *.
  induction k as [|k IH]; intros Hk.
  - cbn [seq fold_left firstn concat app]. now rewrite Nat.sub_0_r.
  - rewrite seq_S, fold_left_app, IH by lia. cbn [fold_left Nat.add g_ptr_array_index].
    destruct (nth_error R k) as [id|] eqn:Hnth.
    2:{ apply nth_error_None in Hnth. lia. }
    assert (Hid : length id = 32%nat).
    { rewrite Forall_forall in Hall. apply Hall. eapply nth_error_In; eauto. }
    rewrite (firstn_succ_nth_error _ _ _ _ Hnth), concat_app.
    cbn [concat]. rewrite app_nil_r. f_equal.
    replace ((length R - k) * 32)%nat
      with (32 + (length R - S k) * 32)%nat by lia.
    rewrite repeat_add.
    replace (pre ++ concat (firstn k R)
               ++ (repeat x00 32 ++ repeat x00 ((length R - S k) * 32))
               ++ post)
      with ((pre ++ concat (firstn k R))
              ++ repeat x00 32
              ++ (repeat x00 ((length R - S k) * 32) ++ post))
      by (rewrite <- !app_assoc; reflexivity).
    rewrite memcpy_at_fill_at.
    + rewrite <- !app_assoc. reflexivity.
    + exact Hid.
    + rewrite length_app, Hcat.
      * rewrite length_firstn. lia.
      * rewrite <- (firstn_skipn k R) in Hall. apply Forall_app in Hall.
        apply Hall.
Qed.

Lemma append_enrolled_ids_fill (R : list (list byte)) (pre post : list byte)
  (pos : nat) :
  Forall is_print_id R -> pos = length pre ->
  append_enrolled_ids (device_with_registry R)
    (pre ++ repeat x00 (length R * EGISMOC_FINGERPRINT_DATA_SIZE) ++ post) pos
  = Some (pre ++ concat R ++ post).
Proof.
  intros Hall ->. unfold append_enrolled_ids, device_with_registry.
  cbn [enrolled_num enrolled_ids]. rewrite Nat2Z.id.
  rewrite (append_enrolled_ids_upto R pre post (length R) Hall (le_n _)).
  rewrite firstn_all, Nat.sub_diag. reflexivity.
Qed.

(** The two writes of a size field: 01 and the low byte above the
    threshold, otherwise the high byte is left at 00. *)
Lemma size_field_writes (cond : bool) (c d : Z) (pre post : list byte) (pos : nat) :
  pos = length pre ->
  (if cond
   then (memset_at (memset_at (pre ++ [x00; x00] ++ post) pos 1) (pos + 1) c,
         (pos + 1 + 1)%nat)
   else (memset_at (pre ++ [x00; x00] ++ post) (pos + 1) d, (pos + 1 + 1)%nat))
  = (pre ++ [if cond then x01 else x00; z2b (if cond then c else d)] ++ post,
     (pos + 2)%nat).
Proof.
  intros ->. destruct cond.
  - cbn [app]. rewrite memset_at_fill.
    replace (pre ++ z2b 1 :: x00 :: post) with ((pre ++ [z2b 1]) ++ x00 :: post)
      by (rewrite <- app_assoc; reflexivity).
    rewrite memset_at_fill_at by (rewrite length_app; reflexivity).
    rewrite <- app_assoc. f_equal. lia.
  - cbn [app].
    replace (pre ++ x00 :: x00 :: post) with ((pre ++ [x00]) ++ x00 :: post)
      by (rewrite <- app_assoc; reflexivity).
    rewrite memset_at_fill_at by (rewrite length_app; reflexivity).
    rewrite <- app_assoc. f_equal. lia.
Qed.

Section BuilderLayouts.
Context {T : EgisMocTables}.

(** The zeroed allocation of the check command, cut where the builder
    writes. *)
Lemma check_cmd_allocation (n : nat) :
  repeat x00 (6 + length cmd_check_prefix + EGISMOC_CMD_CHECK_SEPARATOR_LENGTH
              + n * EGISMOC_FINGERPRINT_DATA_SIZE + length cmd_check_suffix)
  = [x00; x00; x00; x00]
      ++ repeat x00 (length cmd_check_prefix)
      ++ [x00; x00]
      ++ repeat x00 EGISMOC_CMD_CHECK_SEPARATOR_LENGTH
      ++ repeat x00 (n * EGISMOC_FINGERPRINT_DATA_SIZE)
      ++ repeat x00 (length cmd_check_suffix).
Proof.
  rewrite <- !repeat_add. 
  change [x00; x00; x00; x00] with (repeat x00 4).
  change [x00; x00] with (repeat x00 2).
  rewrite <- !repeat_add. f_equal. lia.
Qed.

(** The check command as the builder lays it out, whatever the count. *)
Lemma egismoc_get_check_cmd_bytes (R : list (list byte)) :
  Forall is_print_id R ->
  let n := Z.of_nat (length R) in
  egismoc_get_check_cmd (device_with_registry R)
  = CmdBuilt
      ([x00; x00]
         ++ [if n >? 6 then x01 else x00;
             z2b (if n >? 6 then (n - 7) * 32 + 9 else (n + 1) * 32 + 9)]
         ++ cmd_check_prefix
         ++ [if n >? 6 then x01 else x00;
             z2b (if n >? 6 then (n - 7) * 32 else (n + 1) * 32)]
         ++ repeat x00 32 ++ concat R ++ cmd_check_suffix).
Proof.
  intros Hall n. unfold egismoc_get_check_cmd.
  change (enrolled_num (device_with_registry R)) with n.
  replace (Z.to_nat n) with (length R) by (unfold n; now rewrite Nat2Z.id).
  rewrite check_cmd_allocation.
  set (P := cmd_check_prefix). set (S := cmd_check_suffix).
  set (ids0 := repeat x00 (length R * EGISMOC_FINGERPRINT_DATA_SIZE)).
  pose proof (size_field_writes (n >? 6)) as Hfield.
  change ([x00; x00; x00; x00] ++ ?rest) with ([x00; x00] ++ [x00; x00] ++ rest).
  rewrite (Hfield _ _ [x00; x00] _ 2%nat eq_refl).
  cbv beta iota zeta.
  rewrite (app_assoc [x00; x00] [_; _]).
  rewrite memcpy_at_fill_at by reflexivity.
  set (f1 := [_; z2b (if n >? 6 then (n - 7) * 32 + 9 else _)]).
  rewrite (app_assoc _ P).
  rewrite (Hfield _ _ (([x00; x00] ++ f1) ++ P) _ (2 + 2 + length P)%nat)
    by (rewrite !length_app; reflexivity).
  cbv beta iota zeta.
  set (f2 := [_; z2b (if n >? 6 then (n - 7) * 32 else _)]).
  replace ((([x00; x00] ++ f1) ++ P) ++ f2
             ++ repeat x00 EGISMOC_CMD_CHECK_SEPARATOR_LENGTH
             ++ ids0 ++ repeat x00 (length S))
    with (((([x00; x00] ++ f1) ++ P) ++ f2
             ++ repeat x00 EGISMOC_CMD_CHECK_SEPARATOR_LENGTH)
            ++ ids0 ++ repeat x00 (length S))
    by (rewrite <- !app_assoc; reflexivity).
  unfold ids0. rewrite append_enrolled_ids_fill.
  2: exact Hall.
  2: { rewrite !length_app, repeat_length. subst f1 f2. cbn [length]. lia. }
  f_equal.
  rewrite (app_assoc _ (concat R)).
  rewrite <- (app_nil_r (repeat x00 (length S))).
  rewrite memcpy_at_fill_at.
  - rewrite app_nil_r, <- !app_assoc. reflexivity.
  - reflexivity.
  - rewrite !length_app, repeat_length, concat_print_ids_length by exact Hall.
    subst f1 f2. cbn [length]. lia.
Qed.

(** The values of the two-byte size fields for up to 15 slots. *)
Lemma size_field_be16 (k c : Z) :
  0 <= c < 32 -> 0 <= k <= 15 ->
  [if k >? 7 then x01 else x00; z2b (if k >? 7 then (k - 8) * 32 + c else k * 32 + c)]
  = be16 (k * 32 + c)
  /\ map b2z (be16 (k * 32 + c)) = [(k * 32 + c) / 256; (k * 32 + c) mod 256]
  /\ [(k * 32 + c) / 256; (k * 32 + c) mod 256]
     = (if k <=? 7 then [0; k * 32 + c] else [1; (k - 8) * 32 + c]).
Proof.
  intros Hc Hk. unfold be16. cbn [map]. rewrite !b2z_z2b.
  destruct (Z.gtb_spec k 7) as [Hgt|Hle].
  - assert (Hq : (k * 32 + c) / 256 = 1) by (Z.div_mod_to_equations; lia).
    assert (Hm : (k * 32 + c) mod 256 = (k - 8) * 32 + c)
      by (Z.div_mod_to_equations; lia).
    destruct (Z.leb_spec k 7); [lia|].
    rewrite Hq, Hm. repeat split.
    f_equal. f_equal. apply z2b_mod. rewrite <- Hm. now rewrite Z.mod_mod by lia.
  - assert (Hq : (k * 32 + c) / 256 = 0) by (Z.div_mod_to_equations; lia).
    assert (Hm : (k * 32 + c) mod 256 = k * 32 + c)
      by (Z.div_mod_to_equations; lia).
    destruct (Z.leb_spec k 7); [|lia].
    rewrite Hq, Hm. repeat split.
Qed.

(** C2, amended: for every registry [R] of at most 14 identifiers, with
    N = |R|, the check body is 00 00, the two-byte big-endian field holding
    S1 = ((N+1)*0x20)+0x09, the check prefix, the two-byte big-endian field
    holding S2 = (N+1)*0x20, 32 zero bytes, the identifiers of [R] in
    registry order and the check suffix.  Both fields always take two
    bytes: 00 and the value up to N = 6, and 01 followed by
    ((N-7)*0x20)+0x09 (resp. (N-7)*0x20) above; the body length is
    2 + 2 + check_prefix_len + 2 + 32 + 32*N + check_suffix_len. *)
Theorem check_body_layout (R : list (list byte)) :
  (length R <= 14)%nat -> Forall is_print_id R ->
  let N := Z.of_nat (length R) in
  let S1 := (N + 1) * 32 + 9 in
  let S2 := (N + 1) * 32 in
  let body := [x00; x00] ++ be16 S1 ++ cmd_check_prefix ++ be16 S2
                ++ repeat x00 32 ++ concat R ++ cmd_check_suffix in
  egismoc_get_check_cmd (device_with_registry R) = CmdBuilt body
  /\ map b2z (be16 S1) = (if N <=? 6 then [0; (N + 1) * 32 + 9]
                          else [1; (N - 7) * 32 + 9])
  /\ map b2z (be16 S2) = (if N <=? 6 then [0; (N + 1) * 32]
                          else [1; (N - 7) * 32])
  /\ length body
     = (2 + 2 + length cmd_check_prefix + 2 + 32 + 32 * length R
        + length cmd_check_suffix)%nat.
Proof.
  intros Hlen Hall N S1 S2 body.
  assert (HN : 0 <= N + 1 <= 15) by (unfold N; lia).
  destruct (size_field_be16 (N + 1) 9 ltac:(lia) HN) as (H1 & H1v & H1s).
  destruct (size_field_be16 (N + 1) 0 ltac:(lia) HN) as (H2 & H2v & H2s).
  repeat rewrite Z.add_0_r in H2. repeat rewrite Z.add_0_r in H2v.
  repeat rewrite Z.add_0_r in H2s.
  assert (Hc : (N + 1 >? 7) = (N >? 6))
    by (destruct (Z.gtb_spec (N + 1) 7), (Z.gtb_spec N 6); lia).
  assert (Hd : (N + 1 <=? 7) = (N <=? 6))
    by (destruct (Z.leb_spec (N + 1) 7), (Z.leb_spec N 6); lia).
  rewrite Hc in H1, H2. rewrite Hd in H1s, H2s.
  replace (N + 1 - 8) with (N - 7) in * by lia.
  split; [|split; [|split]].
  - rewrite egismoc_get_check_cmd_bytes by exact Hall.
    fold N. unfold body, S1, S2. rewrite <- H1, <- H2. reflexivity.
  - unfold S1. rewrite H1v. exact H1s.
  - unfold S2. rewrite H2v. exact H2s.
  - unfold body. rewrite !length_app, repeat_length.
    rewrite (concat_print_ids_length R Hall).
    change EGISMOC_FINGERPRINT_DATA_SIZE with 32%nat. cbn [length be16]. lia.
Qed.

Lemma delete_cmd_allocation (n : nat) :
  repeat x00 (6 + length cmd_delete_prefix + EGISMOC_FINGERPRINT_DATA_SIZE * n)
  = [x00; x00] ++ [x00; x00]
      ++ repeat x00 (length cmd_delete_prefix)
      ++ [x00; x00]
      ++ repeat x00 (n * EGISMOC_FINGERPRINT_DATA_SIZE).
Proof.
  change [x00; x00] with (repeat x00 2).
  rewrite <- !repeat_add. f_equal. lia.
Qed.

(** The delete command of a clear, whatever the count. *)
Lemma egismoc_get_delete_cmd_clear_bytes (R : list (list byte)) :
  Forall is_print_id R ->
  let k := Z.of_nat (length R) in
  egismoc_get_delete_cmd (device_with_registry R) None
  = CmdBuilt
      ([x00; x00]
         ++ [if k >? 7 then x01 else x00;
             z2b (if k >? 7 then (k - 8) * 32 + 7 else k * 32 + 7)]
         ++ cmd_delete_prefix
         ++ [if k >? 7 then x01 else x00;
             z2b (if k >? 7 then (k - 8) * 32 else k * 32)]
         ++ concat R).
Proof.
  intros Hall k. unfold egismoc_get_delete_cmd.
  change (enrolled_num (device_with_registry R)) with k.
  replace (Z.to_nat k) with (length R) by (unfold k; now rewrite Nat2Z.id).
  rewrite delete_cmd_allocation.
  set (P := cmd_delete_prefix).
  pose proof (size_field_writes (k >? 7)) as Hfield.
  rewrite (Hfield _ _ [x00; x00] _ 2%nat eq_refl).
  cbv beta iota zeta.
  rewrite (app_assoc [x00; x00] [_; _]).
  rewrite memcpy_at_fill_at by reflexivity.
  set (f1 := [_; z2b (if k >? 7 then (k - 8) * 32 + 7 else _)]).
  rewrite (app_assoc _ P).
  rewrite (Hfield _ _ (([x00; x00] ++ f1) ++ P) _ (2 + 2 + length P)%nat)
    by (rewrite !length_app; reflexivity).
  cbv beta iota zeta.
  set (f2 := [_; z2b (if k >? 7 then (k - 8) * 32 else _)]).
  rewrite (app_assoc _ f2).
  rewrite <- (app_nil_r (repeat x00 (length R * EGISMOC_FINGERPRINT_DATA_SIZE))).
  rewrite append_enrolled_ids_fill.
  - rewrite app_nil_r, <- !app_assoc. reflexivity.
  - exact Hall.
  - rewrite !length_app. subst f1 f2. cbn [length]. lia.
Qed.

(** The delete command of a single print. *)
Lemma egismoc_get_delete_cmd_single_bytes (self : FpiDeviceEgisMoc)
  (p : FpPrint) (id : list byte) :
  fpi_data p = GVariantByteArrayTuple id -> is_print_id id ->
  egismoc_get_delete_cmd self (Some p)
  = CmdBuilt ([x00; x00] ++ [x00; x27] ++ cmd_delete_prefix ++ [x00; x20] ++ id).
Proof.
  intros Hdata Hid. unfold egismoc_get_delete_cmd.
  rewrite Hdata. cbn [g_variant_check_format_string_ay negb g_variant_get_fixed_array].
  rewrite delete_cmd_allocation.
  set (P := cmd_delete_prefix).
  pose proof (size_field_writes (1 >? 7)) as Hfield.
  rewrite (Hfield _ _ [x00; x00] _ 2%nat eq_refl).
  cbv beta iota zeta.
  rewrite (app_assoc [x00; x00] [_; _]).
  rewrite memcpy_at_fill_at by reflexivity.
  set (f1 := [_; z2b (if 1 >? 7 then (1 - 8) * 32 + 7 else _)]).
  rewrite (app_assoc _ P).
  rewrite (Hfield _ _ (([x00; x00] ++ f1) ++ P) _ (2 + 2 + length P)%nat)
    by (rewrite !length_app; reflexivity).
  cbv beta iota zeta.
  set (f2 := [_; z2b (if 1 >? 7 then (1 - 8) * 32 else _)]).
  rewrite (app_assoc _ f2).
  change (Z.to_nat 1 * EGISMOC_FINGERPRINT_DATA_SIZE)%nat
    with EGISMOC_FINGERPRINT_DATA_SIZE.
  rewrite <- (app_nil_r (repeat x00 EGISMOC_FINGERPRINT_DATA_SIZE)).
  rewrite memcpy_at_fill_at.
  - rewrite app_nil_r, <- !app_assoc. reflexivity.
  - exact Hid.
  - rewrite !length_app. subst f1 f2. cbn [length]. lia.
Qed.

(** C3: the delete body is 00 00, the two-byte field S1, the delete
    prefix, the two-byte field S2, then exactly k 32-byte identifiers: the
    target's for a single delete (k = 1), all of the registry in registry
    order for a clear (k = |R|), whatever the number of identifiers.  For k
    up to 15, which includes every count the specification defines the
    body for, the fields hold S1 = (k*0x20)+0x07 and S2 = k*0x20 in the
    split encoding: 00 and the value up to k = 7, 01 and ((k-8)*0x20)+0x07
    (resp. (k-8)*0x20) above; the body is then the one the specification
    words. *)
Theorem delete_body_layout :
  (forall (self : FpiDeviceEgisMoc) (p : FpPrint) (id : list byte),
      fpi_data p = GVariantByteArrayTuple id -> is_print_id id ->
      egismoc_get_delete_cmd self (Some p)
      = CmdBuilt ([x00; x00] ++ [x00; x27] ++ cmd_delete_prefix
                    ++ [x00; x20] ++ id)
      /\ map b2z ([x00; x00] ++ [x00; x27] ++ cmd_delete_prefix
                    ++ [x00; x20] ++ id)
         = spec_delete_body [id])
  /\ (forall R : list (list byte),
         Forall is_print_id R ->
         let k := Z.of_nat (length R) in
         exists s1 s2 : list byte,
           egismoc_get_delete_cmd (device_with_registry R) None
           = CmdBuilt ([x00; x00] ++ s1 ++ cmd_delete_prefix ++ s2 ++ concat R)
           /\ length s1 = 2%nat /\ length s2 = 2%nat
           /\ length (concat R) = (32 * length R)%nat
           /\ (k <= 15 ->
               map b2z s1 = spec_delete_size_field k 7
               /\ map b2z s2 = spec_delete_size_field k 0
               /\ map b2z ([x00; x00] ++ s1 ++ cmd_delete_prefix ++ s2 ++ concat R)
                  = spec_delete_body R)).
Proof.
  split.
  - intros self p id Hdata Hid. split.
    + now apply egismoc_get_delete_cmd_single_bytes.
    + unfold spec_delete_body. cbn [length concat]. rewrite app_nil_r.
      rewrite !map_app. reflexivity.
  - intros R Hall k. do 2 eexists. split.
    + now apply egismoc_get_delete_cmd_clear_bytes.
    + split; [reflexivity|]. split; [reflexivity|]. split.
      * rewrite (concat_print_ids_length R Hall).
        change EGISMOC_FINGERPRINT_DATA_SIZE with 32%nat. lia.
      * intros Hk. fold k.
        assert (Hk' : 0 <= k <= 15) by (unfold k in *; lia).
        destruct (size_field_be16 k 7 ltac:(lia) Hk') as (H1 & H1v & H1s).
        destruct (size_field_be16 k 0 ltac:(lia) Hk') as (H2 & H2v & H2s).
        repeat rewrite Z.add_0_r in H2. repeat rewrite Z.add_0_r in H2v.
        repeat rewrite Z.add_0_r in H2s.
        assert (Hf1 : map b2z [if k >? 7 then x01 else x00;
                               z2b (if k >? 7 then (k - 8) * 32 + 7 else k * 32 + 7)]
                      = spec_delete_size_field k 7).
        { rewrite H1, H1v, H1s. reflexivity. }
        assert (Hf2 : map b2z [if k >? 7 then x01 else x00;
                               z2b (if k >? 7 then (k - 8) * 32 else k * 32)]
                      = spec_delete_size_field k 0).
        { rewrite H2, H2v, H2s. unfold spec_delete_size_field.
          now rewrite !Z.add_0_r. }
        split; [exact Hf1|]. split; [exact Hf2|].
        unfold spec_delete_body. fold k.
        rewrite !map_app, Hf1, Hf2. reflexivity.
Qed.

End BuilderLayouts.

(** C2, at the registry of one identifier (32 bytes 'A'). *)
Lemma check_body_layout_witness :
  (length [repeat x41 32] <= 14)%nat /\ Forall is_print_id [repeat x41 32]
  /\ @egismoc_get_check_cmd example_tables (device_with_registry [repeat x41 32])
     = CmdBuilt ([x00; x00; x00; x49; x50; x17; x03; x00; x00; x00; x40]
                   ++ repeat x00 32 ++ repeat x41 32 ++ [x00; x40]).
Proof.
  assert (Hl : (length [repeat x41 32] <= 14)%nat) by (simpl; lia).
  assert (Hf : Forall is_print_id [repeat x41 32]) by (repeat constructor).
  split; [exact Hl|]. split; [exact Hf|].
  exact (proj1 (@check_body_layout example_tables [repeat x41 32] Hl Hf)).
Defined.

(** C2 as stated fails on the empty registry: the builder always writes
    two-byte size fields, so the body is two bytes longer than the stated
    one and differs from it. *)
Lemma check_body_one_byte_field_counterexample :
  exists body,
    @egismoc_get_check_cmd example_tables (device_with_registry []) = CmdBuilt body
    /\ map b2z body <> @spec_check_body example_tables []
    /\ length body <> @spec_check_body_length example_tables []
    /\ length body = (2 + @spec_check_body_length example_tables [])%nat.
Proof.
  eexists. split; [reflexivity|]. split; [|split].
  - vm_compute. discriminate.
  - vm_compute. discriminate.
  - reflexivity.
Qed.

(** C3, at the single delete of a print whose identifier is 32 bytes 'B',
    and at the clear of a registry of two identifiers. *)
Lemma delete_body_layout_witness :
  (is_print_id (repeat x42 32)
   /\ @egismoc_get_delete_cmd example_tables (device_with_registry [])
        (Some {| fpi_data := GVariantByteArrayTuple (repeat x42 32) |})
      = CmdBuilt ([x00; x00; x00; x27; x50; x18; x04; x00; x00; x00; x20]
                    ++ repeat x42 32))
  /\ (Forall is_print_id [repeat x41 32; repeat x42 32]
      /\ Z.of_nat (length [repeat x41 32; repeat x42 32]) <= 15
      /\ exists s1 s2,
          @egismoc_get_delete_cmd example_tables
            (device_with_registry [repeat x41 32; repeat x42 32]) None
          = CmdBuilt ([x00; x00] ++ s1 ++ [x50; x18; x04; x00; x00] ++ s2
                        ++ repeat x41 32 ++ repeat x42 32)
          /\ map b2z s1 = [0; 71] /\ map b2z s2 = [0; 64]).
Proof.
  assert (Hid : is_print_id (repeat x42 32)) by reflexivity.
  assert (Hall : Forall is_print_id [repeat x41 32; repeat x42 32])
    by (repeat constructor).
  assert (Hk : Z.of_nat (length [repeat x41 32; repeat x42 32]) <= 15)
    by (simpl; lia).
  split.
  - split; [exact Hid|].
    exact (proj1 (proj1 (@delete_body_layout example_tables)
                    (device_with_registry [])
                    {| fpi_data := GVariantByteArrayTuple (repeat x42 32) |}
                    (repeat x42 32) eq_refl Hid)).
  - split; [exact Hall|]. split; [exact Hk|].
    destruct (proj2 (@delete_body_layout example_tables) _ Hall)
      as (s1 & s2 & Hcmd & _ & _ & _ & Hfields).
    destruct (Hfields Hk) as (Hs1 & Hs2 & _).
    exists s1, s2. split; [|split].
    + rewrite Hcmd. cbn [concat]. rewrite app_nil_r. reflexivity.
    + exact Hs1.
    + exact Hs2.
Defined.


(** *** The registry *)

Lemma list_cb_read_print_id_slice (buffer_in : list byte) (print_num : nat) :
  list_cb_read_print_id buffer_in print_num
  = buf_slice buffer_in (14 + print_num * 32) 32.
Proof. reflexivity. Qed.

Lemma g_ptr_array_add_all (reads : list (list byte)) (ids : list (list byte)) :
  fold_left (fun a id => g_ptr_array_add a id) reads (Some ids)
  = Some (ids ++ reads).
Proof.
  revert ids. induction reads as [|id reads IH]; intros ids.
  - now rewrite app_nil_r.
  - cbn [fold_left g_ptr_array_add]. rewrite IH, <- app_assoc. reflexivity.
Qed.

Lemma fold_left_map (A B C : Type) (f : A -> C -> A) (g : B -> C) (l : list B) (a : A) :
  fold_left (fun acc x => f acc (g x)) l a = fold_left f (map g l) a.
Proof.
  revert a. induction l as [|x l IH]; intros a; [reflexivity|].
  cbn [fold_left map]. apply IH.
Qed.

(** The registry after a refresh, whatever it held before. *)
Lemma registry_refresh_value (self : FpiDeviceEgisMoc) (buffer_in : list byte)
  (length_in : nat) :
  registry_refresh self buffer_in length_in
  = if (length_in <? 48)%nat
    then {| enrolled_num := 0; enrolled_ids := Some [] |}
    else {| enrolled_num := (Z.of_nat length_in - 16) / 32;
            enrolled_ids :=
              Some (map (fun i => buf_slice buffer_in (14 + i * 32) 32)
                        (seq 0 (Z.to_nat ((Z.of_nat length_in - 16) / 32)))) |}.
Proof.
  unfold registry_refresh, list_cb_update, fill_enrolled_ids_new_array.
  cbn [enrolled_ids enrolled_num].
  change (16 + EGISMOC_FINGERPRINT_DATA_SIZE)%nat with 48%nat.
  change (Z.of_nat EGISMOC_FINGERPRINT_DATA_SIZE) with 32.
  destruct (length_in <? 48)%nat; [reflexivity|].
  f_equal.
  rewrite (fold_left_map _ _ _ (fun a id => g_ptr_array_add a id)
             (list_cb_read_print_id buffer_in)).
  rewrite g_ptr_array_add_all. reflexivity.
Qed.

Section Registry.
Context {T : EgisMocTables}.

(** C4: for every list reply of length L, after the refresh: if L < 48 the
    registry is empty and [enrolled_num] is 0; otherwise [enrolled_num] is
    (L - 16) / 32 and the i-th entry, for each i below it, is the 32 reply
    bytes from offset 14 + 32*i; in both cases [enrolled_num] is the number
    of entries stored, and each is 32 bytes long.  The refresh is what
    [egismoc_fill_enrolled_ids] followed by [egismoc_list_cb] does to the
    device instance. *)
Theorem list_reply_registry (st : DriverState) (buffer_in : list byte) (L : nat) :
  (L <= length buffer_in)%nat ->
  let st1 := fst (fst (egismoc_fill_enrolled_ids st)) in
  let st2 := fst (fst (egismoc_list_cb st1 buffer_in L None)) in
  self st2 = registry_refresh (self st) buffer_in L
  /\ ((L < 48)%nat ->
      enrolled_num (self st2) = 0 /\ enrolled_ids (self st2) = Some [])
  /\ ((48 <= L)%nat ->
      enrolled_num (self st2) = (Z.of_nat L - 16) / 32
      /\ forall i : nat,
          Z.of_nat i < enrolled_num (self st2) ->
          g_ptr_array_index (enrolled_ids (self st2)) i
          = Some (firstn 32 (skipn (14 + 32 * i) buffer_in)))
  /\ exists ids : list (list byte),
      enrolled_ids (self st2) = Some ids
      /\ Z.of_nat (length ids) = enrolled_num (self st2)
      /\ Forall is_print_id ids.
Proof.
  intros HL st1 st2.
  assert (Hself : self st2 = registry_refresh (self st) buffer_in L) by reflexivity.
  split; [exact Hself|]. rewrite Hself, registry_refresh_value.
  destruct (Nat.ltb_spec L 48) as [Hlt|Hge].
  - split; [|split].
    + intros _. split; reflexivity.
    + intros H. lia.
    + exists []. repeat split. constructor.
  - cbn [enrolled_num enrolled_ids].
    set (num := (Z.of_nat L - 16) / 32).
    assert (Hnum : 0 <= num /\ 32 * num <= Z.of_nat L - 16).
    { unfold num. split.
      - apply Z.div_pos; lia.
      - apply Z.mul_div_le. lia. }
    split; [|split].
    + intros H. lia.
    + intros _. split; [reflexivity|]. intros i Hi.
      cbn [g_ptr_array_index].
      rewrite nth_error_map, nth_error_seq.
      destruct (Nat.ltb_spec i (Z.to_nat num)) as [_|Hbad]; [|lia].
      cbn [option_map]. change (0 + i)%nat with i. f_equal.
      replace (14 + i * 32)%nat with (14 + 32 * i)%nat by lia.
      apply buf_slice_firstn_skipn. lia.
    + eexists. split; [reflexivity|]. split.
      * rewrite length_map, length_seq. lia.
      * apply Forall_forall. intros id Hin. apply in_map_iff in Hin.
        destruct Hin as (i & <- & _). apply buf_slice_length.
Qed.

End Registry.

(** C4, at a reply of 80 bytes: two identifiers, read from offsets 14 and
    46. *)
Lemma list_reply_registry_witness :
  (80 <= length sample_list_reply)%nat
  /\ self (fst (fst (egismoc_list_cb
                       (fst (fst (@egismoc_fill_enrolled_ids example_tables
                                    (sample_state 5))))
                       sample_list_reply 80 None)))
     = {| enrolled_num := 2;
          enrolled_ids := Some [map (fun i => z2b (Z.of_nat i)) (seq 14 32);
                                map (fun i => z2b (Z.of_nat i)) (seq 46 32)] |}.
Proof.
  assert (HL : (80 <= length sample_list_reply)%nat) by (vm_compute; lia).
  split; [exact HL|].
  rewrite (proj1 (@list_reply_registry example_tables (sample_state 5)
                    sample_list_reply 80%nat HL)).
  vm_compute. reflexivity.
Defined.

(** *** Response classification *)

Lemma buf_slice_app_skip (pre m : list byte) :
  buf_slice (pre ++ m) (length pre) (length m) = m.
Proof.
  transitivity (buf_slice m 0 (length m)); [|apply buf_slice_all].
  unfold buf_slice, buf_get. apply map_ext. intros i.
  rewrite app_nth2 by lia. f_equal. lia.
Qed.

Lemma buf_slice_nth (buffer : list byte) (off n i : nat) (d : byte) :
  (i < n)%nat -> nth i (buf_slice buffer off n) d = buf_get buffer (off + i).
Proof.
  intros Hi. unfold buf_slice.
  rewrite (nth_indep _ d (buf_get buffer (off + 0)))
    by (now rewrite length_map, length_seq).
  rewrite (map_nth (fun j => buf_get buffer (off + j))), seq_nth by exact Hi.
  reflexivity.
Qed.

(** The bytes compared when the reply ends inside the marker: those
    received from offset 8 on, completed by the bytes that follow the
    reply in the transfer buffer. *)
Lemma buf_slice_past_received (received tail : list byte) (n : nat) :
  (8 <= length received)%nat -> (length received < 8 + n)%nat ->
  buf_slice (received ++ tail) 8 n
  = skipn 8 received ++ buf_slice tail 0 (8 + n - length received).
Proof.
  intros H8 Hn. apply (nth_ext _ _ x00 x00).
  - rewrite length_app, !buf_slice_length, length_skipn. lia.
  - rewrite buf_slice_length. intros i Hi.
    rewrite buf_slice_nth by exact Hi. unfold buf_get.
    destruct (Nat.lt_ge_cases (8 + i) (length received)) as [Hin|Hout].
    + rewrite !app_nth1 by (rewrite ?length_skipn; lia).
      now rewrite nth_skipn.
    + rewrite !app_nth2 by (rewrite ?length_skipn; lia).
      rewrite length_skipn, buf_slice_nth by lia.
      unfold buf_get. f_equal. lia.
Qed.

(** The two marker tests in terms of the bytes of the reply: the prefix
    marker is compared with the bytes from offset 8, the suffix marker,
    when it is no longer than the reply, with the last bytes received. *)
Lemma validate_response_prefix_bytes (buffer : list byte) (L : nat)
  (marker : list byte) :
  egismoc_validate_response_prefix buffer L marker = true
  <-> buf_slice buffer 8 (length marker) = marker.
Proof.
  unfold egismoc_validate_response_prefix, memcmp_at.
  change (egismoc_read_prefix_len + EGISMOC_CHECK_BYTES_LENGTH)%nat with 8%nat.
  apply bytes_eqb_eq.
Qed.

Lemma size_t_sub_no_wrap (a b : nat) :
  (b <= a)%nat -> size_t_sub a b = (a - b)%nat.
Proof.
  intros H. unfold size_t_sub. cbv zeta.
  destruct (Z.ltb_spec (Z.of_nat a - Z.of_nat b) 0); lia.
Qed.

Lemma validate_response_suffix_bytes (buffer : list byte) (L : nat)
  (marker : list byte) :
  (length marker <= L)%nat ->
  egismoc_validate_response_suffix buffer L marker = true
  <-> buf_slice buffer (L - length marker) (length marker) = marker.
Proof.
  intros H. unfold egismoc_validate_response_suffix, memcmp_at.
  rewrite size_t_sub_no_wrap by exact H. apply bytes_eqb_eq.
Qed.

(** C10: the verdict of [egismoc_validate_response_prefix] does not depend
    on the reported reply length; it is the comparison of the marker with
    the bytes of the buffer at offset 8 (read prefix + 2), so two buffers
    that agree there get the same verdict.  [egismoc_cmd_receive_cb] rejects
    a reply only when it is shorter than 6 bytes; a reply of length L with
    6 <= L < 8 + marker_len is handed to the callback and classified on
    bytes of the transfer buffer that were not received: up to L = 8 the
    verdict is decided by the buffer tail alone, which can make the marker
    match whatever was received, and above it the marker is compared with
    the received bytes from offset 8 on followed by at least one byte of the
    tail. *)
Theorem response_prefix_ignores_length :
  (forall (buffer_in : list byte) (len1 len2 : nat) (marker : list byte),
      egismoc_validate_response_prefix buffer_in len1 marker
      = egismoc_validate_response_prefix buffer_in len2 marker)
  /\ (forall (buffer_in : list byte) (len : nat) (marker : list byte),
         egismoc_validate_response_prefix buffer_in len marker = true
         <-> buf_slice buffer_in (egismoc_read_prefix_len + 2) (length marker)
             = marker)
  /\ (forall (buffer : list byte) (L : nat),
         egismoc_cmd_receive_cb None buffer L
         = if (L <? 6)%nat
           then ([], 0%nat, Some (fpi_device_error_new FP_DEVICE_ERROR_GENERAL))
           else (buffer, L, None))
  /\ (forall (received tail marker : list byte) (L : nat),
         L = length received -> (6 <= L <= 8)%nat ->
         egismoc_cmd_receive_cb None (received ++ tail) L
         = (received ++ tail, L, None)
         /\ egismoc_validate_response_prefix (received ++ tail) L marker
            = memcmp_at tail (8 - L) marker
         /\ egismoc_validate_response_prefix
              (received ++ repeat x00 (8 - L) ++ marker) L marker = true)
  /\ (forall (received tail marker : list byte) (L : nat),
         L = length received -> (8 <= L < 8 + length marker)%nat ->
         egismoc_cmd_receive_cb None (received ++ tail) L
         = (received ++ tail, L, None)
         /\ egismoc_validate_response_prefix (received ++ tail) L marker
            = bytes_eqb (skipn 8 received
                           ++ buf_slice tail 0 (8 + length marker - L))
                        marker
         /\ (0 < 8 + length marker - L)%nat).
Proof.
  split; [|split; [|split; [|split]]].
  - reflexivity.
  - intros buffer_in len marker.
    unfold egismoc_validate_response_prefix, memcmp_at. apply bytes_eqb_eq.
  - intros buffer L. unfold egismoc_cmd_receive_cb.
    change egismoc_read_prefix_len with 6%nat. reflexivity.
  - intros received tail marker L -> HL.
    assert (Hshift : forall (tl m : list byte),
               egismoc_validate_response_prefix (received ++ tl) (length received) m
               = memcmp_at tl (8 - length received) m).
    { intros tl m. unfold egismoc_validate_response_prefix, memcmp_at, buf_slice.
      f_equal. apply map_ext. intros i. unfold buf_get.
      change (egismoc_read_prefix_len + EGISMOC_CHECK_BYTES_LENGTH)%nat with 8%nat.
      rewrite app_nth2 by lia. f_equal. lia. }
    split; [|split].
    + unfold egismoc_cmd_receive_cb. change egismoc_read_prefix_len with 6%nat.
      destruct (Nat.ltb_spec (length received) 6); [lia|reflexivity].
    + apply Hshift.
    + rewrite Hshift. unfold memcmp_at. apply bytes_eqb_eq.
      pose proof (buf_slice_app_skip (repeat x00 (8 - length received)) marker)
        as Hs.
      rewrite repeat_length in Hs. exact Hs.
  - intros received tail marker L -> HL. split; [|split].
    + unfold egismoc_cmd_receive_cb. change egismoc_read_prefix_len with 6%nat.
      destruct (Nat.ltb_spec (length received) 6); [lia|reflexivity].
    + unfold egismoc_validate_response_prefix, memcmp_at.
      change (egismoc_read_prefix_len + EGISMOC_CHECK_BYTES_LENGTH)%nat with 8%nat.
      rewrite buf_slice_past_received by lia. reflexivity.
    + lia.
Qed.

(** C10, at a 6-byte reply: nothing of the marker was received, and the
    stale rest of the buffer decides. *)
Lemma response_prefix_ignores_length_witness :
  (6 <= 6 <= 8)%nat
  /\ egismoc_cmd_receive_cb None
       ([x53; x49; x47; x45; x00; x00]
          ++ repeat x00 2 ++ [x00; x00; x00; x02; x90; x04]) 6
     = ([x53; x49; x47; x45; x00; x00]
          ++ repeat x00 2 ++ [x00; x00; x00; x02; x90; x04], 6%nat, None)
  /\ egismoc_validate_response_prefix
       ([x53; x49; x47; x45; x00; x00]
          ++ repeat x00 (8 - 6) ++ [x00; x00; x00; x02; x90; x04]) 6
       [x00; x00; x00; x02; x90; x04]
     = true.
Proof.
  assert (HL : (6 <= 6 <= 8)%nat) by lia.
  split; [exact HL|].
  destruct (proj1 (proj2 (proj2 (proj2 response_prefix_ignores_length)))
              [x53; x49; x47; x45; x00; x00]
              (repeat x00 2 ++ [x00; x00; x00; x02; x90; x04])
              [x00; x00; x00; x02; x90; x04] 6%nat eq_refl HL)
    as (Hcb & _ & Hv).
  split; [exact Hcb | exact Hv].
Defined.

(** *** The task machines *)

Lemma commands_sent_app (a b : list Event) :
  commands_sent (a ++ b) = commands_sent a ++ commands_sent b.
Proof.
  induction a as [|e a IH]; [reflexivity|].
  destruct e; cbn [app commands_sent]; now rewrite IH.
Qed.

Lemma commit_sent_app (a b : list Event) :
  commit_sent (a ++ b) = commit_sent a || commit_sent b.
Proof. unfold commit_sent. now rewrite commands_sent_app, existsb_app. Qed.

Lemma commit_sent_false (tr : list Event) :
  commit_sent tr = false ->
  ~ In CMD_COMMIT_STARTING (commands_sent tr) /\ ~ In CMD_NEW_PRINT (commands_sent tr).
Proof.
  unfold commit_sent. intros H.
  split; intros Hin;
    (assert (Ht : existsb (fun name => match name with
                                       | CMD_COMMIT_STARTING | CMD_NEW_PRINT => true
                                       | _ => false
                                       end) (commands_sent tr) = true)
      by (apply existsb_exists; eexists; split; [exact Hin | reflexivity]));
    congruence.
Qed.

Section Machines.
Context {T : EgisMocTables}.

Lemma machine_run_cons (fp : FpDeviceData) (m : Machine) (i : Input)
  (inputs : list Input) :
  machine_run fp m (i :: inputs) = machine_run fp (machine_step fp m i) inputs.
Proof. reflexivity. Qed.

Lemma machine_run_app (fp : FpDeviceData) (m : Machine) (a b : list Input) :
  machine_run fp m (a ++ b) = machine_run fp (machine_run fp m a) b.
Proof. unfold machine_run. apply fold_left_app. Qed.

(** A machine with nothing in flight ignores whatever is delivered. *)
Lemma machine_run_settled (fp : FpDeviceData) (m : Machine) (inputs : list Input) :
  (forall callback, pending m <> AwaitReply callback) -> pending m <> AwaitFinger ->
  machine_run fp m inputs = m.
Proof.
  intros Hr Hf. induction inputs as [|i inputs IH]; [reflexivity|].
  unfold machine_run in *. cbn [fold_left].
  replace (machine_step fp m i) with m; [exact IH|].
  unfold machine_step. destruct (pending m) eqn:E; try reflexivity.
  - now destruct (Hr callback).
  - now destruct Hf.
Qed.

Lemma registry_refresh_short (self0 : FpiDeviceEgisMoc) (buffer_in : list byte)
  (L : nat) :
  (L < 48)%nat ->
  registry_refresh self0 buffer_in L = device_with_registry [].
Proof.
  intros H. rewrite registry_refresh_value.
  destruct (Nat.ltb_spec L 48); [reflexivity|lia].
Qed.

Lemma registry_refresh_count (self0 : FpiDeviceEgisMoc) (buffer_in : list byte)
  (L : nat) :
  enrolled_num (registry_refresh self0 buffer_in L)
  = if (L <? 48)%nat then 0 else (Z.of_nat L - 16) / 32.
Proof.
  rewrite registry_refresh_value. now destruct (L <? 48)%nat.
Qed.

(** The equations of [ssm_apply], effect by effect. *)

Lemma ssm_apply_cmd fuel t fp st cur tr name body callback :
  ssm_apply fuel t fp st cur tr (DoCmd name body callback)
  = {| task := t; state := st; cur_state := cur; pending := AwaitReply callback;
       trace := tr ++ [UsbBulkOut name (egismoc_compose_cmd body)] |}.
Proof. destruct fuel; reflexivity. Qed.

Lemma ssm_apply_wait_finger fuel t fp st cur tr :
  ssm_apply fuel t fp st cur tr DoWaitFinger
  = {| task := t; state := st; cur_state := cur; pending := AwaitFinger;
       trace := tr ++ [ReportFingerStatus FP_FINGER_STATUS_NEEDED] |}.
Proof. destruct fuel; reflexivity. Qed.

Lemma ssm_apply_fault fuel t fp st cur tr :
  ssm_apply fuel t fp st cur tr DoFault
  = {| task := t; state := st; cur_state := cur; pending := TaskFaulted;
       trace := tr |}.
Proof. destruct fuel; reflexivity. Qed.

Lemma ssm_apply_nothing fuel t fp st cur tr :
  ssm_apply fuel t fp st cur tr DoNothing
  = {| task := t; state := st; cur_state := cur; pending := TaskIdle;
       trace := tr |}.
Proof. destruct fuel; reflexivity. Qed.

Lemma ssm_apply_mark_failed fuel t fp st cur tr e :
  ssm_apply fuel t fp st cur tr (DoSsm (fpi_ssm_mark_failed e))
  = egismoc_task_ssm_done t st cur tr (Some e).
Proof. destruct fuel; reflexivity. Qed.

Lemma ssm_apply_mark_completed fuel t fp st cur tr :
  ssm_apply fuel t fp st cur tr (DoSsm fpi_ssm_mark_completed)
  = egismoc_task_ssm_done t st cur tr None.
Proof. destruct fuel; reflexivity. Qed.

Lemma ssm_apply_next_state_last fuel t fp st cur tr :
  (S cur =? task_nr_states t)%nat = true ->
  ssm_apply fuel t fp st cur tr (DoSsm fpi_ssm_next_state)
  = egismoc_task_ssm_done t st (S cur) tr None.
Proof. intros H. destruct fuel; cbn [ssm_apply]; now rewrite H. Qed.

Lemma ssm_apply_next_state fuel t fp st cur tr st' evs eff' :
  (S cur =? task_nr_states t)%nat = false ->
  task_run_state t fp (S cur) st = (st', evs, eff') ->
  ssm_apply (S fuel) t fp st cur tr (DoSsm fpi_ssm_next_state)
  = ssm_apply fuel t fp st' (S cur) (tr ++ evs) eff'.
Proof. intros H E. cbn [ssm_apply]. now rewrite H, E. Qed.

Lemma ssm_apply_jump_to_state fuel t fp st cur tr s st' evs eff' :
  task_run_state t fp s st = (st', evs, eff') ->
  ssm_apply (S fuel) t fp st cur tr (DoSsm (fpi_ssm_jump_to_state s))
  = ssm_apply fuel t fp st' s (tr ++ evs) eff'.
Proof. intros E. cbn [ssm_apply]. now rewrite E. Qed.

Ltac ssm_eval :=
  repeat first
    [ rewrite ssm_apply_cmd
    | rewrite ssm_apply_wait_finger
    | rewrite ssm_apply_fault
    | rewrite ssm_apply_nothing
    | rewrite ssm_apply_mark_failed
    | rewrite ssm_apply_mark_completed
    | rewrite ssm_apply_next_state_last by reflexivity
    | erewrite ssm_apply_next_state by reflexivity
    | erewrite ssm_apply_jump_to_state by reflexivity ].

Lemma egismoc_enroll_started (fp : FpDeviceData) (dev : FpiDeviceEgisMoc) :
  egismoc_enroll fp dev
  = {| task := TASK_ENROLL;
       state := {| self := fill_enrolled_ids_new_array dev;
                   enroll_print := {| print := enroll_data fp; stage := 0 |} |};
       cur_state := 0;
       pending := AwaitReply CB_list;
       trace := [UsbBulkOut CMD_LIST (egismoc_compose_cmd cmd_list)] |}.
Proof.
  unfold egismoc_enroll, fpi_ssm_start, SSM_FUEL. ssm_eval. reflexivity.
Qed.

Lemma egismoc_identify_verify_started (fp : FpDeviceData) (st : DriverState) :
  egismoc_identify_verify fp st
  = {| task := TASK_IDENTIFY;
       state := set_self st (fill_enrolled_ids_new_array (self st));
       cur_state := 0;
       pending := AwaitReply CB_list;
       trace := [UsbBulkOut CMD_LIST (egismoc_compose_cmd cmd_list)] |}.
Proof.
  unfold egismoc_identify_verify, fpi_ssm_start, SSM_FUEL. ssm_eval. reflexivity.
Qed.

Lemma egismoc_clear_storage_started (fp : FpDeviceData) (st : DriverState) :
  enrolled_num (self st) <> 0 ->
  egismoc_clear_storage fp st
  = {| task := TASK_CLEAR_STORAGE;
       state := set_self st (fill_enrolled_ids_new_array (self st));
       cur_state := 0;
       pending := AwaitReply CB_list;
       trace := [UsbBulkOut CMD_LIST (egismoc_compose_cmd cmd_list)] |}.
Proof.
  intros H. unfold egismoc_clear_storage.
  destruct (Z.eqb_spec (enrolled_num (self st)) 0) as [E|_]; [contradiction|].
  unfold fpi_ssm_start, SSM_FUEL. ssm_eval. reflexivity.
Qed.

(** A list reply of at least 6 bytes delivered to a machine that waits on
    [egismoc_list_cb]: the registry is refreshed and the machine moves on. *)
Lemma list_reply_step (fp : FpDeviceData) (t : Task) (st : DriverState)
  (cur : nat) (tr : list Event) (buffer : list byte) (L : nat) :
  (6 <= L)%nat ->
  machine_step fp
    {| task := t; state := st; cur_state := cur; pending := AwaitReply CB_list;
       trace := tr |}
    (BulkExchange None buffer L)
  = ssm_apply SSM_FUEL t fp (set_self st (list_cb_update (self st) buffer L))
              cur tr (DoSsm fpi_ssm_next_state).
Proof.
  intros HL. unfold machine_step.
  cbn [pending state cur_state trace task egismoc_cmd_receive_cb].
  change egismoc_read_prefix_len with 6%nat.
  destruct (Nat.ltb_spec L 6) as [Hlt|_]; [lia|].
  cbn [run_callback egismoc_list_cb]. now rewrite app_nil_r.
Qed.

(** C8: if enroll is started and the refreshed enrollment count is at
    least the maximum (10), the only command ever submitted is the list
    command of the refresh, and the operation completes with a data-full
    error: no sensor command is sent, whatever is delivered afterwards. *)
Theorem enroll_full_sends_no_sensor_command (fp : FpDeviceData)
  (dev : FpiDeviceEgisMoc) (buffer : list byte) (L : nat) (inputs : list Input) :
  EGISMOC_MAX_ENROLL_NUM <= enrolled_num (registry_refresh dev buffer L) ->
  let m := machine_run fp (egismoc_enroll fp dev)
                       (BulkExchange None buffer L :: inputs) in
  trace m = [UsbBulkOut CMD_LIST (egismoc_compose_cmd cmd_list);
             EnrollComplete None
               (Some (fpi_device_error_new FP_DEVICE_ERROR_DATA_FULL))]
  /\ commands_sent (trace m) = [CMD_LIST]
  /\ pending m = TaskIdle.
Proof.
  intros Hfull m.
  assert (HL : (48 <= L)%nat).
  { rewrite registry_refresh_count in Hfull. unfold EGISMOC_MAX_ENROLL_NUM in Hfull.
    destruct (Nat.ltb_spec L 48); lia. }
  assert (Hstep :
            machine_step fp (egismoc_enroll fp dev) (BulkExchange None buffer L)
            = {| task := TASK_ENROLL;
                 state := {| self := registry_refresh dev buffer L;
                             enroll_print := {| print := enroll_data fp; stage := 0 |} |};
                 cur_state := 1;
                 pending := TaskIdle;
                 trace := [UsbBulkOut CMD_LIST (egismoc_compose_cmd cmd_list);
                           EnrollComplete None
                             (Some (fpi_device_error_new FP_DEVICE_ERROR_DATA_FULL))] |}).
  { rewrite egismoc_enroll_started, list_reply_step by lia.
    unfold SSM_FUEL.
    erewrite ssm_apply_next_state; [|reflexivity|].
    2:{ cbn [task_run_state egismoc_enroll_run_state nth_error enroll_states
             set_self self enroll_print].
        fold (registry_refresh dev buffer L).
        destruct (Z.geb_spec (enrolled_num (registry_refresh dev buffer L))
                             EGISMOC_MAX_ENROLL_NUM) as [_|Hlt]; [|lia].
        reflexivity. }
    ssm_eval. reflexivity. }
  subst m. rewrite machine_run_cons, Hstep.
  rewrite machine_run_settled by (cbn; congruence).
  cbn [trace pending]. repeat split.
Qed.

(** Identify and verify on an empty registry: once the refresh has
    returned no identifier, the machine fails with data-not-found and the
    list command is the only one ever submitted. *)
Lemma identify_empty_registry_fails (fp : FpDeviceData) (st : DriverState)
  (buffer : list byte) (L : nat) (inputs : list Input) :
  (6 <= L)%nat ->
  enrolled_num (registry_refresh (self st) buffer L) = 0 ->
  let m := machine_run fp (egismoc_identify_verify fp st)
                       (BulkExchange None buffer L :: inputs) in
  trace m = [UsbBulkOut CMD_LIST (egismoc_compose_cmd cmd_list);
             ActionError (fpi_device_error_new FP_DEVICE_ERROR_DATA_NOT_FOUND)]
  /\ commands_sent (trace m) = [CMD_LIST]
  /\ pending m
     = TaskDone (Some (fpi_device_error_new FP_DEVICE_ERROR_DATA_NOT_FOUND)).
Proof.
  intros HL Hzero m. subst m.
  rewrite machine_run_cons, egismoc_identify_verify_started, list_reply_step by lia.
  unfold SSM_FUEL.
  erewrite ssm_apply_next_state; [|reflexivity|].
  2:{ cbn [task_run_state egismoc_identify_run_state nth_error identify_states
           set_self self enroll_print].
      fold (registry_refresh (self st) buffer L). rewrite Hzero. reflexivity. }
  ssm_eval.
  rewrite machine_run_settled by (cbn; congruence).
  cbn [trace pending egismoc_task_ssm_done app]. repeat split.
Qed.

(** C5, clear-storage: [egismoc_clear_storage] tests the count left by
    the previous task, before any refresh.  With a stale count of zero it
    reports data-not-found without asking the device; with a stale
    non-zero count and a refresh that returns no identifier, the machine
    goes on to submit the delete command, with no identifier in it, and
    reports nothing. *)
Theorem clear_storage_tests_stale_count (fp : FpDeviceData) (st : DriverState) :
  (enrolled_num (self st) = 0 ->
   forall inputs : list Input,
     let m := machine_run fp (egismoc_clear_storage fp st) inputs in
     trace m = [ClearStorageComplete
                  (Some (fpi_device_error_new FP_DEVICE_ERROR_DATA_NOT_FOUND))]
     /\ commands_sent (trace m) = [])
  /\ (enrolled_num (self st) <> 0 ->
      forall (buffer : list byte) (L : nat),
        (6 <= L)%nat ->
        enrolled_num (registry_refresh (self st) buffer L) = 0 ->
        let m := machine_run fp (egismoc_clear_storage fp st)
                             [BulkExchange None buffer L] in
        trace m = [UsbBulkOut CMD_LIST (egismoc_compose_cmd cmd_list);
                   UsbBulkOut CMD_DELETE
                     (egismoc_compose_cmd
                        ([x00; x00; x00; x07] ++ cmd_delete_prefix ++ [x00; x00]))]
        /\ commands_sent (trace m) = [CMD_LIST; CMD_DELETE]
        /\ pending m = AwaitReply CB_clear_storage).
Proof.
  split.
  - intros Hzero inputs m. subst m. unfold egismoc_clear_storage.
    rewrite Hzero. cbn [Z.eqb].
    rewrite machine_run_settled by (cbn; congruence).
    cbn [trace]. split; reflexivity.
  - intros Hstale buffer L HL Hzero m. subst m.
    assert (Hshort : (L < 48)%nat).
    { rewrite registry_refresh_count in Hzero.
      destruct (Nat.ltb_spec L 48) as [|Hge]; [assumption|].
      assert (1 <= (Z.of_nat L - 16) / 32) by (apply Z.div_le_lower_bound; lia).
      lia. }
    rewrite machine_run_cons, egismoc_clear_storage_started, list_reply_step by
      (assumption || lia).
    unfold SSM_FUEL.
    erewrite ssm_apply_next_state; [|reflexivity|].
    2:{ cbn [task_run_state egismoc_clear_storage_run_state nth_error
             clear_storage_states set_self self enroll_print].
        fold (registry_refresh (self st) buffer L).
        rewrite (registry_refresh_short _ _ _ Hshort).
        rewrite (egismoc_get_delete_cmd_clear_bytes [] (Forall_nil _)).
        reflexivity. }
    ssm_eval. cbn [machine_run fold_left trace pending app]. repeat split.
Qed.

(** *** The enroll machine *)

Lemma ssm_apply_next_state_run fuel t fp st cur tr :
  (S cur =? task_nr_states t)%nat = false ->
  ssm_apply (S fuel) t fp st cur tr (DoSsm fpi_ssm_next_state)
  = let r := task_run_state t fp (S cur) st in
    ssm_apply fuel t fp (fst (fst r)) (S cur) (tr ++ snd (fst r)) (snd r).
Proof.
  intros H. cbv zeta. destruct (task_run_state t fp (S cur) st) as [[st' evs] eff'] eqn:E.
  now apply ssm_apply_next_state.
Qed.

Lemma ssm_apply_jump_to_state_run fuel t fp st cur tr s :
  ssm_apply (S fuel) t fp st cur tr (DoSsm (fpi_ssm_jump_to_state s))
  = let r := task_run_state t fp s st in
    ssm_apply fuel t fp (fst (fst r)) s (tr ++ snd (fst r)) (snd r).
Proof.
  cbv zeta. destruct (task_run_state t fp s st) as [[st' evs] eff'] eqn:E.
  now apply ssm_apply_jump_to_state.
Qed.

(** What [egismoc_read_capture_cb] does with a reply. *)
Lemma egismoc_read_capture_cb_reply (st : DriverState) (buffer_in : list byte)
  (length_in : nat) :
  let ep := enroll_print st in
  let success :=
    egismoc_validate_response_prefix buffer_in length_in rsp_read_success_prefix
    && egismoc_validate_response_suffix buffer_in length_in rsp_read_success_suffix in
  exists retry msg,
    egismoc_read_capture_cb st buffer_in length_in None
    = if success
      then (set_enroll_print st {| print := print ep; stage := stage ep + 1 |},
            [EnrollProgress (stage ep + 1) (Some (print ep)) None],
            if stage ep + 1 =? EGISMOC_ENROLL_TIMES
            then DoSsm fpi_ssm_next_state
            else DoSsm (fpi_ssm_jump_to_state ENROLL_CAPTURE_SENSOR_RESET_value))
      else (set_enroll_print st ep,
            [EnrollProgress (stage ep) None (Some (FpiDeviceRetry retry msg))],
            if stage ep =? EGISMOC_ENROLL_TIMES
            then DoSsm fpi_ssm_next_state
            else DoSsm (fpi_ssm_jump_to_state ENROLL_CAPTURE_SENSOR_RESET_value)).
Proof.
  intros ep success. unfold egismoc_read_capture_cb. fold ep. fold success.
  destruct success.
  - exists FP_DEVICE_RETRY_REMOVE_FINGER, None. reflexivity.
  - cbn [egismoc_enroll_status_report].
    destruct (egismoc_validate_response_prefix buffer_in length_in
                rsp_read_offcenter_prefix
              && egismoc_validate_response_suffix buffer_in length_in
                   rsp_read_offcenter_suffix);
      [|destruct (egismoc_validate_response_prefix buffer_in length_in
                    rsp_read_dirty_prefix)];
      do 2 eexists; reflexivity.
Qed.

Ltac enroll_handlers :=
  cbn [task_run_state egismoc_enroll_run_state nth_error enroll_states
       egismoc_fill_enrolled_ids egismoc_enroll_status_report
       fst snd set_self set_enroll_print self enroll_print print stage
       egismoc_task_ssm_done ENROLL_CAPTURE_SENSOR_RESET_value].

Ltac enroll_eval :=
  unfold SSM_FUEL;
  repeat first
    [ rewrite ssm_apply_cmd
    | rewrite ssm_apply_wait_finger
    | rewrite ssm_apply_fault
    | rewrite ssm_apply_nothing
    | rewrite ssm_apply_mark_failed
    | rewrite ssm_apply_mark_completed
    | rewrite ssm_apply_next_state_last by reflexivity
    | rewrite ssm_apply_next_state_run by reflexivity; cbv zeta; enroll_handlers
    | rewrite ssm_apply_jump_to_state_run; cbv zeta; enroll_handlers
    | match goal with
      | |- context [send_built _ ?b _] => destruct b; cbn [send_built]
      | |- context [if ?c then _ else _] => destruct c eqn:?; enroll_handlers
      end ];
  enroll_handlers.

Ltac enroll_inv_solve :=
  unfold enroll_inv, ENROLL_CAPTURE_SENSOR_RESET_value;
  cbn [task pending cur_state trace state enroll_print stage egismoc_task_ssm_done
       set_self set_enroll_print self];
  repeat match goal with
         | |- _ /\ _ => split
         end;
  try reflexivity; try exact I; try tauto;
  try (intros; lia);
  try (intros; rewrite ?commit_sent_app;
       repeat match goal with
              | H : (_ <= _)%nat -> commit_sent _ = false |- _ =>
                  rewrite H by lia; clear H
              end;
       reflexivity);
  try (intros;
       repeat match goal with
              | H : 0 < EGISMOC_ENROLL_TIMES -> _ |- _ =>
                  specialize (H ltac:(assumption))
              | H : (_ <= 11)%nat -> _ |- _ => specialize (H ltac:(lia))
              | H : (_ =? _) = false |- _ => apply Z.eqb_neq in H
              | H : (_ =? _) = true |- _ => apply Z.eqb_eq in H
              end;
       lia).

Ltac cases_on_state cur Hp n :=
  lazymatch n with
  | O => idtac
  | S ?k =>
      destruct cur as [|cur];
      [cbn [nth_error enroll_states] in Hp | cases_on_state cur Hp k]
  end.

Lemma enroll_inv_step (fp : FpDeviceData) (m : Machine) (i : Input) :
  enroll_inv m -> enroll_inv (machine_step fp m i).
Proof.
  destruct m as [t st cur p tr]. intros Hinv.
  pose proof Hinv as (Ht & Hp & Hc & Hs).
  cbn [task pending cur_state trace state] in Ht, Hp, Hc, Hs. subst t.
  unfold machine_step. cbn [pending state cur_state trace task].
  destruct p as [callback| | | | |]; destruct i as [xerr buffer L|ferr];
    try exact Hinv.
  - (* a command reply *)
    assert (Hrecv : exists b l e, egismoc_cmd_receive_cb xerr buffer L = (b, l, e)
                                  /\ (e = None -> (6 <= l)%nat)).
    { unfold egismoc_cmd_receive_cb. change egismoc_read_prefix_len with 6%nat.
      destruct xerr; [|destruct (Nat.ltb_spec L 6)];
        do 3 eexists; (split; [reflexivity|]); intros; (discriminate || lia). }
    destruct Hrecv as (b & l & e & -> & _).
    unfold enroll_expected_callback in Hp.
    cases_on_state cur Hp 16%nat.
    all: try (cbn [nth_error enroll_states] in Hp; destruct cur; discriminate Hp).
    all: try discriminate Hp.
    all: injection Hp as <-.
    all: cbn [run_callback egismoc_list_cb egismoc_task_ssm_next_state_cb
              egismoc_enroll_check_cb].
    all: try (destruct (egismoc_read_capture_cb_reply st b l)
               as (retry & msg & Hcb)).
    all: destruct e as [e|]; try rewrite Hcb;
      cbn [run_callback egismoc_list_cb egismoc_task_ssm_next_state_cb
           egismoc_enroll_check_cb egismoc_read_capture_cb].
    all: enroll_eval.
    all: enroll_inv_solve.
  - (* the finger interrupt *)
    destruct Hp as [Hp|Hp]; cases_on_state cur Hp 16%nat.
    all: try (cbn [nth_error enroll_states] in Hp; destruct cur; discriminate Hp).
    all: try discriminate Hp.
    all: destruct ferr as [e|]; enroll_eval; enroll_inv_solve.
Qed.

Lemma enroll_inv_start (fp : FpDeviceData) (dev : FpiDeviceEgisMoc) :
  enroll_inv (egismoc_enroll fp dev).
Proof.
  rewrite egismoc_enroll_started. unfold enroll_inv.
  cbn [task pending cur_state trace state enroll_print stage].
  repeat split; try reflexivity; intros; lia.
Qed.

Lemma enroll_inv_run (fp : FpDeviceData) (m : Machine) (inputs : list Input) :
  enroll_inv m -> enroll_inv (machine_run fp m inputs).
Proof.
  revert m. induction inputs as [|i inputs IH]; intros m Hm; [exact Hm|].
  rewrite machine_run_cons. apply IH. now apply enroll_inv_step.
Qed.

(** Where the enroll machine is when it waits on a given callback. *)
Lemma enroll_waits_on_check (cur : nat) :
  enroll_expected_callback cur = Some CB_enroll_check -> cur = 6%nat.
Proof.
  intros Hp. unfold enroll_expected_callback in Hp.
  cases_on_state cur Hp 16%nat; try discriminate Hp; try reflexivity.
  cbn [nth_error enroll_states] in Hp. destruct cur; discriminate Hp.
Qed.

Lemma enroll_waits_on_read_capture (cur : nat) :
  enroll_expected_callback cur = Some CB_read_capture -> cur = 11%nat.
Proof.
  intros Hp. unfold enroll_expected_callback in Hp.
  cases_on_state cur Hp 16%nat; try discriminate Hp; try reflexivity.
  cbn [nth_error enroll_states] in Hp. destruct cur; discriminate Hp.
Qed.

(** C6: in any run of the enroll machine, when the reply to the check
    command does not carry the not-yet-enrolled marker, the driver reports
    enroll completion with a data-duplicate error, nothing is left in
    flight, and no commit-start and no new-print command is submitted at
    any point of the run, whatever is delivered afterwards. *)
Theorem enroll_duplicate_aborts (fp : FpDeviceData) (dev : FpiDeviceEgisMoc)
  (inputs : list Input) (buffer : list byte) (L : nat) (rest : list Input) :
  let m := machine_run fp (egismoc_enroll fp dev) inputs in
  pending m = AwaitReply CB_enroll_check ->
  (6 <= L)%nat ->
  egismoc_validate_response_prefix buffer L rsp_check_not_yet_enrolled_prefix = false ->
  let m' := machine_run fp (egismoc_enroll fp dev)
                        (inputs ++ BulkExchange None buffer L :: rest) in
  nth_error enroll_states (cur_state m) = Some ENROLL_CHECK
  /\ trace m' = trace m
                ++ [EnrollComplete None
                      (Some (fpi_device_error_new FP_DEVICE_ERROR_DATA_DUPLICATE))]
  /\ pending m' = TaskIdle
  /\ ~ In CMD_COMMIT_STARTING (commands_sent (trace m'))
  /\ ~ In CMD_NEW_PRINT (commands_sent (trace m')).
Proof.
  intros m Hpend HL Hdup m'.
  pose proof (enroll_inv_run fp _ inputs (enroll_inv_start fp dev)) as Hinv.
  fold m in Hinv. subst m'. rewrite machine_run_app. fold m.
  destruct m as [t st cur p tr] eqn:Em.
  destruct Hinv as (Ht & Hp & Hc & _).
  cbn [task pending cur_state trace state] in Ht, Hp, Hc, Hpend |- *.
  subst t p. apply enroll_waits_on_check in Hp. subst cur.
  rewrite machine_run_cons.
  assert (Hstep :
            machine_step fp
              {| task := TASK_ENROLL; state := st; cur_state := 6;
                 pending := AwaitReply CB_enroll_check; trace := tr |}
              (BulkExchange None buffer L)
            = {| task := TASK_ENROLL; state := st; cur_state := 6;
                 pending := TaskIdle;
                 trace := tr ++ [EnrollComplete None
                                   (Some (fpi_device_error_new
                                            FP_DEVICE_ERROR_DATA_DUPLICATE))] |}).
  { unfold machine_step. cbn [pending state cur_state trace task egismoc_cmd_receive_cb].
    change egismoc_read_prefix_len with 6%nat.
    destruct (Nat.ltb_spec L 6) as [Hlt|_]; [lia|].
    cbn [run_callback egismoc_enroll_check_cb]. rewrite Hdup.
    cbn [egismoc_enroll_status_report]. now rewrite ssm_apply_nothing. }
  rewrite Hstep, machine_run_settled by (cbn; congruence).
  cbn [trace pending]. split; [reflexivity|]. split; [reflexivity|].
  split; [reflexivity|].
  apply commit_sent_false. rewrite commit_sent_app, Hc by lia. reflexivity.
Qed.

(** C7: in any run of the enroll machine with a positive number of
    stages, when a read-capture reply is delivered (at least as long as
    the success suffix): the stage counter is incremented, and progress
    reported with the print, exactly when the bytes of the reply from
    offset 8 are the success prefix and its last bytes are the success
    suffix; any other reply produces a retry report, leaves the stage
    unchanged and takes the machine back to the capture sensor-reset step,
    whose command is submitted; the machine moves on to the commit-start
    step exactly when the stage counter equals EGISMOC_ENROLL_TIMES. *)
Theorem capture_reply_stage (fp : FpDeviceData) (dev : FpiDeviceEgisMoc)
  (inputs : list Input) (buffer : list byte) (L : nat) :
  0 < EGISMOC_ENROLL_TIMES ->
  let m := machine_run fp (egismoc_enroll fp dev) inputs in
  pending m = AwaitReply CB_read_capture ->
  (6 <= L)%nat ->
  (length rsp_read_success_suffix <= L)%nat ->
  let m' := machine_step fp m (BulkExchange None buffer L) in
  let s := stage (enroll_print (state m)) in
  let s' := stage (enroll_print (state m')) in
  let success :=
    buf_slice buffer 8 (length rsp_read_success_prefix) = rsp_read_success_prefix
    /\ buf_slice buffer (L - length rsp_read_success_suffix)
                 (length rsp_read_success_suffix)
       = rsp_read_success_suffix in
  nth_error enroll_states (cur_state m) = Some ENROLL_CAPTURE_READ_RESPONSE
  /\ (success ->
      s' = s + 1
      /\ exists sent,
          trace m' = trace m
                       ++ [EnrollProgress (s + 1)
                             (Some (print (enroll_print (state m)))) None;
                           sent])
  /\ (~ success ->
      s' = s
      /\ (exists retry msg,
             trace m' = trace m
                          ++ [EnrollProgress s None (Some (FpiDeviceRetry retry msg));
                              UsbBulkOut CMD_SENSOR_RESET
                                (egismoc_compose_cmd cmd_sensor_reset)])
      /\ nth_error enroll_states (cur_state m') = Some ENROLL_CAPTURE_SENSOR_RESET)
  /\ (s' = s + 1 <-> success)
  /\ (s' = EGISMOC_ENROLL_TIMES <->
      nth_error enroll_states (cur_state m') = Some ENROLL_COMMIT_START)
  /\ (s' <> EGISMOC_ENROLL_TIMES <->
      nth_error enroll_states (cur_state m') = Some ENROLL_CAPTURE_SENSOR_RESET)
  /\ (s' = EGISMOC_ENROLL_TIMES ->
      exists tr, trace m' = tr ++ [UsbBulkOut CMD_COMMIT_STARTING
                                     (egismoc_compose_cmd cmd_commit_starting)]).
Proof.
  intros Htimes m Hpend HL Hsuf m' s s' success.
  assert (Hok : egismoc_validate_response_prefix buffer L rsp_read_success_prefix
                && egismoc_validate_response_suffix buffer L rsp_read_success_suffix
                = true <-> success).
  { rewrite andb_true_iff, validate_response_prefix_bytes,
      (validate_response_suffix_bytes _ _ _ Hsuf). reflexivity. }
  clearbody success.
  pose proof (enroll_inv_run fp _ inputs (enroll_inv_start fp dev)) as Hinv.
  fold m in Hinv. subst m' s s'.
  destruct m as [t st cur p tr] eqn:Em.
  destruct Hinv as (Ht & Hp & _ & Hs).
  cbn [task pending cur_state trace state] in Ht, Hp, Hs, Hpend |- *.
  subst t p. apply enroll_waits_on_read_capture in Hp. subst cur.
  specialize (Hs Htimes ltac:(lia)).
  unfold machine_step. cbn [pending state cur_state trace task egismoc_cmd_receive_cb].
  change egismoc_read_prefix_len with 6%nat.
  destruct (Nat.ltb_spec L 6) as [Hlt|_]; [lia|].
  cbn [run_callback].
  destruct (egismoc_read_capture_cb_reply st buffer L) as (retry & msg & Hcb).
  rewrite Hcb. clear Hcb.
  split; [reflexivity|].
  destruct (egismoc_validate_response_prefix buffer L rsp_read_success_prefix
            && egismoc_validate_response_suffix buffer L rsp_read_success_suffix).
  - assert (Hyes : success) by (apply Hok; reflexivity).
    destruct (Z.eqb_spec (stage (enroll_print st) + 1) EGISMOC_ENROLL_TIMES)
      as [Heq|Hne]; enroll_eval;
      cbn [state cur_state trace enroll_print stage set_enroll_print nth_error
           enroll_states];
      rewrite <- ?app_assoc; cbn [app];
      (repeat split;
       try (intros; (contradiction || discriminate || lia || congruence
                     || eauto))).
    exists (tr ++ [EnrollProgress (stage (enroll_print st) + 1)
                     (Some (print (enroll_print st))) None]).
    now rewrite <- app_assoc.
  - assert (Hno : ~ success) by (intros H; apply Hok in H; discriminate).
    destruct (Z.eqb_spec (stage (enroll_print st)) EGISMOC_ENROLL_TIMES)
      as [Heq|Hne]; [lia|].
    enroll_eval.
    cbn [state cur_state trace enroll_print stage set_enroll_print nth_error
         enroll_states];
      rewrite <- ?app_assoc; cbn [app];
      (repeat split;
       try (intros; (contradiction || discriminate || (exfalso; lia) || lia
                     || congruence || eauto))).
Qed.

End Machines.

(** C8, at a list reply of 336 bytes: ten identifiers. *)
Lemma enroll_full_sends_no_sensor_command_witness :
  EGISMOC_MAX_ENROLL_NUM
  <= enrolled_num (registry_refresh (sample_dev 0) (repeat x00 336) 336)
  /\ commands_sent
       (trace (@machine_run example_tables sample_fp
                 (@egismoc_enroll example_tables sample_fp (sample_dev 0))
                 [BulkExchange None (repeat x00 336) 336; FingerInterrupt None]))
     = [CMD_LIST].
Proof.
  assert (H : EGISMOC_MAX_ENROLL_NUM
              <= enrolled_num (registry_refresh (sample_dev 0) (repeat x00 336) 336))
    by (vm_compute; discriminate).
  split; [exact H|].
  exact (proj1 (proj2 (@enroll_full_sends_no_sensor_command example_tables sample_fp
                         (sample_dev 0) (repeat x00 336) 336%nat
                         [FingerInterrupt None] H))).
Defined.

(** C5, on a device instance whose count is left at 1 by an earlier task
    while the list reply (16 bytes) reports no identifier: the delete
    command is submitted. *)
Lemma clear_storage_tests_stale_count_witness :
  enrolled_num (self (sample_state 1)) <> 0
  /\ (6 <= 16)%nat
  /\ enrolled_num (registry_refresh (self (sample_state 1)) (repeat x00 16) 16) = 0
  /\ commands_sent
       (trace (@machine_run example_tables sample_fp
                 (@egismoc_clear_storage example_tables sample_fp (sample_state 1))
                 [BulkExchange None (repeat x00 16) 16]))
     = [CMD_LIST; CMD_DELETE].
Proof.
  assert (H1 : enrolled_num (self (sample_state 1)) <> 0) by (cbn; discriminate).
  assert (H2 : (6 <= 16)%nat) by lia.
  assert (H3 : enrolled_num (registry_refresh (self (sample_state 1))
                                              (repeat x00 16) 16) = 0)
    by reflexivity.
  split; [exact H1|]. split; [exact H2|]. split; [exact H3|].
  exact (proj1 (proj2 (proj2 (@clear_storage_tests_stale_count example_tables
                                sample_fp (sample_state 1))
                         H1 (repeat x00 16) 16%nat H2 H3))).
Defined.

(** C6, on a run that reaches the check step and receives a reply that
    carries the identify-match marker. *)
Lemma enroll_duplicate_aborts_witness :
  pending (@machine_run example_tables sample_fp
             (@egismoc_enroll example_tables sample_fp (sample_dev 0))
             sample_inputs_to_check)
  = AwaitReply CB_enroll_check
  /\ (6 <= 12)%nat
  /\ egismoc_validate_response_prefix (repeat x00 8 ++ [x00; x00; x00; x42]) 12
       (@rsp_check_not_yet_enrolled_prefix example_tables) = false
  /\ pending (@machine_run example_tables sample_fp
                (@egismoc_enroll example_tables sample_fp (sample_dev 0))
                (sample_inputs_to_check
                   ++ [BulkExchange None (repeat x00 8 ++ [x00; x00; x00; x42]) 12;
                       sample_reply []]))
     = TaskIdle.
Proof.
  assert (H1 : pending (@machine_run example_tables sample_fp
                          (@egismoc_enroll example_tables sample_fp (sample_dev 0))
                          sample_inputs_to_check)
               = AwaitReply CB_enroll_check) by (vm_compute; reflexivity).
  assert (H2 : (6 <= 12)%nat) by lia.
  assert (H3 : egismoc_validate_response_prefix
                 (repeat x00 8 ++ [x00; x00; x00; x42]) 12
                 (@rsp_check_not_yet_enrolled_prefix example_tables) = false)
    by (vm_compute; reflexivity).
  split; [exact H1|]. split; [exact H2|]. split; [exact H3|].
  exact (proj1 (proj2 (proj2 (@enroll_duplicate_aborts example_tables sample_fp
                                (sample_dev 0) sample_inputs_to_check
                                (repeat x00 8 ++ [x00; x00; x00; x42]) 12%nat
                                [sample_reply []] H1 H2 H3)))).
Defined.

(** C7, on a run that reaches the first read of the capture loop and
    receives a success reply. *)
Lemma capture_reply_stage_witness :
  0 < @EGISMOC_ENROLL_TIMES example_tables
  /\ pending (@machine_run example_tables sample_fp
                (@egismoc_enroll example_tables sample_fp (sample_dev 0))
                sample_inputs_to_read_capture)
     = AwaitReply CB_read_capture
  /\ (6 <= 15)%nat
  /\ (length (@rsp_read_success_suffix example_tables) <= 15)%nat
  /\ (buf_slice (repeat x00 8 ++ [x00; x00; x00; x04; x0a; x90; x00]) 8
        (length (@rsp_read_success_prefix example_tables))
      = @rsp_read_success_prefix example_tables
      /\ buf_slice (repeat x00 8 ++ [x00; x00; x00; x04; x0a; x90; x00])
           (15 - length (@rsp_read_success_suffix example_tables))
           (length (@rsp_read_success_suffix example_tables))
         = @rsp_read_success_suffix example_tables)
  /\ stage (enroll_print
              (state (@machine_step example_tables sample_fp
                        (@machine_run example_tables sample_fp
                           (@egismoc_enroll example_tables sample_fp (sample_dev 0))
                           sample_inputs_to_read_capture)
                        (BulkExchange None
                           (repeat x00 8 ++ [x00; x00; x00; x04; x0a; x90; x00])
                           15))))
     = stage (enroll_print
                (state (@machine_run example_tables sample_fp
                          (@egismoc_enroll example_tables sample_fp (sample_dev 0))
                          sample_inputs_to_read_capture))) + 1.
Proof.
  assert (H1 : 0 < @EGISMOC_ENROLL_TIMES example_tables) by (cbn; lia).
  assert (H2 : pending (@machine_run example_tables sample_fp
                          (@egismoc_enroll example_tables sample_fp (sample_dev 0))
                          sample_inputs_to_read_capture)
               = AwaitReply CB_read_capture) by (vm_compute; reflexivity).
  assert (H3 : (6 <= 15)%nat) by lia.
  assert (H4 : (length (@rsp_read_success_suffix example_tables) <= 15)%nat)
    by (cbn; lia).
  assert (H5 : buf_slice (repeat x00 8 ++ [x00; x00; x00; x04; x0a; x90; x00]) 8
                 (length (@rsp_read_success_prefix example_tables))
               = @rsp_read_success_prefix example_tables
               /\ buf_slice (repeat x00 8 ++ [x00; x00; x00; x04; x0a; x90; x00])
                    (15 - length (@rsp_read_success_suffix example_tables))
                    (length (@rsp_read_success_suffix example_tables))
                  = @rsp_read_success_suffix example_tables)
    by (split; vm_compute; reflexivity).
  split; [exact H1|]. split; [exact H2|]. split; [exact H3|]. split; [exact H4|].
  split; [exact H5|].
  exact (proj1 (proj1 (proj2 (@capture_reply_stage example_tables sample_fp
                                (sample_dev 0) sample_inputs_to_read_capture
                                (repeat x00 8 ++ [x00; x00; x00; x04; x0a; x90; x00])
                                15%nat H1 H2 H3 H4)) H5)).
Defined.

(** ** Further properties *)

(** *** The registry and the builders together *)

Lemma buf_slice_add (buffer : list byte) (off a b : nat) :
  buf_slice buffer off (a + b)
  = buf_slice buffer off a ++ buf_slice buffer (off + a) b.
Proof.
  apply (nth_ext _ _ x00 x00).
  - rewrite length_app, !buf_slice_length. reflexivity.
  - rewrite buf_slice_length. intros i Hi.
    rewrite buf_slice_nth by exact Hi.
    destruct (Nat.lt_ge_cases i a) as [Hlt|Hge].
    + rewrite app_nth1 by (now rewrite buf_slice_length).
      now rewrite buf_slice_nth.
    + rewrite app_nth2 by (now rewrite buf_slice_length).
      rewrite buf_slice_length, buf_slice_nth by lia. f_equal. lia.
Qed.

(** The identifiers read by [egismoc_list_cb], put end to end, are the
    reply bytes from offset 14 on. *)
Lemma list_cb_ids_concat (buffer_in : list byte) (n : nat) :
  concat (map (fun i => buf_slice buffer_in (14 + i * 32) 32) (seq 0 n))
  = buf_slice buffer_in 14 (32 * n).
Proof.
  induction n as [|n IH]; [reflexivity|].
  rewrite seq_S, map_app, concat_app, IH. cbn [map concat Nat.add].
  rewrite app_nil_r.
  replace (32 * S n)%nat with (32 * n + 32)%nat by lia.
  rewrite buf_slice_add. f_equal. f_equal. lia.
Qed.

Lemma registry_refresh_ok (self0 : FpiDeviceEgisMoc) (buffer_in : list byte)
  (L : nat) :
  registry_refresh self0 buffer_in L
  = device_with_registry
      (map (fun i => buf_slice buffer_in (14 + i * 32) 32)
           (seq 0 (Z.to_nat (enrolled_num (registry_refresh self0 buffer_in L)))))
  /\ registry_ok (registry_refresh self0 buffer_in L).
Proof.
  assert (Hall : forall n, Forall is_print_id
                   (map (fun i => buf_slice buffer_in (14 + i * 32) 32) (seq 0 n))).
  { intros n. apply Forall_forall. intros id Hin. apply in_map_iff in Hin.
    destruct Hin as (i & <- & _). apply buf_slice_length. }
  assert (Heq : registry_refresh self0 buffer_in L
                = device_with_registry
                    (map (fun i => buf_slice buffer_in (14 + i * 32) 32)
                         (seq 0 (Z.to_nat (enrolled_num
                                             (registry_refresh self0 buffer_in L)))))).
  { rewrite registry_refresh_value. destruct (Nat.ltb_spec L 48) as [Hlt|Hge].
    - reflexivity.
    - cbn [enrolled_num]. unfold device_with_registry.
      rewrite length_map, length_seq, Z2Nat.id; [reflexivity|].
      apply Z.div_pos; lia. }
  split; [exact Heq|]. rewrite Heq. eexists. split; [reflexivity|]. apply Hall.
Qed.

(** A list reply built from a registry: 14 bytes of framing, the
    identifiers end to end, 2 more bytes. *)
Lemma buf_slice_middle (pre m post : list byte) :
  buf_slice (pre ++ m ++ post) (length pre) (length m) = m.
Proof.
  rewrite buf_slice_firstn_skipn by (rewrite !length_app; lia).
  rewrite skipn_app, skipn_all, Nat.sub_diag. cbn [skipn app].
  rewrite firstn_app, firstn_all, Nat.sub_diag, firstn_O. apply app_nil_r.
Qed.

Lemma list_cb_ids_of_built_reply (head tail : list byte) (R : list (list byte)) :
  Forall is_print_id R ->
  map (fun i => buf_slice (head ++ concat R ++ tail) (length head + i * 32) 32)
      (seq 0 (length R))
  = R.
Proof.
  intros Hall. revert head.
  induction Hall as [|id R Hid Hall IH]; intros head; [reflexivity|].
  unfold is_print_id in Hid. change EGISMOC_FINGERPRINT_DATA_SIZE with 32%nat in Hid.
  cbn [length seq map concat]. f_equal.
  - rewrite Nat.add_0_r, <- app_assoc.
    replace 32%nat with (length id). apply buf_slice_middle.
  - rewrite <- seq_shift, map_map.
    specialize (IH (head ++ id)).
    rewrite <- IH at 2. apply map_ext. intros i.
    rewrite length_app, Hid, <- !app_assoc. f_equal. lia.
Qed.

Section RegistryAndBuilders.
Context {T : EgisMocTables}.

(** X1: parsing a list reply built from a registry gives that registry
    back.  For every sequence [R] of 32-byte identifiers, 14-byte head and
    2-byte tail, a refresh on the reply head ++ R ++ tail, of length
    16 + 32*|R|, leaves the device instance with exactly [R] as registry
    and |R| as count, whatever it held before. *)
Theorem list_reply_round_trip (st : DriverState) (head tail : list byte)
  (R : list (list byte)) :
  length head = 14%nat -> length tail = 2%nat -> Forall is_print_id R ->
  let reply := head ++ concat R ++ tail in
  let st1 := fst (fst (egismoc_fill_enrolled_ids st)) in
  let st2 := fst (fst (egismoc_list_cb st1 reply (length reply) None)) in
  length reply = (16 + 32 * length R)%nat
  /\ self st2 = device_with_registry R.
Proof.
  intros Hh Ht Hall reply st1 st2.
  assert (Hlen : length reply = (16 + 32 * length R)%nat).
  { unfold reply. rewrite !length_app, (concat_print_ids_length R Hall), Hh, Ht.
    change EGISMOC_FINGERPRINT_DATA_SIZE with 32%nat. lia. }
  split; [exact Hlen|].
  change (self st2) with (registry_refresh (self st) reply (length reply)).
  destruct (registry_refresh_ok (self st) reply (length reply)) as [Heq _].
  rewrite Heq. f_equal.
  assert (Hnum : Z.to_nat (enrolled_num
                             (registry_refresh (self st) reply (length reply)))
                 = length R).
  { rewrite registry_refresh_count, Hlen.
    destruct (Nat.ltb_spec (16 + 32 * length R) 48) as [Hlt|Hge].
    - destruct R; [reflexivity | cbn [length] in Hlt; lia].
    - replace (Z.of_nat (16 + 32 * length R) - 16) with (Z.of_nat (length R) * 32)
        by lia.
      rewrite Z.div_mul by lia. apply Nat2Z.id. }
  rewrite Hnum. unfold reply.
  pose proof (list_cb_ids_of_built_reply head tail R Hall) as Hids.
  rewrite Hh in Hids. exact Hids.
Qed.

(** X2: the commands built after a refresh carry the reply's bytes.  For
    every list reply of L >= 48 bytes lying inside the transfer buffer,
    with N = (L - 16) / 32, the clear command built from the refreshed
    registry ends with the 32*N reply bytes from offset 14, after 6 bytes
    and the delete prefix; the check command carries the same bytes after
    6 bytes, the check prefix and the 32 zero bytes, followed by the check
    suffix.  Neither builder reads outside the registry. *)
Theorem refresh_then_build (self0 : FpiDeviceEgisMoc) (buffer_in : list byte)
  (L : nat) :
  (48 <= L <= length buffer_in)%nat ->
  let self1 := registry_refresh self0 buffer_in L in
  let N := Z.to_nat ((Z.of_nat L - 16) / 32) in
  let ids := firstn (32 * N) (skipn 14 buffer_in) in
  (exists s1 s2 : list byte,
      length s1 = 2%nat /\ length s2 = 2%nat
      /\ egismoc_get_delete_cmd self1 None
         = CmdBuilt ([x00; x00] ++ s1 ++ cmd_delete_prefix ++ s2 ++ ids))
  /\ (exists s1 s2 : list byte,
         length s1 = 2%nat /\ length s2 = 2%nat
         /\ egismoc_get_check_cmd self1
            = CmdBuilt ([x00; x00] ++ s1 ++ cmd_check_prefix ++ s2
                          ++ repeat x00 32 ++ ids ++ cmd_check_suffix))
  /\ length ids = (32 * N)%nat.
Proof.
  intros HL self1 N ids.
  destruct (registry_refresh_ok self0 buffer_in L) as [Heq (R & HR & Hall)].
  fold self1 in Heq, HR.
  assert (Hnum : enrolled_num self1 = (Z.of_nat L - 16) / 32).
  { unfold self1. rewrite registry_refresh_count.
    destruct (Nat.ltb_spec L 48); [lia|reflexivity]. }
  assert (HN : 0 <= (Z.of_nat L - 16) / 32 /\ 32 * ((Z.of_nat L - 16) / 32)
                                               <= Z.of_nat L - 16).
  { split; [apply Z.div_pos; lia | apply Z.mul_div_le; lia]. }
  assert (Hids : concat R = ids).
  { assert (HR' : R = map (fun i => buf_slice buffer_in (14 + i * 32) 32) (seq 0 N)).
    { rewrite Heq in HR. unfold device_with_registry in HR.
      injection HR as _ HR. rewrite <- HR, Hnum. reflexivity. }
    rewrite HR', list_cb_ids_concat. unfold ids.
    apply buf_slice_firstn_skipn. unfold N. lia. }
  split; [|split].
  - rewrite HR, (egismoc_get_delete_cmd_clear_bytes R Hall), Hids.
    do 2 eexists. split; [|split]; [| |reflexivity]; reflexivity.
  - rewrite HR, (egismoc_get_check_cmd_bytes R Hall), Hids.
    do 2 eexists. split; [|split]; [| |reflexivity]; reflexivity.
  - unfold ids. rewrite length_firstn, length_skipn. unfold N. lia.
Qed.

Lemma egismoc_get_enrolled_prints_upto (R : list (list byte)) (k : nat) :
  (k <= length R)%nat ->
  fold_left
    (fun acc i =>
       match acc with
       | None => None
       | Some result =>
           match g_ptr_array_index (Some R) i with
           | Some device_print_id =>
               Some (result
                       ++ [egismoc_set_print_data {| fpi_data := GVariantOther |}
                             device_print_id])
           | None => None
           end
       end)
    (seq 0 k) (Some [])
  = Some (map (egismoc_set_print_data {| fpi_data := GVariantOther |}) (firstn k R)).
Proof.
  induction k as [|k IH]; intros Hk; [reflexivity|].
  rewrite seq_S, fold_left_app, IH by lia. cbn [fold_left Nat.add g_ptr_array_index].
  destruct (nth_error R k) as [id|] eqn:Hnth.
  - rewrite (firstn_succ_nth_error _ _ _ _ Hnth), map_app. reflexivity.
  - apply nth_error_None in Hnth. lia.
Qed.

(** X3: what list returns can be deleted.  For every registry [R] of
    32-byte identifiers, [egismoc_get_enrolled_prints] returns one print per
    entry, in registry order, whose fpi-data is the tuple over the entry's
    identifier; and the delete command built for the i-th print, on any
    device instance, is 00 00 00 27, the delete prefix, 00 20 and the i-th
    identifier. *)
Theorem listed_prints_delete_their_ids (R : list (list byte)) :
  Forall is_print_id R ->
  exists prints : list FpPrint,
    egismoc_get_enrolled_prints (device_with_registry R) = Some prints
    /\ map fpi_data prints = map GVariantByteArrayTuple R
    /\ forall (i : nat) (id : list byte) (self0 : FpiDeviceEgisMoc),
        nth_error R i = Some id ->
        exists p : FpPrint,
          nth_error prints i = Some p
          /\ egismoc_get_delete_cmd self0 (Some p)
             = CmdBuilt ([x00; x00; x00; x27] ++ cmd_delete_prefix
                           ++ [x00; x20] ++ id).
Proof.
  intros Hall.
  assert (Hset : forall id, In id R ->
                   egismoc_set_print_data {| fpi_data := GVariantOther |} id
                   = {| fpi_data := GVariantByteArrayTuple id |}).
  { intros id Hin. unfold egismoc_set_print_data. do 2 f_equal.
    rewrite Forall_forall in Hall. rewrite <- (Hall id Hin). apply buf_slice_all. }
  exists (map (egismoc_set_print_data {| fpi_data := GVariantOther |}) R).
  split; [|split].
  - unfold egismoc_get_enrolled_prints, device_with_registry.
    cbn [enrolled_num enrolled_ids]. rewrite Nat2Z.id.
    rewrite (egismoc_get_enrolled_prints_upto R (length R) (le_n _)).
    now rewrite firstn_all.
  - rewrite map_map. apply map_ext_in. intros id Hin. now rewrite Hset.
  - intros i id self0 Hnth.
    exists (egismoc_set_print_data {| fpi_data := GVariantOther |} id).
    split; [now apply map_nth_error|].
    assert (Hin : In id R) by (eapply nth_error_In; eauto).
    rewrite (Hset id Hin).
    apply egismoc_get_delete_cmd_single_bytes; [reflexivity|].
    rewrite Forall_forall in Hall. now apply Hall.
Qed.

End RegistryAndBuilders.

(** *** The check bytes as seen by a receiver *)

Lemma exact_word_sum_check_slots (c1 c2 : byte) (B : list byte) :
  exact_word_sum (egismoc_write_prefix ++ [c1; c2] ++ B)
  = exact_word_sum (frame_without_check B) + le16 c1 c2.
Proof.
  unfold exact_word_sum, frame_without_check.
  rewrite !(le_words_app_even egismoc_write_prefix) by reflexivity.
  rewrite !fold_right_app. cbn [app le_words fold_right].
  change (le16 x00 x00) with 0.
  generalize (fold_right Z.add 0 (le_words B)). intros s.
  cbn [egismoc_write_prefix le_words fold_right]. lia.
Qed.

Lemma le16_inj (a b c d : byte) : le16 a b = le16 c d -> a = c /\ b = d.
Proof.
  unfold le16. intros H.
  pose proof (b2z_range a). pose proof (b2z_range b).
  pose proof (b2z_range c). pose proof (b2z_range d).
  assert (Hlo : b2z a = b2z c) by lia.
  assert (Hhi : b2z b = b2z d) by lia.
  split.
  - rewrite <- (z2b_b2z a), <- (z2b_b2z c), Hlo. reflexivity.
  - rewrite <- (z2b_b2z b), <- (z2b_b2z d), Hhi. reflexivity.
Qed.

(** X4: the check bytes are the only non-zero pair a receiver accepts.
    For every body (one an [int] can index once framed) and every pair of
    bytes other than 00 00 in the check slots, the word-sum of the frame is
    0 modulo 0xFFFF exactly when the pair is the one
    [egismoc_get_check_bytes] computes; the pair 00 00 is accepted as well
    exactly when the computed check bytes are FF FF. *)
Theorem check_bytes_unique (B : list byte) (c1 c2 : byte) :
  Z.of_nat (length B) + 10 <= INT_MAX ->
  ([c1; c2] <> [x00; x00] ->
   (word_sum (egismoc_write_prefix ++ [c1; c2] ++ B) mod 65535 = 0
    <-> [c1; c2] = egismoc_get_check_bytes (frame_without_check B)
                     EGISMOC_CHECK_BYTES_LENGTH))
  /\ (word_sum (egismoc_write_prefix ++ [x00; x00] ++ B) mod 65535 = 0
      <-> egismoc_get_check_bytes (frame_without_check B)
            EGISMOC_CHECK_BYTES_LENGTH = [xff; xff]).
Proof.
  intros Hlen.
  assert (Hbound : forall a b, Z.of_nat (length (egismoc_write_prefix ++ [a; b] ++ B))
                               <= INT_MAX).
  { intros a b. unfold egismoc_write_prefix. rewrite !length_app. cbn [length].
    unfold INT_MAX in *. lia. }
  set (s := exact_word_sum (frame_without_check B)).
  destruct (check_short_value (frame_without_check B)) as [Hcs Hr].
  rewrite word_sum_exact in Hcs by apply (Hbound x00 x00). fold s in Hcs.
  pose proof (check_bytes_le16 (frame_without_check B)) as Hle.
  pose proof (Z.mod_pos_bound s 65535 ltac:(lia)) as Hs.
  pose proof (Z.div_mod s 65535 ltac:(lia)) as Hdiv.
  split.
  - intros Hnz.
    rewrite word_sum_exact by apply Hbound.
    rewrite exact_word_sum_check_slots. fold s.
    rewrite get_check_bytes_split.
    pose proof (le16_range c1 c2) as Hv.
    assert (Hv0 : le16 c1 c2 <> 0).
    { intros H0. apply Hnz. change 0 with (le16 x00 x00) in H0.
      apply le16_inj in H0. destruct H0 as [-> ->]. reflexivity. }
    split.
    + intros Hz.
      assert (Heq : le16 c1 c2 = check_short (frame_without_check B)).
      { rewrite Hcs.
        replace (s + le16 c1 c2)
          with (s mod 65535 + le16 c1 c2 + (s / 65535) * 65535) in Hz by lia.
        rewrite Z.mod_add in Hz by lia.
        apply Z.mod_divide in Hz; [|lia]. destruct Hz as [q Hq]. 
        assert (q = 1) by nia. lia. }
      rewrite <- Hle in Heq. apply le16_inj in Heq. destruct Heq as [-> ->].
      reflexivity.
    + intros [= -> ->]. rewrite Hle, Hcs.
      replace (s + (65535 - s mod 65535)) with (s - s mod 65535 + 1 * 65535) by lia.
      rewrite Z.mod_add by lia.
      rewrite Zminus_mod, Z.mod_mod, Z.sub_diag by lia. reflexivity.
  - rewrite word_sum_exact by apply Hbound. fold (frame_without_check B). fold s.
    rewrite get_check_bytes_split. split.
    + intros Hz. rewrite Hcs, Hz. reflexivity.
    + intros Heq.
      assert (Hff : le16 (z2b (check_short (frame_without_check B)))
                         (z2b (Z.shiftr (check_short (frame_without_check B)) 8))
                    = le16 xff xff).
      { injection Heq as -> ->. reflexivity. }
      rewrite Hle, Hcs in Hff. change (le16 xff xff) with 65535 in Hff. lia.
Qed.

(** *** Every task machine, all along a run *)

Lemma completions_app (a b : list Event) :
  completions (a ++ b) = (completions a + completions b)%nat.
Proof. unfold completions. now rewrite filter_app, length_app. Qed.

Lemma commands_sent_no_completion (tr : list Event) :
  completions tr = 0%nat -> Forall (fun e => is_completion e = false) tr.
Proof.
  unfold completions. induction tr as [|e tr IH]; intros H; [constructor|].
  cbn [filter] in H. destruct (is_completion e) eqn:E; [discriminate|].
  constructor; auto.
Qed.

Lemma list_cb_update_fresh (s : FpiDeviceEgisMoc) (b : list byte) (l : nat) :
  enrolled_ids s = Some [] -> list_cb_update s b l = registry_refresh s b l.
Proof.
  intros H. unfold registry_refresh, fill_enrolled_ids_new_array.
  destruct s as [n ids]. cbn [enrolled_ids] in H. subst ids. reflexivity.
Qed.

Lemma registry_ok_intro (R : list (list byte)) :
  Forall is_print_id R -> registry_ok (device_with_registry R).
Proof. intros H. exists R. split; [reflexivity | exact H]. Qed.

Section AllMachines.
Context {T : EgisMocTables}.

Ltac task_handlers :=
  cbn [task_run_state egismoc_enroll_run_state egismoc_identify_run_state
       egismoc_clear_storage_run_state nth_error enroll_states identify_states
       clear_storage_states egismoc_fill_enrolled_ids egismoc_enroll_status_report
       fst snd set_self set_enroll_print self enroll_print print stage
       egismoc_task_ssm_done ENROLL_CAPTURE_SENSOR_RESET_value send_built
       task_nr_states].

Ltac task_eval :=
  unfold SSM_FUEL;
  repeat first
    [ rewrite ssm_apply_cmd
    | rewrite ssm_apply_wait_finger
    | rewrite ssm_apply_fault
    | rewrite ssm_apply_nothing
    | rewrite ssm_apply_mark_failed
    | rewrite ssm_apply_mark_completed
    | rewrite ssm_apply_next_state_last by reflexivity
    | rewrite ssm_apply_next_state_run by reflexivity; cbv zeta; task_handlers
    | rewrite ssm_apply_jump_to_state_run; cbv zeta; task_handlers
    | rewrite egismoc_get_check_cmd_bytes by assumption; cbv zeta; task_handlers
    | rewrite egismoc_get_delete_cmd_clear_bytes by assumption; cbv zeta;
      task_handlers
    | match goal with
      | H : current_action ?f = _ |- context [current_action ?f] =>
          rewrite H; task_handlers
      end
    | match goal with
      | |- context [match current_action ?f with _ => _ end] =>
          destruct (current_action f) eqn:?; task_handlers
      | |- context [if ?c then _ else _] => destruct c eqn:?; task_handlers
      end ];
  task_handlers.

Ltac task_cases cur Hp n :=
  lazymatch n with
  | O => idtac
  | S ?k =>
      destruct cur as [|cur];
      [cbn [nth_error enroll_states identify_states clear_storage_states] in Hp
      | task_cases cur Hp k]
  end.

Ltac run_inv_solve :=
  unfold run_inv;
  cbn [task pending cur_state trace state enroll_print stage egismoc_task_ssm_done
       set_self set_enroll_print self enrolled_ids fill_enrolled_ids_new_array];
  repeat match goal with
         | |- _ /\ _ => split
         end;
  try reflexivity;
  try (rewrite ?completions_app;
       repeat match goal with
              | H : completions _ = 0%nat |- _ => rewrite H
              end;
       reflexivity);
  try (apply registry_ok_intro; assumption).

Lemma run_inv_step (fp : FpDeviceData) (m : Machine) (i : Input) :
  run_inv m -> run_inv (machine_step fp m i).
Proof.
  destruct m as [t [s ep] cur p tr]. intros Hinv.
  pose proof Hinv as Hinv'. unfold run_inv in Hinv'.
  cbn [task pending cur_state trace state self] in Hinv'.
  unfold machine_step. cbn [pending state cur_state trace task].
  destruct p as [callback| | | | |]; destruct i as [xerr buffer L|ferr];
    try exact Hinv; try contradiction.
  - (* a command reply *)
    destruct Hinv' as (Hp & Hc & Hreg).
    assert (Hrecv : exists b l e, egismoc_cmd_receive_cb xerr buffer L = (b, l, e)).
    { unfold egismoc_cmd_receive_cb.
      destruct xerr; [|destruct (L <? egismoc_read_prefix_len)%nat];
        do 3 eexists; reflexivity. }
    destruct Hrecv as (b & l & e & ->).
    unfold task_expected_callback, enroll_expected_callback,
      identify_expected_callback, clear_storage_expected_callback in Hp.
    destruct t; task_cases cur Hp 16%nat.
    all: try (cbn [nth_error enroll_states identify_states clear_storage_states]
               in Hp; destruct cur; discriminate Hp).
    all: try discriminate Hp.
    all: injection Hp as <-.
    all: destruct e as [e|].
    all: cbn [run_callback egismoc_list_cb egismoc_task_ssm_next_state_cb
              egismoc_enroll_check_cb egismoc_read_capture_cb
              egismoc_identify_check_cb egismoc_clear_storage_cb
              egismoc_enroll_status_report self set_self].
    all: try (rewrite (list_cb_update_fresh _ b l Hreg);
              destruct (registry_refresh_ok s b l) as [_ (R & -> & HR)]).
    all: try (destruct Hreg as (R & -> & HR)).
    all: task_eval.
    all: run_inv_solve.
  - (* the finger interrupt *)
    destruct Hinv' as (Hp & Hc & (R & -> & HR)).
    unfold task_waits_finger in Hp.
    destruct t; task_cases cur Hp 16%nat.
    all: try (cbn [nth_error enroll_states identify_states clear_storage_states]
               in Hp; destruct cur; discriminate Hp).
    all: try discriminate Hp.
    all: destruct ferr as [e|]; task_eval; run_inv_solve.
Qed.

Lemma run_inv_run (fp : FpDeviceData) (m : Machine) (inputs : list Input) :
  run_inv m -> run_inv (machine_run fp m inputs).
Proof.
  revert m. induction inputs as [|i inputs IH]; intros m Hm; [exact Hm|].
  rewrite machine_run_cons. apply IH. now apply run_inv_step.
Qed.

Lemma run_inv_enroll (fp : FpDeviceData) (dev : FpiDeviceEgisMoc) :
  run_inv (egismoc_enroll fp dev).
Proof.
  rewrite egismoc_enroll_started. unfold run_inv.
  cbn [pending task cur_state trace state self fill_enrolled_ids_new_array
       enrolled_ids].
  split; [reflexivity|]. split; reflexivity.
Qed.

Lemma run_inv_identify_verify (fp : FpDeviceData) (st : DriverState) :
  run_inv (egismoc_identify_verify fp st).
Proof.
  rewrite egismoc_identify_verify_started. unfold run_inv.
  cbn [pending task cur_state trace state self set_self
       fill_enrolled_ids_new_array enrolled_ids].
  split; [reflexivity|]. split; reflexivity.
Qed.

Lemma run_inv_clear_storage (fp : FpDeviceData) (st : DriverState) :
  run_inv (egismoc_clear_storage fp st).
Proof.
  destruct (Z.eq_dec (enrolled_num (self st)) 0) as [Hz|Hnz].
  - unfold egismoc_clear_storage. rewrite Hz. cbn [Z.eqb]. reflexivity.
  - rewrite egismoc_clear_storage_started by exact Hnz. unfold run_inv.
    cbn [pending task cur_state trace state self set_self
         fill_enrolled_ids_new_array enrolled_ids].
    split; [reflexivity|]. split; reflexivity.
Qed.

Lemma run_inv_completions (m : Machine) :
  run_inv m ->
  completions (trace m) = (if in_flight m then 0 else 1)%nat
  /\ pending m <> TaskFaulted /\ pending m <> FuelExhausted.
Proof.
  unfold run_inv, in_flight. destruct (pending m); intros H;
    try contradiction; repeat split; try tauto; try discriminate.
Qed.

Lemma machine_run_not_in_flight (fp : FpDeviceData) (m : Machine)
  (inputs : list Input) :
  in_flight m = false -> machine_run fp m inputs = m.
Proof.
  unfold in_flight. intros H. apply machine_run_settled.
  - intros callback E. rewrite E in H. discriminate.
  - intros E. rewrite E in H. discriminate.
Qed.

(** X5: every operation reports its completion exactly once, when its
    machine stops waiting.  In every run of enroll, of identify/verify and
    of clear-storage, on any device instance and whatever is delivered,
    the number of completion reports (the [fpi_device_*_complete] calls and
    [fpi_device_action_error]) is 0 while a transfer is in flight and 1
    once none is; and from then on nothing delivered changes the machine,
    so no second report and no further command follow. *)
Theorem completion_reported_exactly_once (fp : FpDeviceData)
  (dev : FpiDeviceEgisMoc) (st : DriverState) (inputs more : list Input) :
  Forall
    (fun m =>
       completions (trace m) = (if in_flight m then 0 else 1)%nat
       /\ (if in_flight m then True else machine_run fp m more = m))
    [machine_run fp (egismoc_enroll fp dev) inputs;
     machine_run fp (egismoc_identify_verify fp st) inputs;
     machine_run fp (egismoc_clear_storage fp st) inputs].
Proof.
  assert (H : forall m, run_inv m ->
                completions (trace m) = (if in_flight m then 0 else 1)%nat
                /\ (if in_flight m then True else machine_run fp m more = m)).
  { intros m Hm. split; [apply (run_inv_completions m Hm)|].
    destruct (in_flight m) eqn:E; [exact I|].
    now apply machine_run_not_in_flight. }
  apply Forall_cons; [|apply Forall_cons; [|apply Forall_cons; [|apply Forall_nil]]];
    apply H; apply run_inv_run.
  - apply run_inv_enroll.
  - apply run_inv_identify_verify.
  - apply run_inv_clear_storage.
Qed.

(** X6: no run reads outside the registry.  In every run of enroll, of
    identify/verify and of clear-storage, the check and delete builders are
    only ever called on a registry whose count is the length of its array,
    as the last refresh left it: the machine never takes the fault exit of
    a builder (an entry read outside the array, or a NULL command), and
    the chains of synchronous steps stay within the fuel of the model. *)
Theorem runs_never_fault (fp : FpDeviceData) (dev : FpiDeviceEgisMoc)
  (st : DriverState) (inputs : list Input) :
  Forall
    (fun m =>
       pending m <> TaskFaulted /\ pending m <> FuelExhausted
       /\ (if in_flight m
           then match pending m with
                | AwaitReply CB_list => enrolled_ids (self (state m)) = Some []
                | _ => registry_ok (self (state m))
                end
           else True))
    [machine_run fp (egismoc_enroll fp dev) inputs;
     machine_run fp (egismoc_identify_verify fp st) inputs;
     machine_run fp (egismoc_clear_storage fp st) inputs].
Proof.
  assert (H : forall m, run_inv m ->
                pending m <> TaskFaulted /\ pending m <> FuelExhausted
                /\ (if in_flight m
                    then match pending m with
                         | AwaitReply CB_list =>
                             enrolled_ids (self (state m)) = Some []
                         | _ => registry_ok (self (state m))
                         end
                    else True)).
  { intros m Hm. split; [apply (run_inv_completions m Hm)|].
    split; [apply (run_inv_completions m Hm)|].
    unfold run_inv in Hm. unfold in_flight.
    destruct (pending m) as [callback| | | | |]; try exact I.
    - destruct Hm as (_ & _ & Hreg). destruct callback; exact Hreg.
    - apply Hm. }
  apply Forall_cons; [|apply Forall_cons; [|apply Forall_cons; [|apply Forall_nil]]];
    apply H; apply run_inv_run.
  - apply run_inv_enroll.
  - apply run_inv_identify_verify.
  - apply run_inv_clear_storage.
Qed.


(** A reply of at least 6 bytes goes to the callback of the exchange. *)
Lemma reply_step (fp : FpDeviceData) (t : Task) (st : DriverState) (cur : nat)
  (tr : list Event) (callback : SynCmdMsgCallback) (buffer : list byte) (L : nat) :
  (6 <= L)%nat ->
  machine_step fp
    {| task := t; state := st; cur_state := cur; pending := AwaitReply callback;
       trace := tr |}
    (BulkExchange None buffer L)
  = (let r := run_callback callback fp st buffer L None in
     ssm_apply SSM_FUEL t fp (fst (fst r)) cur (tr ++ snd (fst r)) (snd r)).
Proof.
  intros HL. unfold machine_step, egismoc_cmd_receive_cb.
  change egismoc_read_prefix_len with 6%nat.
  cbn [pending state cur_state trace task].
  destruct (Nat.ltb_spec L 6) as [Hlt|_]; [lia|].
  cbv zeta. now destruct (run_callback callback fp st buffer L None) as [[st' evs] eff].
Qed.

(** The identifier and the command of [ENROLL_COMMIT]. *)
Lemma enroll_commit_command (user_id : list byte) (p : FpPrint) :
  let device_print_id :=
    memcpy_at (repeat x00 EGISMOC_FINGERPRINT_DATA_SIZE) 0 user_id
              EGISMOC_FINGERPRINT_DATA_SIZE in
  device_print_id = buf_slice user_id 0 32
  /\ egismoc_set_print_data p device_print_id
     = {| fpi_data := GVariantByteArrayTuple (buf_slice user_id 0 32) |}
  /\ memcpy_at
       (memcpy_at
          (repeat x00 (length cmd_new_print_prefix + EGISMOC_FINGERPRINT_DATA_SIZE))
          0 cmd_new_print_prefix (length cmd_new_print_prefix))
       (length cmd_new_print_prefix) device_print_id EGISMOC_FINGERPRINT_DATA_SIZE
     = cmd_new_print_prefix ++ buf_slice user_id 0 32.
Proof.
  intros device_print_id.
  assert (Hid : device_print_id = buf_slice user_id 0 32).
  { unfold device_print_id, memcpy_at.
    change EGISMOC_FINGERPRINT_DATA_SIZE with 32%nat.
    cbn [firstn app Nat.add]. rewrite skipn_all2 by (rewrite repeat_length; lia).
    apply app_nil_r. }
  split; [exact Hid|]. rewrite Hid. split.
  - unfold egismoc_set_print_data. do 2 f_equal.
  - change EGISMOC_FINGERPRINT_DATA_SIZE with 32%nat. rewrite repeat_add.
    pose proof (memcpy_at_fill [] (repeat x00 32) cmd_new_print_prefix
                  (length cmd_new_print_prefix) eq_refl) as H1.
    cbn [app length] in H1. rewrite H1.
    pose proof (memcpy_at_fill cmd_new_print_prefix [] (buf_slice user_id 0 32) 32
                  (buf_slice_length _ _ _)) as H2.
    rewrite !app_nil_r in H2. exact H2.
Qed.

Lemma user_id_memory_length (fp : FpDeviceData) (n : nat) :
  length (user_id_memory fp n) = n.
Proof.
  unfold user_id_memory. rewrite length_firstn, length_app. cbn [length].
  rewrite length_map, length_seq. lia.
Qed.

Lemma user_id_memory_whole_string (fp : FpDeviceData) (n : nat) :
  (n <= length (generated_user_id fp))%nat ->
  user_id_memory fp n = firstn n (generated_user_id fp).
Proof.
  intros H. unfold user_id_memory. rewrite firstn_app.
  replace (n - length (generated_user_id fp))%nat with 0%nat by lia.
  cbn [firstn]. apply app_nil_r.
Qed.

Lemma firstn_seq_min (k a n : nat) : firstn k (seq a n) = seq a (Nat.min k n).
Proof.
  revert a n. induction k as [|k IH]; intros a [|n]; try reflexivity.
  cbn [firstn seq Nat.min]. f_equal. apply IH.
Qed.

Lemma user_id_memory_short_string (fp : FpDeviceData) (n : nat) :
  (length (generated_user_id fp) < n)%nat ->
  user_id_memory fp n
  = generated_user_id fp
      ++ x00 :: map (user_id_tail fp)
                    (seq 0 (n - length (generated_user_id fp) - 1)).
Proof.
  intros H. unfold user_id_memory.
  rewrite firstn_app, firstn_all2 by lia. f_equal.
  destruct (n - length (generated_user_id fp))%nat as [|k] eqn:E; [lia|].
  cbn [firstn]. f_equal. rewrite firstn_map, firstn_seq_min. do 2 f_equal. lia.
Qed.

(** X8: the last stage of an enroll.  When the stage counter is one short
    of EGISMOC_ENROLL_TIMES and the read-capture reply is a success (its
    bytes from offset 8 are the success prefix and its last bytes the
    success suffix), the machine reports the last progress, then submits
    commit-start, the new-print command, whose body is the new-print
    prefix followed by the 32 bytes found where the generated user id
    starts, and a sensor reset, each on the reply to the previous one; it
    then reports enroll completion with the print whose fpi-data is the
    tuple over those same 32 bytes, and the machine completes without
    error, the registry array released.  The 32 bytes are the first 32
    characters of the user id when it has that many; when it is shorter
    they go on with its terminator and the bytes that follow it in
    memory. *)
Theorem enroll_last_stage_commits (fp : FpDeviceData) (st : DriverState)
  (tr : list Event) (buffer b1 b2 b3 : list byte) (L l1 l2 l3 : nat) :
  stage (enroll_print st) + 1 = EGISMOC_ENROLL_TIMES ->
  (6 <= L)%nat -> (6 <= l1)%nat -> (6 <= l2)%nat -> (6 <= l3)%nat ->
  (length rsp_read_success_suffix <= L)%nat ->
  buf_slice buffer 8 (length rsp_read_success_prefix) = rsp_read_success_prefix ->
  buf_slice buffer (L - length rsp_read_success_suffix)
            (length rsp_read_success_suffix)
  = rsp_read_success_suffix ->
  let id := user_id_memory fp 32 in
  let p := {| fpi_data := GVariantByteArrayTuple id |} in
  machine_run fp
    {| task := TASK_ENROLL; state := st; cur_state := 11;
       pending := AwaitReply CB_read_capture; trace := tr |}
    [BulkExchange None buffer L; BulkExchange None b1 l1; BulkExchange None b2 l2;
     BulkExchange None b3 l3]
  = {| task := TASK_ENROLL;
       state := {| self := {| enrolled_num := enrolled_num (self st);
                              enrolled_ids := None |};
                   enroll_print := {| print := p; stage := EGISMOC_ENROLL_TIMES |} |};
       cur_state := 16;
       pending := TaskDone None;
       trace := tr ++ [EnrollProgress EGISMOC_ENROLL_TIMES
                         (Some (print (enroll_print st))) None;
                       UsbBulkOut CMD_COMMIT_STARTING
                         (egismoc_compose_cmd cmd_commit_starting);
                       UsbBulkOut CMD_NEW_PRINT
                         (egismoc_compose_cmd (cmd_new_print_prefix ++ id));
                       UsbBulkOut CMD_SENSOR_RESET
                         (egismoc_compose_cmd cmd_sensor_reset);
                       EnrollComplete (Some p) None] |}
  /\ length id = 32%nat
  /\ ((32 <= length (generated_user_id fp))%nat ->
      id = firstn 32 (generated_user_id fp))
  /\ ((length (generated_user_id fp) < 32)%nat ->
      id = generated_user_id fp
             ++ x00 :: map (user_id_tail fp)
                           (seq 0 (32 - length (generated_user_id fp) - 1))).
Proof.
  intros Hstage HL H1 H2 H3 Hsuf Hpre Hend id p.
  split; [|split; [apply user_id_memory_length|split;
                   [apply user_id_memory_whole_string
                   |apply user_id_memory_short_string]]].
  assert (Hok : egismoc_validate_response_prefix buffer L rsp_read_success_prefix
                && egismoc_validate_response_suffix buffer L rsp_read_success_suffix
                = true).
  { apply andb_true_iff. split.
    - now apply validate_response_prefix_bytes.
    - now apply validate_response_suffix_bytes. }
  destruct (enroll_commit_command
              (user_id_memory fp EGISMOC_FINGERPRINT_DATA_SIZE)
              (print (enroll_print st)))
    as (Hid & Hprint & Hcmd).
  change EGISMOC_FINGERPRINT_DATA_SIZE with 32%nat in Hid, Hprint, Hcmd.
  assert (Hall : buf_slice (user_id_memory fp 32) 0 32 = id).
  { unfold id. rewrite <- (user_id_memory_length fp 32) at 2.
    apply buf_slice_all. }
  rewrite Hall in Hprint, Hcmd.
  rewrite machine_run_cons, reply_step by exact HL. cbv zeta.
  cbn [run_callback].
  destruct (egismoc_read_capture_cb_reply st buffer L) as (retry & msg & Hcb).
  rewrite Hcb, Hok, Hstage, Z.eqb_refl. clear Hcb.
  task_eval.
  rewrite machine_run_cons, reply_step by exact H1. cbv zeta.
  cbn [run_callback egismoc_task_ssm_next_state_cb].
  task_eval. change EGISMOC_FINGERPRINT_DATA_SIZE with 32%nat.
  rewrite Hprint, Hcmd.
  rewrite machine_run_cons, reply_step by exact H2. cbv zeta.
  cbn [run_callback egismoc_task_ssm_next_state_cb].
  task_eval.
  rewrite machine_run_cons, reply_step by exact H3. cbv zeta.
  cbn [run_callback egismoc_task_ssm_next_state_cb].
  task_eval.
  cbn [machine_run fold_left]. unfold egismoc_task_ssm_done.
  rewrite app_nil_r, <- !app_assoc. reflexivity.
Qed.

Lemma fp_print_equal_eq (a b : FpPrint) :
  fp_print_equal a b = true <-> fpi_data a = fpi_data b.
Proof.
  unfold fp_print_equal, gvariant_eqb.
  destruct (fpi_data a) as [x|], (fpi_data b) as [y|]; try (split; congruence).
  rewrite bytes_eqb_eq. split; congruence.
Qed.

Lemma g_ptr_array_find_spec (prints : list FpPrint) (p : FpPrint) :
  match g_ptr_array_find_with_equal_func prints p with
  | Some q => In q prints /\ fpi_data q = fpi_data p
  | None => forall q, In q prints -> fpi_data q <> fpi_data p
  end.
Proof.
  induction prints as [|q prints IH]; cbn [g_ptr_array_find_with_equal_func].
  - intros q [].
  - destruct (fp_print_equal q p) eqn:E.
    + split; [now left | now apply fp_print_equal_eq].
    + destruct (g_ptr_array_find_with_equal_func prints p) as [r|].
      * split; [right|]; apply IH.
      * intros r [<-|Hin]; [|now apply IH].
        intros Heq. apply fp_print_equal_eq in Heq. congruence.
Qed.

(** X9: the outcomes of the identify check.  The reply to the check
    command of identify/verify (at least as long as the match suffix) is
    a match when its bytes from offset 8 are the match prefix and its last
    bytes the match suffix; otherwise a no-match when its bytes from
    offset 8 are the not-match prefix; otherwise unrecognized.  On a match
    the print built from the 32 reply bytes at offset 46 is reported: for
    identify together with the first gallery print whose fpi-data equals
    it, or with none when the gallery holds no such print; otherwise as a
    verify, success exactly when the reference print equals it.  On a
    no-match the report carries no print.  In both cases the final sensor
    reset is submitted and, on its reply, the operation completes without
    error.  An unrecognized reply fails the machine with a protocol error:
    nothing is reported and the final sensor reset is never submitted. *)
Theorem identify_check_outcomes (fp : FpDeviceData) (st : DriverState)
  (tr : list Event) (buffer b1 : list byte) (L l1 : nat) (more : list Input) :
  (6 <= L)%nat -> (6 <= l1)%nat ->
  (length rsp_identify_match_suffix <= L)%nat ->
  let is_match :=
    buf_slice buffer 8 (length rsp_identify_match_prefix)
    = rsp_identify_match_prefix
    /\ buf_slice buffer (L - length rsp_identify_match_suffix)
                 (length rsp_identify_match_suffix)
       = rsp_identify_match_suffix in
  let is_not_match :=
    buf_slice buffer 8 (length rsp_identify_notmatch_prefix)
    = rsp_identify_notmatch_prefix in
  let p := {| fpi_data :=
                GVariantByteArrayTuple
                  (buf_slice buffer EGISMOC_IDENTIFY_RESPONSE_PRINT_ID_OFFSET 32) |} in
  let complete :=
    match current_action fp with
    | FPI_DEVICE_ACTION_IDENTIFY => IdentifyComplete None
    | _ => VerifyComplete None
    end in
  let released := set_self st {| enrolled_num := enrolled_num (self st);
                                 enrolled_ids := None |} in
  let proto := fpi_device_error_new_msg FP_DEVICE_ERROR_PROTO
                 "Unrecognized response from device." in
  let completed report :=
    {| task := TASK_IDENTIFY; state := released; cur_state := 8;
       pending := TaskDone None;
       trace := tr ++ [report;
                       UsbBulkOut CMD_SENSOR_RESET
                         (egismoc_compose_cmd cmd_sensor_reset);
                       complete] |} in
  let m' :=
    machine_run fp
      {| task := TASK_IDENTIFY; state := st; cur_state := 6;
         pending := AwaitReply CB_identify_check; trace := tr |}
      (BulkExchange None buffer L :: BulkExchange None b1 l1 :: more) in
  (is_match ->
   m' = completed
          match current_action fp with
          | FPI_DEVICE_ACTION_IDENTIFY =>
              IdentifyReport (g_ptr_array_find_with_equal_func (identify_data fp) p)
                             (Some p) None
          | _ => VerifyReport (if fp_print_equal (verify_data fp) p
                               then FPI_MATCH_SUCCESS else FPI_MATCH_FAIL)
                              (Some p) None
          end)
  /\ (~ is_match -> is_not_match ->
      m' = completed
             match current_action fp with
             | FPI_DEVICE_ACTION_VERIFY => VerifyReport FPI_MATCH_FAIL None None
             | _ => IdentifyReport None None None
             end)
  /\ (~ is_match -> ~ is_not_match ->
      m' = {| task := TASK_IDENTIFY; state := released; cur_state := 6;
              pending := TaskDone (Some proto);
              trace := tr ++ [ActionError proto] |})
  /\ match g_ptr_array_find_with_equal_func (identify_data fp) p with
     | Some q => In q (identify_data fp) /\ fpi_data q = fpi_data p
     | None => forall q, In q (identify_data fp) -> fpi_data q <> fpi_data p
     end
  /\ (fp_print_equal (verify_data fp) p = true
      <-> fpi_data (verify_data fp) = fpi_data p).
Proof.
  intros HL Hl1 Hsuf is_match is_not_match p complete released proto completed m'.
  set (matched :=
         egismoc_validate_response_prefix buffer L rsp_identify_match_prefix
         && egismoc_validate_response_suffix buffer L rsp_identify_match_suffix).
  set (not_matched :=
         egismoc_validate_response_prefix buffer L rsp_identify_notmatch_prefix).
  assert (Hm : matched = true <-> is_match).
  { unfold matched, is_match.
    rewrite andb_true_iff, validate_response_prefix_bytes,
      (validate_response_suffix_bytes _ _ _ Hsuf). reflexivity. }
  assert (Hn : not_matched = true <-> is_not_match)
    by apply validate_response_prefix_bytes.
  assert (Hcore :
            m' = if matched || not_matched
                 then completed
                        (if matched then
                           match current_action fp with
                           | FPI_DEVICE_ACTION_IDENTIFY =>
                               IdentifyReport
                                 (g_ptr_array_find_with_equal_func
                                    (identify_data fp) p)
                                 (Some p) None
                           | _ => VerifyReport
                                    (if fp_print_equal (verify_data fp) p
                                     then FPI_MATCH_SUCCESS else FPI_MATCH_FAIL)
                                    (Some p) None
                           end
                         else
                           match current_action fp with
                           | FPI_DEVICE_ACTION_VERIFY =>
                               VerifyReport FPI_MATCH_FAIL None None
                           | _ => IdentifyReport None None None
                           end)
                 else {| task := TASK_IDENTIFY; state := released; cur_state := 6;
                         pending := TaskDone (Some proto);
                         trace := tr ++ [ActionError proto] |}).
  { clear Hm Hn. clearbody is_match is_not_match.
    subst m'. rewrite machine_run_cons, reply_step by exact HL. cbv zeta.
    cbn [run_callback egismoc_identify_check_cb].
    fold matched. fold not_matched.
    change (egismoc_set_print_data {| fpi_data := GVariantOther |}
              (buf_slice buffer EGISMOC_IDENTIFY_RESPONSE_PRINT_ID_OFFSET
                         EGISMOC_FINGERPRINT_DATA_SIZE)) with p.
    subst completed complete.
    destruct matched; [|destruct not_matched]; cbn [orb];
      destruct (current_action fp) eqn:Hact; cbn [fst snd]; task_eval;
      try (rewrite machine_run_cons, reply_step by exact Hl1; cbv zeta;
           cbn [run_callback egismoc_task_ssm_next_state_cb]; task_eval);
      unfold egismoc_task_ssm_done, released;
      rewrite machine_run_settled by (cbn [pending]; congruence);
      rewrite ?app_nil_r, <- ?app_assoc; reflexivity. }
  clearbody m' is_match is_not_match.
  split; [|split; [|split; [|split;
    [apply g_ptr_array_find_spec | apply fp_print_equal_eq]]]].
  - intros Hyes. apply Hm in Hyes. rewrite Hcore, Hyes. reflexivity.
  - intros Hno Hnm. apply Hn in Hnm.
    destruct matched; [exfalso; apply Hno, Hm; reflexivity|].
    rewrite Hcore, Hnm. reflexivity.
  - intros Hno Hnn.
    destruct matched; [exfalso; apply Hno, Hm; reflexivity|].
    destruct not_matched; [exfalso; apply Hnn, Hn; reflexivity|].
    rewrite Hcore. reflexivity.
Qed.

(** X10: the outcomes of a clear.  When the reply to the delete command
    does not carry the delete-success prefix, clear-storage completion is
    reported with a protocol error, the machine is left uncompleted and the
    second refresh is never submitted.  When it does, the list command is
    submitted again; if that refresh finds no identifier, success is
    reported and the machine completes; otherwise a protocol error is
    reported and the machine is left uncompleted, still holding the
    registry it has just read. *)
Theorem clear_storage_outcomes (fp : FpDeviceData) (st : DriverState)
  (tr : list Event) (buffer buffer2 : list byte) (L L2 : nat) (more : list Input) :
  (6 <= L)%nat -> (6 <= L2)%nat ->
  let m := {| task := TASK_CLEAR_STORAGE; state := st; cur_state := 1;
              pending := AwaitReply CB_clear_storage; trace := tr |} in
  let self2 := registry_refresh (self st) buffer2 L2 in
  machine_run fp m (BulkExchange None buffer L :: BulkExchange None buffer2 L2 :: more)
  = if egismoc_validate_response_prefix buffer L rsp_delete_success_prefix
    then
      if enrolled_num self2 =? 0
      then {| task := TASK_CLEAR_STORAGE;
              state := set_self st {| enrolled_num := enrolled_num self2;
                                      enrolled_ids := None |};
              cur_state := 3; pending := TaskDone None;
              trace := tr ++ [UsbBulkOut CMD_LIST (egismoc_compose_cmd cmd_list);
                              ClearStorageComplete None] |}
      else {| task := TASK_CLEAR_STORAGE; state := set_self st self2;
              cur_state := 3; pending := TaskIdle;
              trace := tr ++ [UsbBulkOut CMD_LIST (egismoc_compose_cmd cmd_list);
                              ClearStorageComplete
                                (Some (fpi_device_error_new_msg FP_DEVICE_ERROR_PROTO
                                         "Clear storage submitted but storage on device is not empty."))] |}
    else {| task := TASK_CLEAR_STORAGE; state := st; cur_state := 1;
            pending := TaskIdle;
            trace := tr ++ [ClearStorageComplete
                              (Some (fpi_device_error_new_msg FP_DEVICE_ERROR_PROTO
                                       "Clear storage was not successfull"))] |}.
Proof.
  intros HL HL2 m self2. subst m.
  rewrite machine_run_cons, reply_step by exact HL. cbv zeta.
  cbn [run_callback egismoc_clear_storage_cb].
  destruct (egismoc_validate_response_prefix buffer L rsp_delete_success_prefix).
  - destruct (enrolled_num self2 =? 0) eqn:Hnum; cbn [fst snd]; task_eval;
      rewrite machine_run_cons, reply_step by exact HL2; cbv zeta;
      cbn [run_callback egismoc_list_cb set_self self enroll_print fst snd];
      fold (registry_refresh (self st) buffer2 L2); fold self2;
      unfold SSM_FUEL;
      rewrite ssm_apply_next_state_run by reflexivity; cbv zeta;
      cbn [task_run_state egismoc_clear_storage_run_state nth_error
           clear_storage_states self];
      unfold set_self; cbn [self enroll_print];
      rewrite Hnum; cbn [fst snd]; task_eval;
      try unfold egismoc_task_ssm_done;
      rewrite machine_run_settled by (cbn [pending]; congruence);
      rewrite ?app_nil_r, <- ?app_assoc; reflexivity.
  - cbn [fst snd]. task_eval.
    now rewrite machine_run_settled by (cbn [pending]; congruence).
Qed.

(** *** The stages of an enroll *)

Lemma stages_passed_app (a b : list Event) :
  stages_passed (a ++ b) = (stages_passed a + stages_passed b)%nat.
Proof. unfold stages_passed. now rewrite filter_app, length_app. Qed.

Lemma enroll_succeeded_app (a b : list Event) :
  enroll_succeeded (a ++ b) = enroll_succeeded a || enroll_succeeded b.
Proof. apply existsb_app. Qed.

Lemma new_print_sent_app (a b : list Event) :
  new_print_sent (a ++ b) = new_print_sent a || new_print_sent b.
Proof. unfold new_print_sent. now rewrite commands_sent_app, existsb_app. Qed.

Ltac stage_eval :=
  repeat (task_eval;
          try match goal with
              | |- context [send_built _ ?b _] => destruct b; cbn [send_built]
              end).

Ltac stage_inv_solve :=
  unfold enroll_stage_inv, ENROLL_CAPTURE_SENSOR_RESET_value;
  cbn [task pending cur_state trace state enroll_print stage egismoc_task_ssm_done
       set_self set_enroll_print self task_waits_finger nth_error enroll_states];
  rewrite ?stages_passed_app, ?enroll_succeeded_app, ?new_print_sent_app,
    ?app_nil_r;
  cbn [stages_passed enroll_succeeded new_print_sent commands_sent existsb filter
       is_stage_passed is_enroll_success length];
  repeat match goal with
         | H : (_ =? _) = false |- _ => apply Z.eqb_neq in H
         | H : (_ =? _) = true |- _ => apply Z.eqb_eq in H
         end;
  repeat match goal with
         | |- _ /\ _ => split
         end;
  try reflexivity; try exact I;
  try (intros; lia);
  try (intros;
       repeat match goal with
              | H : (_ <= _)%nat -> _ |- _ =>
                  first [specialize (H ltac:(lia)) | clear H]
              end;
       repeat match goal with
              | H : enroll_succeeded _ = _ |- _ => rewrite H
              | H : new_print_sent _ = _ |- _ => rewrite H
              end;
       rewrite ?orb_true_r, ?orb_false_r;
       first [reflexivity | lia | congruence]).

Lemma enroll_stage_inv_step (fp : FpDeviceData) (m : Machine) (i : Input) :
  enroll_stage_inv m -> enroll_stage_inv (machine_step fp m i).
Proof.
  destruct m as [t [s ep] cur p tr]. intros Hinv.
  pose proof Hinv as (Ht & Hp & Hn & Hs & Hc & Hnot & Hdone).
  cbn [task pending cur_state trace state enroll_print] in Ht, Hp, Hn, Hs, Hc,
    Hnot, Hdone.
  subst t.
  unfold machine_step. cbn [pending state cur_state trace task].
  destruct p as [callback| | | | |]; destruct i as [xerr buffer L|ferr];
    try exact Hinv.
  - (* a command reply *)
    assert (Hrecv : exists b l e, egismoc_cmd_receive_cb xerr buffer L = (b, l, e)).
    { unfold egismoc_cmd_receive_cb.
      destruct xerr; [|destruct (L <? egismoc_read_prefix_len)%nat];
        do 3 eexists; reflexivity. }
    destruct Hrecv as (b & l & e & ->).
    unfold enroll_expected_callback in Hp.
    task_cases cur Hp 16%nat.
    all: try (cbn [nth_error enroll_states] in Hp; destruct cur; discriminate Hp).
    all: try discriminate Hp.
    all: injection Hp as <-.
    all: cbn [run_callback egismoc_list_cb egismoc_task_ssm_next_state_cb
              egismoc_enroll_check_cb].
    all: try (destruct (egismoc_read_capture_cb_reply
                          {| self := s; enroll_print := ep |} b l)
               as (retry & msg & Hcb)).
    all: destruct e as [e|]; try rewrite Hcb;
      cbn [run_callback egismoc_list_cb egismoc_task_ssm_next_state_cb
           egismoc_enroll_check_cb egismoc_read_capture_cb
           egismoc_enroll_status_report self set_self].
    all: stage_eval.
    all: stage_inv_solve.
  - (* the finger interrupt *)
    unfold task_waits_finger in Hp.
    task_cases cur Hp 16%nat.
    all: try (cbn [nth_error enroll_states] in Hp; destruct cur; discriminate Hp).
    all: try discriminate Hp.
    all: destruct ferr as [e|]; stage_eval; stage_inv_solve.
Qed.

Lemma enroll_stage_inv_run (fp : FpDeviceData) (m : Machine) (inputs : list Input) :
  enroll_stage_inv m -> enroll_stage_inv (machine_run fp m inputs).
Proof.
  revert m. induction inputs as [|i inputs IH]; intros m Hm; [exact Hm|].
  rewrite machine_run_cons. apply IH. now apply enroll_stage_inv_step.
Qed.

Lemma enroll_stage_inv_start (fp : FpDeviceData) (dev : FpiDeviceEgisMoc) :
  enroll_stage_inv (egismoc_enroll fp dev).
Proof.
  rewrite egismoc_enroll_started. unfold enroll_stage_inv.
  cbn [task pending cur_state trace state enroll_print stage].
  split; [reflexivity|]. split; [reflexivity|]. split; [reflexivity|].
  split; [intros; lia|]. split; [intros; lia|].
  split; [reflexivity | intros; lia].
Qed.

(** X11: an enroll reports success only after every stage.  In every run of
    the enroll machine, on any device instance and whatever is delivered,
    if the completion carrying the print and no error has been reported,
    then exactly [EGISMOC_ENROLL_TIMES] captures were accepted (progress
    reports with the print and no error), the new-print command was
    submitted, and the machine has completed without error. *)
Theorem enroll_success_after_all_stages (fp : FpDeviceData)
  (dev : FpiDeviceEgisMoc) (inputs : list Input) :
  let m := machine_run fp (egismoc_enroll fp dev) inputs in
  enroll_succeeded (trace m) = true ->
  Z.of_nat (stages_passed (trace m)) = EGISMOC_ENROLL_TIMES
  /\ new_print_sent (trace m) = true
  /\ pending m = TaskDone None.
Proof.
  intros m Hok.
  pose proof (enroll_stage_inv_run fp _ inputs (enroll_stage_inv_start fp dev))
    as (_ & _ & Hn & Hs & Hc & Hnot & Hdone).
  fold m in Hn, Hs, Hc, Hnot, Hdone.
  assert (Hcur : (16 <= cur_state m)%nat).
  { destruct (Nat.le_gt_cases (cur_state m) 15) as [Hle|Hgt]; [|lia].
    rewrite (Hnot Hle) in Hok. discriminate. }
  split; [rewrite Hn; apply Hs; lia|].
  split; [apply Hc; lia | apply Hdone; exact Hcur].
Qed.

(** *** The order of the commands *)

Lemma captures_snoc (l rest : list CommandName) (n : nat) :
  concat (repeat l n) ++ l ++ rest = concat (repeat l (S n)) ++ rest.
Proof.
  induction n as [|n IH]; cbn [repeat concat app].
  - now rewrite app_nil_r.
  - cbn [repeat concat] in IH. rewrite <- !app_assoc. f_equal.
    rewrite IH. now rewrite <- app_assoc.
Qed.

Lemma captures_snoc3 (a b c : CommandName) (rest : list CommandName) (n : nat) :
  concat (repeat [a; b; c] n) ++ a :: b :: c :: rest
  = a :: b :: c :: concat (repeat [a; b; c] n) ++ rest.
Proof. exact (captures_snoc [a; b; c] rest n). Qed.

Lemma ssm_apply_task fuel t fp st cur tr eff :
  task (ssm_apply fuel t fp st cur tr eff) = t.
Proof.
  revert st cur tr eff. induction fuel as [|fuel IH]; intros st cur tr eff.
  - destruct eff as [[| s | e |]| | | |]; cbn [ssm_apply]; try reflexivity.
    destruct (S cur =? task_nr_states t)%nat; reflexivity.
  - destruct eff as [[| s | e |]| | | |]; try reflexivity.
    + destruct (S cur =? task_nr_states t)%nat eqn:E.
      * now rewrite ssm_apply_next_state_last.
      * rewrite ssm_apply_next_state_run by exact E. apply IH.
    + rewrite ssm_apply_jump_to_state_run. apply IH.
Qed.

Lemma task_sent_prefix (t : Task) (cur captures : nat) :
  exists captures' rest,
    match t with
    | TASK_ENROLL => enroll_protocol captures'
    | TASK_IDENTIFY => identify_protocol
    | TASK_CLEAR_STORAGE => clear_storage_protocol
    end = task_sent t cur captures ++ rest.
Proof.
  destruct t; unfold task_sent.
  - destruct (cur <=? 7)%nat; [|destruct (cur <=? 11)%nat].
    + exists 0%nat,
        (skipn (nth cur [1; 1; 2; 3; 3; 4; 5; 6]%nat 0%nat) enroll_prologue
           ++ enroll_epilogue).
      unfold enroll_protocol. cbn [repeat concat app].
      now rewrite (app_assoc (firstn _ enroll_prologue)), firstn_skipn.
    + exists (S captures),
        (skipn (nth (cur - 8) [1; 2; 2; 3]%nat 0%nat) enroll_capture
           ++ enroll_epilogue).
      unfold enroll_protocol. rewrite <- captures_snoc.
      rewrite <- !app_assoc. do 2 f_equal.
      now rewrite (app_assoc (firstn _ enroll_capture)), firstn_skipn.
    + exists captures, (skipn (cur - 11) enroll_epilogue).
      unfold enroll_protocol. rewrite <- !app_assoc. do 2 f_equal.
      now rewrite firstn_skipn.
  - exists 0%nat. eexists. symmetry. apply firstn_skipn.
  - exists 0%nat. eexists. symmetry. apply firstn_skipn.
Qed.

Ltac protocol_eq :=
  cbn [task_sent Nat.leb nth Nat.sub firstn enroll_prologue enroll_capture
       enroll_epilogue identify_protocol clear_storage_protocol app repeat concat];
  rewrite <- ?app_assoc; cbn [app];
  first
    [ reflexivity
    | unfold enroll_capture; rewrite captures_snoc3; reflexivity ].

Ltac protocol_solve c j :=
  unfold ENROLL_CAPTURE_SENSOR_RESET_value;
  cbn [trace task pending cur_state in_flight egismoc_task_ssm_done];
  rewrite ?commands_sent_app; cbn [commands_sent]; rewrite ?app_nil_r;
  match goal with
  | H : commands_sent _ = _ |- _ => rewrite H
  end;
  first
    [ exists c, j; split; [reflexivity | intros Hf; discriminate Hf]
    | match goal with
      | |- exists cur _, _ /\ (_ -> cur = ?c') =>
          first
            [ exists c', j; split; [protocol_eq | reflexivity]
            | exists c', (S j); split; [protocol_eq | reflexivity]
            | exists c', 0%nat; split; [protocol_eq | reflexivity] ]
      end ].

Lemma protocol_inv_step (fp : FpDeviceData) (t : Task) (m : Machine) (i : Input) :
  protocol_inv t m -> protocol_inv t (machine_step fp m i).
Proof.
  intros (Ht & Hrun & Hsent).
  split; [|split; [apply run_inv_step; exact Hrun|]].
  { rewrite <- Ht. unfold machine_step.
    destruct (pending m) as [callback| | | | |], i as [xerr buffer L|ferr];
      try reflexivity.
    - destruct (egismoc_cmd_receive_cb xerr buffer L) as [[b l] e].
      destruct (run_callback callback fp (state m) b l e) as [[st' evs] eff].
      apply ssm_apply_task.
    - apply ssm_apply_task. }
  destruct m as [t' [s ep] cur p tr].
  cbn [task] in Ht. subst t'.
  destruct Hsent as (c & j & Hcmd & Hcur).
  cbn [trace in_flight pending cur_state] in Hcmd, Hcur.
  pose proof Hrun as Hinv'. unfold run_inv in Hinv'.
  cbn [task pending cur_state trace state self] in Hinv'.
  unfold machine_step. cbn [pending state cur_state trace task].
  destruct p as [callback| | | | |]; destruct i as [xerr buffer L|ferr];
    try (exists c, j; split; [exact Hcmd | exact Hcur]); try contradiction.
  - (* a command reply *)
    specialize (Hcur eq_refl). subst c.
    destruct Hinv' as (Hp & Hc & Hreg).
    assert (Hrecv : exists b l e, egismoc_cmd_receive_cb xerr buffer L = (b, l, e)).
    { unfold egismoc_cmd_receive_cb.
      destruct xerr; [|destruct (L <? egismoc_read_prefix_len)%nat];
        do 3 eexists; reflexivity. }
    destruct Hrecv as (b & l & e & ->).
    unfold task_expected_callback, enroll_expected_callback,
      identify_expected_callback, clear_storage_expected_callback in Hp.
    destruct t; task_cases cur Hp 16%nat.
    all: try (cbn [nth_error enroll_states identify_states clear_storage_states]
               in Hp; destruct cur; discriminate Hp).
    all: try discriminate Hp.
    all: injection Hp as <-.
    all: destruct e as [e|].
    all: cbn [run_callback egismoc_list_cb egismoc_task_ssm_next_state_cb
              egismoc_enroll_check_cb egismoc_read_capture_cb
              egismoc_identify_check_cb egismoc_clear_storage_cb
              egismoc_enroll_status_report self set_self].
    all: try (rewrite (list_cb_update_fresh _ b l Hreg);
              destruct (registry_refresh_ok s b l) as [_ (R & -> & HR)]).
    all: try (destruct Hreg as (R & -> & HR)).
    all: task_eval.
    all: match type of Hcmd with
         | _ = task_sent _ ?c0 _ => protocol_solve c0 j
         end.
  - (* the finger interrupt *)
    specialize (Hcur eq_refl). subst c.
    destruct Hinv' as (Hp & Hc & (R & -> & HR)).
    unfold task_waits_finger in Hp.
    destruct t; task_cases cur Hp 16%nat.
    all: try (cbn [nth_error enroll_states identify_states clear_storage_states]
               in Hp; destruct cur; discriminate Hp).
    all: try discriminate Hp.
    all: destruct ferr as [e|]; task_eval.
    all: match type of Hcmd with
         | _ = task_sent _ ?c0 _ => protocol_solve c0 j
         end.
Qed.

Lemma protocol_inv_run (fp : FpDeviceData) (t : Task) (m : Machine)
  (inputs : list Input) :
  protocol_inv t m -> protocol_inv t (machine_run fp m inputs).
Proof.
  revert m. induction inputs as [|i inputs IH]; intros m Hm; [exact Hm|].
  rewrite machine_run_cons. apply IH. now apply protocol_inv_step.
Qed.

Lemma protocol_inv_prefix (t : Task) (m : Machine) :
  protocol_inv t m ->
  exists captures rest,
    match t with
    | TASK_ENROLL => enroll_protocol captures
    | TASK_IDENTIFY => identify_protocol
    | TASK_CLEAR_STORAGE => clear_storage_protocol
    end = commands_sent (trace m) ++ rest.
Proof.
  intros (_ & _ & c & j & -> & _). apply task_sent_prefix.
Qed.

(** X12: the commands of an operation follow its protocol.  In every run,
    on any device instance and whatever is delivered, the commands
    submitted so far are a beginning of: for an enroll, list, sensor reset,
    sensor enroll, sensor check, check, enroll starting, then some number
    of captures (sensor reset, start capture, read capture), then commit
    starting, new print, sensor reset; for an identify or verify, list,
    sensor reset, sensor identify, sensor check, check, sensor reset; for a
    clear, list, delete, list.  In particular an identify or verify never
    submits a command that changes the storage, and an enroll never
    deletes. *)
Theorem commands_follow_protocol (fp : FpDeviceData) (dev : FpiDeviceEgisMoc)
  (st : DriverState) (inputs : list Input) :
  (exists captures rest,
      enroll_protocol captures
      = commands_sent (trace (machine_run fp (egismoc_enroll fp dev) inputs))
          ++ rest)
  /\ (exists rest,
        identify_protocol
        = commands_sent
            (trace (machine_run fp (egismoc_identify_verify fp st) inputs))
            ++ rest)
  /\ (exists rest,
        clear_storage_protocol
        = commands_sent
            (trace (machine_run fp (egismoc_clear_storage fp st) inputs))
            ++ rest).
Proof.
  split; [|split].
  - apply (protocol_inv_prefix TASK_ENROLL). apply protocol_inv_run.
    split; [|split; [apply run_inv_enroll|]].
    + rewrite egismoc_enroll_started. reflexivity.
    + exists 0%nat, 0%nat. rewrite egismoc_enroll_started.
      split; reflexivity.
  - destruct (protocol_inv_prefix TASK_IDENTIFY
                (machine_run fp (egismoc_identify_verify fp st) inputs))
      as (_ & rest & H); [|exists rest; exact H].
    apply protocol_inv_run.
    split; [|split; [apply run_inv_identify_verify|]].
    + rewrite egismoc_identify_verify_started. reflexivity.
    + exists 0%nat, 0%nat. rewrite egismoc_identify_verify_started.
      split; reflexivity.
  - destruct (Z.eq_dec (enrolled_num (self st)) 0) as [Hz|Hnz].
    + unfold egismoc_clear_storage. rewrite Hz. cbn [Z.eqb].
      rewrite machine_run_settled by (cbn [pending]; congruence).
      exists clear_storage_protocol. reflexivity.
    + destruct (protocol_inv_prefix TASK_CLEAR_STORAGE
                  (machine_run fp (egismoc_clear_storage fp st) inputs))
        as (_ & rest & H); [|exists rest; exact H].
      apply protocol_inv_run.
      split; [|split; [apply run_inv_clear_storage|]].
      * rewrite egismoc_clear_storage_started by exact Hnz. reflexivity.
      * exists 0%nat, 0%nat.
        rewrite egismoc_clear_storage_started by exact Hnz.
        split; reflexivity.
Qed.

End AllMachines.
(** *** What a list reply is read for *)

Lemma buf_slice_of_slice (buffer : list byte) (off n off' n' : nat) :
  (off' + n' <= n)%nat ->
  buf_slice (buf_slice buffer off n) off' n' = buf_slice buffer (off + off') n'.
Proof.
  intros H. apply (nth_ext _ _ x00 x00).
  - now rewrite !buf_slice_length.
  - rewrite buf_slice_length. intros i Hi.
    rewrite !buf_slice_nth by exact Hi. unfold buf_get at 1.
    rewrite buf_slice_nth by lia. f_equal. lia.
Qed.

(** X13: the registry is read from the payload of the list reply only.
    Two replies of the same received length L that agree on the bytes from
    offset 14 up to L - 2 give the same registry: neither the 14 bytes of
    framing, nor the 2 closing bytes, nor anything the transfer buffer
    holds past the L bytes received is ever used. *)
Theorem list_reply_payload_only (self0 : FpiDeviceEgisMoc)
  (buffer1 buffer2 : list byte) (L : nat) :
  buf_slice buffer1 14 (L - 16) = buf_slice buffer2 14 (L - 16) ->
  registry_refresh self0 buffer1 L = registry_refresh self0 buffer2 L.
Proof.
  intros Heq. rewrite !registry_refresh_value.
  destruct (Nat.ltb_spec L 48) as [Hlt|Hge]; [reflexivity|].
  f_equal. f_equal. apply map_ext_in. intros i Hi. apply in_seq in Hi.
  assert (Hn : (i * 32 + 32 <= L - 16)%nat).
  { assert (Hi' : Z.of_nat i < (Z.of_nat L - 16) / 32).
    { destruct Hi as [_ Hi]. cbn [Nat.add] in Hi.
      apply Nat2Z.inj_lt in Hi. rewrite Z2Nat.id in Hi; [exact Hi|].
      apply Z.div_pos; lia. }
    assert (Hd : 32 * ((Z.of_nat L - 16) / 32) <= Z.of_nat L - 16)
      by (apply Z.mul_div_le; lia).
    lia. }
  rewrite <- (buf_slice_of_slice buffer1 14 (L - 16) (i * 32) 32 Hn).
  rewrite <- (buf_slice_of_slice buffer2 14 (L - 16) (i * 32) 32 Hn).
  now rewrite Heq.
Qed.
(** *** The list and delete operations *)

Lemma egismoc_get_enrolled_prints_registry (R : list (list byte)) :
  Forall is_print_id R ->
  egismoc_get_enrolled_prints (device_with_registry R) = Some (map print_of_id R).
Proof.
  intros Hall. unfold egismoc_get_enrolled_prints, device_with_registry.
  cbn [enrolled_num enrolled_ids]. rewrite Nat2Z.id.
  rewrite (egismoc_get_enrolled_prints_upto R (length R) (le_n _)), firstn_all.
  f_equal. apply map_ext_in. intros id Hin.
  unfold egismoc_set_print_data, print_of_id. do 2 f_equal.
  rewrite Forall_forall in Hall. rewrite <- (Hall id Hin). apply buf_slice_all.
Qed.

Section StorageMachines.
Context {T : EgisMocTables}.

Lemma storage_run_cons (fp : FpDeviceData) (m : StorageMachine) (i : Input)
  (inputs : list Input) :
  storage_run fp m (i :: inputs) = storage_run fp (storage_step fp m i) inputs.
Proof. reflexivity. Qed.

Lemma storage_run_settled (fp : FpDeviceData) (m : StorageMachine)
  (inputs : list Input) :
  (forall callback, storage_pending m <> Waiting (AwaitReply callback)) ->
  storage_pending m <> Waiting AwaitFinger ->
  storage_pending m <> AwaitDeleteReply ->
  storage_run fp m inputs = m.
Proof.
  intros Hr Hf Hd. induction inputs as [|i inputs IH]; [reflexivity|].
  rewrite storage_run_cons.
  replace (storage_step fp m i) with m; [exact IH|].
  unfold storage_step. destruct (storage_pending m) as [[callback| | | | |]|];
    try reflexivity.
  - now destruct (Hr callback).
  - now destruct Hf.
  - now destruct Hd.
Qed.

Lemma storage_ssm_apply_cmd fuel t st cur tr name body callback :
  storage_ssm_apply fuel t st cur tr (Shared (DoCmd name body callback))
  = {| storage_task := t; storage_state := st; storage_cur_state := cur;
       storage_pending := Waiting (AwaitReply callback);
       storage_trace :=
         tr ++ [DriverEvent (UsbBulkOut name (egismoc_compose_cmd body))] |}.
Proof. destruct fuel; reflexivity. Qed.

Lemma storage_ssm_apply_delete fuel t st cur tr body :
  storage_ssm_apply fuel t st cur tr (DoCmdDelete body)
  = {| storage_task := t; storage_state := st; storage_cur_state := cur;
       storage_pending := AwaitDeleteReply;
       storage_trace :=
         tr ++ [DriverEvent (UsbBulkOut CMD_DELETE (egismoc_compose_cmd body))] |}.
Proof. destruct fuel; reflexivity. Qed.

Lemma storage_ssm_apply_fault fuel t st cur tr :
  storage_ssm_apply fuel t st cur tr (Shared DoFault)
  = {| storage_task := t; storage_state := st; storage_cur_state := cur;
       storage_pending := Waiting TaskFaulted; storage_trace := tr |}.
Proof. destruct fuel; reflexivity. Qed.

Lemma storage_ssm_apply_nothing fuel t st cur tr :
  storage_ssm_apply fuel t st cur tr (Shared DoNothing)
  = {| storage_task := t; storage_state := st; storage_cur_state := cur;
       storage_pending := Waiting TaskIdle; storage_trace := tr |}.
Proof. destruct fuel; reflexivity. Qed.

Lemma storage_ssm_apply_mark_failed fuel t st cur tr e :
  storage_ssm_apply fuel t st cur tr (Shared (DoSsm (fpi_ssm_mark_failed e)))
  = storage_task_ssm_done t st cur tr (Some e).
Proof. destruct fuel; reflexivity. Qed.

Lemma storage_ssm_apply_next_state_last fuel t st cur tr :
  (S cur =? storage_nr_states t)%nat = true ->
  storage_ssm_apply fuel t st cur tr (Shared (DoSsm fpi_ssm_next_state))
  = storage_task_ssm_done t st (S cur) tr None.
Proof. intros H. destruct fuel; cbn [storage_ssm_apply]; now rewrite H. Qed.

Lemma storage_ssm_apply_next_state_run fuel t st cur tr :
  (S cur =? storage_nr_states t)%nat = false ->
  storage_ssm_apply (S fuel) t st cur tr (Shared (DoSsm fpi_ssm_next_state))
  = let r := storage_run_state t (S cur) st in
    storage_ssm_apply fuel t (fst (fst r)) (S cur) (tr ++ snd (fst r)) (snd r).
Proof.
  intros H. cbv zeta. cbn [storage_ssm_apply]. rewrite H.
  now destruct (storage_run_state t (S cur) st) as [[st' evs] eff'].
Qed.

Lemma storage_ssm_apply_jump_to_state_run fuel t st cur tr s :
  storage_ssm_apply (S fuel) t st cur tr (Shared (DoSsm (fpi_ssm_jump_to_state s)))
  = let r := storage_run_state t s st in
    storage_ssm_apply fuel t (fst (fst r)) s (tr ++ snd (fst r)) (snd r).
Proof.
  cbv zeta. cbn [storage_ssm_apply].
  now destruct (storage_run_state t s st) as [[st' evs] eff'].
Qed.

Ltac storage_handlers :=
  cbn [storage_run_state egismoc_list_run_state egismoc_delete_run_state
       nth_error list_states delete_states shared_result
       egismoc_fill_enrolled_ids map fst snd storage_nr_states].

Ltac storage_eval :=
  unfold SSM_FUEL;
  repeat first
    [ rewrite storage_ssm_apply_cmd
    | rewrite storage_ssm_apply_delete
    | rewrite storage_ssm_apply_fault
    | rewrite storage_ssm_apply_nothing
    | rewrite storage_ssm_apply_mark_failed
    | rewrite storage_ssm_apply_next_state_last by reflexivity
    | rewrite storage_ssm_apply_next_state_run by reflexivity; cbv zeta;
      storage_handlers
    | rewrite storage_ssm_apply_jump_to_state_run; cbv zeta; storage_handlers ];
  storage_handlers.

(** Both operations begin with the list command of the refresh. *)
Lemma egismoc_list_started (st : DriverState) :
  egismoc_list st
  = {| storage_task := TASK_LIST;
       storage_state := set_self st (fill_enrolled_ids_new_array (self st));
       storage_cur_state := 0;
       storage_pending := Waiting (AwaitReply CB_list);
       storage_trace :=
         [DriverEvent (UsbBulkOut CMD_LIST (egismoc_compose_cmd cmd_list))] |}.
Proof. unfold egismoc_list. storage_eval. reflexivity. Qed.

Lemma egismoc_delete_started (st : DriverState) (delete_print : FpPrint) :
  egismoc_delete st delete_print
  = {| storage_task := TASK_DELETE delete_print;
       storage_state := set_self st (fill_enrolled_ids_new_array (self st));
       storage_cur_state := 0;
       storage_pending := Waiting (AwaitReply CB_list);
       storage_trace :=
         [DriverEvent (UsbBulkOut CMD_LIST (egismoc_compose_cmd cmd_list))] |}.
Proof. unfold egismoc_delete. storage_eval. reflexivity. Qed.

(** A reply of at least 6 bytes to the list command of the refresh. *)
Lemma storage_list_reply_step (fp : FpDeviceData) (t : StorageTask)
  (st : DriverState) (tr : list StorageEvent) (buffer : list byte) (L : nat) :
  (6 <= L)%nat ->
  storage_step fp
    {| storage_task := t;
       storage_state := set_self st (fill_enrolled_ids_new_array (self st));
       storage_cur_state := 0;
       storage_pending := Waiting (AwaitReply CB_list);
       storage_trace := tr |}
    (BulkExchange None buffer L)
  = storage_ssm_apply SSM_FUEL t
      (set_self st (registry_refresh (self st) buffer L)) 0 tr
      (Shared (DoSsm fpi_ssm_next_state)).
Proof.
  intros HL. unfold storage_step, egismoc_cmd_receive_cb.
  cbn [storage_pending storage_state storage_cur_state storage_trace storage_task].
  change egismoc_read_prefix_len with 6%nat.
  destruct (Nat.ltb_spec L 6) as [Hlt|_]; [lia|].
  cbn [run_callback egismoc_list_cb shared_result map set_self self enroll_print].
  rewrite app_nil_r. reflexivity.
Qed.

(** X14: what a list reports.  Whatever the device instance holds, for
    every reply of at least 6 bytes to the list command, the list operation
    reports, through [fpi_device_list_complete] and without error, one
    print per 32-byte identifier of the reply, in the order of the reply,
    each carrying the identifier as its fpi-data; the machine then
    completes without error and the registry array is released.  The
    operation sends the list command and nothing else, and never reads
    outside the registry. *)
Theorem list_reports_registry (fp : FpDeviceData) (st : DriverState)
  (buffer : list byte) (L : nat) (more : list Input) :
  (6 <= L)%nat ->
  let N := if (L <? 48)%nat then 0 else (Z.of_nat L - 16) / 32 in
  let ids := map (fun i => buf_slice buffer (14 + i * 32) 32) (seq 0 (Z.to_nat N)) in
  storage_run fp (egismoc_list st) (BulkExchange None buffer L :: more)
  = {| storage_task := TASK_LIST;
       storage_state := set_self st {| enrolled_num := N; enrolled_ids := None |};
       storage_cur_state := 2;
       storage_pending := Waiting (TaskDone None);
       storage_trace :=
         [DriverEvent (UsbBulkOut CMD_LIST (egismoc_compose_cmd cmd_list));
          ListComplete (map print_of_id ids) None] |}.
Proof.
  intros HL N ids.
  rewrite egismoc_list_started, storage_run_cons, storage_list_reply_step
    by exact HL.
  destruct (registry_refresh_ok (self st) buffer L) as [Heq _].
  pose proof (registry_refresh_count (self st) buffer L) as Hnum.
  fold N in Hnum. rewrite Hnum in Heq. fold ids in Heq.
  assert (Hall : Forall is_print_id ids).
  { apply Forall_forall. intros id Hin. apply in_map_iff in Hin.
    destruct Hin as (i & <- & _). apply buf_slice_length. }
  assert (HN : enrolled_num (device_with_registry ids) = N)
    by (rewrite <- Heq; exact Hnum).
  rewrite Heq. storage_eval.
  cbn [set_self self].
  rewrite (egismoc_get_enrolled_prints_registry ids Hall).
  storage_eval.
  rewrite storage_run_settled by (cbn [storage_pending storage_task_ssm_done];
                                  congruence).
  unfold storage_task_ssm_done, set_self. cbn [self enroll_print].
  rewrite HN, app_nil_r. reflexivity.
Qed.

(** X15: the outcomes of a delete.  For a print whose fpi-data is the
    tuple over a 32-byte identifier, after the refresh (whatever it finds)
    the delete command submitted is 00 00 00 27, the delete prefix, 00 20
    and that identifier.  When the reply carries the delete-success prefix,
    delete completion is reported without error and the machine completes;
    otherwise delete completion is reported with a protocol error and the
    machine is left uncompleted, still holding the registry. *)
Theorem delete_outcomes (fp : FpDeviceData) (st : DriverState) (p : FpPrint)
  (id : list byte) (b1 b2 : list byte) (L1 L2 : nat) (more : list Input) :
  fpi_data p = GVariantByteArrayTuple id -> is_print_id id ->
  (6 <= L1)%nat -> (6 <= L2)%nat ->
  let self1 := registry_refresh (self st) b1 L1 in
  let sent :=
    [DriverEvent (UsbBulkOut CMD_LIST (egismoc_compose_cmd cmd_list));
     DriverEvent
       (UsbBulkOut CMD_DELETE
          (egismoc_compose_cmd
             ([x00; x00; x00; x27] ++ cmd_delete_prefix ++ [x00; x20] ++ id)))] in
  storage_run fp (egismoc_delete st p)
    (BulkExchange None b1 L1 :: BulkExchange None b2 L2 :: more)
  = if egismoc_validate_response_prefix b2 L2 rsp_delete_success_prefix
    then {| storage_task := TASK_DELETE p;
            storage_state := set_self st {| enrolled_num := enrolled_num self1;
                                            enrolled_ids := None |};
            storage_cur_state := 2;
            storage_pending := Waiting (TaskDone None);
            storage_trace := sent ++ [DeleteComplete None] |}
    else {| storage_task := TASK_DELETE p;
            storage_state := set_self st self1;
            storage_cur_state := 1;
            storage_pending := Waiting TaskIdle;
            storage_trace :=
              sent ++ [DeleteComplete
                         (Some (fpi_device_error_new_msg FP_DEVICE_ERROR_PROTO
                                  "Delete print was not successfull"))] |}.
Proof.
  intros Hdata Hid HL1 HL2 self1 sent.
  rewrite egismoc_delete_started, storage_run_cons, storage_list_reply_step
    by exact HL1.
  fold self1. storage_eval. cbn [set_self self].
  rewrite (egismoc_get_delete_cmd_single_bytes self1 p id Hdata Hid).
  storage_eval.
  rewrite storage_run_cons. unfold storage_step, egismoc_cmd_receive_cb.
  cbn [storage_pending storage_state storage_cur_state storage_trace storage_task].
  change egismoc_read_prefix_len with 6%nat.
  destruct (Nat.ltb_spec L2 6) as [Hlt|_]; [lia|].
  unfold egismoc_delete_cb.
  destruct (egismoc_validate_response_prefix b2 L2 rsp_delete_success_prefix);
    storage_eval;
    rewrite storage_run_settled
      by (cbn [storage_pending storage_task_ssm_done]; congruence);
    unfold storage_task_ssm_done, set_self, sent; cbn [self enroll_print app];
    rewrite ?app_nil_r; reflexivity.
Qed.

(** X16: the delete of a print that holds no identifier.  When the
    fpi-data of the print is not a byte-array tuple, after the refresh
    delete completion is reported with data-invalid, no delete command is
    submitted, and the handler then reads the command it was not given:
    the machine stops there, neither completed nor waiting. *)
Theorem delete_without_identifier (fp : FpDeviceData) (st : DriverState)
  (p : FpPrint) (buffer : list byte) (L : nat) (more : list Input) :
  g_variant_check_format_string_ay (fpi_data p) = false -> (6 <= L)%nat ->
  storage_run fp (egismoc_delete st p) (BulkExchange None buffer L :: more)
  = {| storage_task := TASK_DELETE p;
       storage_state := set_self st (registry_refresh (self st) buffer L);
       storage_cur_state := 1;
       storage_pending := Waiting TaskFaulted;
       storage_trace :=
         [DriverEvent (UsbBulkOut CMD_LIST (egismoc_compose_cmd cmd_list));
          DeleteComplete
            (Some (fpi_device_error_new FP_DEVICE_ERROR_DATA_INVALID))] |}.
Proof.
  intros Hdata HL.
  rewrite egismoc_delete_started, storage_run_cons, storage_list_reply_step
    by exact HL.
  storage_eval. cbn [set_self self].
  assert (Hcmd : egismoc_get_delete_cmd (registry_refresh (self st) buffer L)
                   (Some p) = CmdNullDataInvalid).
  { unfold egismoc_get_delete_cmd. rewrite Hdata. cbn [negb].
    repeat match goal with
           | |- context [if ?c then _ else _] => destruct c
           end; reflexivity. }
  rewrite Hcmd. storage_eval.
  now rewrite storage_run_settled by (cbn [storage_pending]; congruence).
Qed.


End StorageMachines.
(** *** The further properties, on sample values *)

(** X1, on a registry of two identifiers. *)
Lemma list_reply_round_trip_witness :
  length (repeat x00 14) = 14%nat
  /\ length [x90; x00] = 2%nat
  /\ Forall is_print_id sample_registry_2
  /\ self (fst (fst (egismoc_list_cb
                       (fst (fst (@egismoc_fill_enrolled_ids example_tables
                                    (sample_state 0))))
                       (repeat x00 14 ++ concat sample_registry_2 ++ [x90; x00])
                       (length (repeat x00 14 ++ concat sample_registry_2
                                  ++ [x90; x00]))
                       None)))
     = device_with_registry sample_registry_2.
Proof.
  assert (H1 : length (repeat x00 14) = 14%nat) by reflexivity.
  assert (H2 : length [x90; x00] = 2%nat) by reflexivity.
  assert (H3 : Forall is_print_id sample_registry_2).
  { apply Forall_cons; [reflexivity|]. apply Forall_cons; [reflexivity|].
    apply Forall_nil. }
  split; [exact H1|]. split; [exact H2|]. split; [exact H3|].
  exact (proj2 (@list_reply_round_trip example_tables (sample_state 0)
                  (repeat x00 14) [x90; x00] sample_registry_2 H1 H2 H3)).
Defined.

(** X2, on a list reply of 80 bytes. *)
Lemma refresh_then_build_witness :
  (48 <= 80 <= length sample_list_reply)%nat
  /\ length (firstn (32 * Z.to_nat ((Z.of_nat 80 - 16) / 32))
               (skipn 14 sample_list_reply))
     = (32 * Z.to_nat ((Z.of_nat 80 - 16) / 32))%nat.
Proof.
  assert (H1 : (48 <= 80 <= length sample_list_reply)%nat)
    by (vm_compute; split; apply Nat.leb_le; reflexivity).
  split; [exact H1|].
  exact (proj2 (proj2 (@refresh_then_build example_tables (sample_dev 0)
                         sample_list_reply 80%nat H1))).
Defined.

(** X3, on a registry of two identifiers. *)
Lemma listed_prints_delete_their_ids_witness :
  Forall is_print_id sample_registry_2
  /\ exists prints : list FpPrint,
       egismoc_get_enrolled_prints (device_with_registry sample_registry_2)
       = Some prints
       /\ map fpi_data prints = map GVariantByteArrayTuple sample_registry_2.
Proof.
  assert (H1 : Forall is_print_id sample_registry_2).
  { apply Forall_cons; [reflexivity|]. apply Forall_cons; [reflexivity|].
    apply Forall_nil. }
  split; [exact H1|].
  destruct (@listed_prints_delete_their_ids example_tables sample_registry_2 H1)
    as (prints & Hp & Hd & _).
  exists prints. split; [exact Hp | exact Hd].
Defined.


(** X11, on a whole enroll of ten good captures. *)
Lemma enroll_success_after_all_stages_witness :
  enroll_succeeded
    (trace (@machine_run example_tables sample_fp
              (@egismoc_enroll example_tables sample_fp (sample_dev 0))
              sample_inputs_full_enroll)) = true
  /\ Z.of_nat (stages_passed
                 (trace (@machine_run example_tables sample_fp
                           (@egismoc_enroll example_tables sample_fp (sample_dev 0))
                           sample_inputs_full_enroll)))
     = @EGISMOC_ENROLL_TIMES example_tables.
Proof.
  assert (H1 : enroll_succeeded
                 (trace (@machine_run example_tables sample_fp
                           (@egismoc_enroll example_tables sample_fp (sample_dev 0))
                           sample_inputs_full_enroll)) = true)
    by (vm_compute; reflexivity).
  split; [exact H1|].
  exact (proj1 (@enroll_success_after_all_stages example_tables sample_fp
                  (sample_dev 0) sample_inputs_full_enroll H1)).
Defined.

(** X8, on the tenth good capture, with a user id of 32 characters. *)
Lemma enroll_last_stage_commits_witness :
  stage (enroll_print (sample_state_at_stage 9)) + 1
  = @EGISMOC_ENROLL_TIMES example_tables
  /\ (6 <= 15)%nat /\ (6 <= 8)%nat
  /\ (length (@rsp_read_success_suffix example_tables) <= 15)%nat
  /\ buf_slice sample_capture_ok 8 (length (@rsp_read_success_prefix example_tables))
     = @rsp_read_success_prefix example_tables
  /\ buf_slice sample_capture_ok
       (15 - length (@rsp_read_success_suffix example_tables))
       (length (@rsp_read_success_suffix example_tables))
     = @rsp_read_success_suffix example_tables
  /\ (32 <= length (generated_user_id sample_fp_user_id))%nat
  /\ trace (@machine_run example_tables sample_fp_user_id
              {| task := TASK_ENROLL; state := sample_state_at_stage 9;
                 cur_state := 11; pending := AwaitReply CB_read_capture;
                 trace := [] |}
              [BulkExchange None sample_capture_ok 15;
               BulkExchange None (repeat x00 8) 8;
               BulkExchange None (repeat x00 8) 8;
               BulkExchange None (repeat x00 8) 8])
     = [EnrollProgress 10 (Some {| fpi_data := GVariantOther |}) None;
        UsbBulkOut CMD_COMMIT_STARTING
          (egismoc_compose_cmd (@cmd_commit_starting example_tables));
        UsbBulkOut CMD_NEW_PRINT
          (egismoc_compose_cmd
             (@cmd_new_print_prefix example_tables
                ++ list_byte_of_string "FP1-20261030-7-0A1B2C3D-username"));
        UsbBulkOut CMD_SENSOR_RESET
          (egismoc_compose_cmd (@cmd_sensor_reset example_tables));
        EnrollComplete
          (Some {| fpi_data :=
                     GVariantByteArrayTuple
                       (list_byte_of_string "FP1-20261030-7-0A1B2C3D-username") |})
          None].
Proof.
  assert (H1 : stage (enroll_print (sample_state_at_stage 9)) + 1
               = @EGISMOC_ENROLL_TIMES example_tables) by reflexivity.
  assert (H2 : (6 <= 15)%nat) by lia.
  assert (H3 : (6 <= 8)%nat) by lia.
  assert (H4 : (length (@rsp_read_success_suffix example_tables) <= 15)%nat)
    by (cbn; lia).
  assert (H5 : buf_slice sample_capture_ok 8
                 (length (@rsp_read_success_prefix example_tables))
               = @rsp_read_success_prefix example_tables)
    by (vm_compute; reflexivity).
  assert (H6 : buf_slice sample_capture_ok
                 (15 - length (@rsp_read_success_suffix example_tables))
                 (length (@rsp_read_success_suffix example_tables))
               = @rsp_read_success_suffix example_tables)
    by (vm_compute; reflexivity).
  assert (H7 : (32 <= length (generated_user_id sample_fp_user_id))%nat)
    by (vm_compute; apply Nat.leb_le; reflexivity).
  split; [exact H1|]. split; [exact H2|]. split; [exact H3|]. split; [exact H4|].
  split; [exact H5|]. split; [exact H6|]. split; [exact H7|].
  exact (f_equal trace
           (proj1 (@enroll_last_stage_commits example_tables sample_fp_user_id
                     (sample_state_at_stage 9) [] sample_capture_ok (repeat x00 8)
                     (repeat x00 8) (repeat x00 8) 15%nat 8%nat 8%nat 8%nat
                     H1 H2 H3 H3 H3 H4 H5 H6))).
Defined.

(** X9, on a match with the print of the gallery. *)
Lemma identify_check_outcomes_witness :
  (6 <= 80)%nat /\ (6 <= 8)%nat
  /\ (length (@rsp_identify_match_suffix example_tables) <= 80)%nat
  /\ (buf_slice sample_identify_match 8
        (length (@rsp_identify_match_prefix example_tables))
      = @rsp_identify_match_prefix example_tables
      /\ buf_slice sample_identify_match
           (80 - length (@rsp_identify_match_suffix example_tables))
           (length (@rsp_identify_match_suffix example_tables))
         = @rsp_identify_match_suffix example_tables)
  /\ trace (@machine_run example_tables sample_fp_identify
              {| task := TASK_IDENTIFY; state := sample_state 1; cur_state := 6;
                 pending := AwaitReply CB_identify_check; trace := [] |}
              [BulkExchange None sample_identify_match 80;
               BulkExchange None (repeat x00 8) 8])
     = [IdentifyReport
          (Some {| fpi_data := GVariantByteArrayTuple (repeat x01 32) |})
          (Some {| fpi_data := GVariantByteArrayTuple (repeat x01 32) |}) None;
        UsbBulkOut CMD_SENSOR_RESET
          (egismoc_compose_cmd (@cmd_sensor_reset example_tables));
        IdentifyComplete None].
Proof.
  assert (H1 : (6 <= 80)%nat) by lia.
  assert (H2 : (6 <= 8)%nat) by lia.
  assert (H3 : (length (@rsp_identify_match_suffix example_tables) <= 80)%nat)
    by (cbn; lia).
  assert (H4 : buf_slice sample_identify_match 8
                 (length (@rsp_identify_match_prefix example_tables))
               = @rsp_identify_match_prefix example_tables
               /\ buf_slice sample_identify_match
                    (80 - length (@rsp_identify_match_suffix example_tables))
                    (length (@rsp_identify_match_suffix example_tables))
                  = @rsp_identify_match_suffix example_tables)
    by (split; vm_compute; reflexivity).
  split; [exact H1|]. split; [exact H2|]. split; [exact H3|]. split; [exact H4|].
  exact (f_equal trace
           (proj1 (@identify_check_outcomes example_tables sample_fp_identify
                     (sample_state 1) [] sample_identify_match (repeat x00 8)
                     80%nat 8%nat [] H1 H2 H3) H4)).
Defined.

(** X10, on a delete that succeeds and leaves the device empty. *)
Lemma clear_storage_outcomes_witness :
  (6 <= 14)%nat /\ (6 <= 16)%nat
  /\ trace (@machine_run example_tables sample_fp
              {| task := TASK_CLEAR_STORAGE; state := sample_state 1;
                 cur_state := 1; pending := AwaitReply CB_clear_storage;
                 trace := [] |}
              [BulkExchange None sample_delete_ok 14;
               BulkExchange None (repeat x00 16) 16])
     = [UsbBulkOut CMD_LIST (egismoc_compose_cmd (@cmd_list example_tables));
        ClearStorageComplete None].
Proof.
  assert (H1 : (6 <= 14)%nat) by lia.
  assert (H2 : (6 <= 16)%nat) by lia.
  split; [exact H1|]. split; [exact H2|].
  exact (f_equal trace
           (@clear_storage_outcomes example_tables sample_fp (sample_state 1) []
              sample_delete_ok (repeat x00 16) 14%nat 16%nat [] H1 H2)).
Defined.

(** X4, on the body [01 02], whose check bytes are [70 62]. *)
Lemma check_bytes_unique_witness :
  Z.of_nat (length [x01; x02]) + 10 <= INT_MAX
  /\ [x70; x62] <> [x00; x00]
  /\ word_sum (egismoc_write_prefix ++ [x70; x62] ++ [x01; x02]) mod 65535 = 0.
Proof.
  assert (H1 : Z.of_nat (length [x01; x02]) + 10 <= INT_MAX)
    by (vm_compute; discriminate).
  assert (H2 : [x70; x62] <> [x00; x00]) by discriminate.
  split; [exact H1|]. split; [exact H2|].
  apply (proj1 (check_bytes_unique [x01; x02] x70 x62 H1) H2).
  vm_compute. reflexivity.
Defined.

(** X13, on two replies of 80 bytes with the same payload. *)
Lemma list_reply_payload_only_witness :
  buf_slice sample_list_reply 14 (80 - 16)
  = buf_slice sample_list_reply_reframed 14 (80 - 16)
  /\ sample_list_reply <> sample_list_reply_reframed
  /\ registry_refresh (sample_dev 0) sample_list_reply 80
     = registry_refresh (sample_dev 0) sample_list_reply_reframed 80.
Proof.
  assert (H1 : buf_slice sample_list_reply 14 (80 - 16)
               = buf_slice sample_list_reply_reframed 14 (80 - 16))
    by (vm_compute; reflexivity).
  split; [exact H1|].
  split; [vm_compute; discriminate|].
  exact (list_reply_payload_only (sample_dev 0) sample_list_reply
           sample_list_reply_reframed 80%nat H1).
Defined.

(** X14, on a reply that carries two identifiers. *)
Lemma list_reports_registry_witness :
  (6 <= 80)%nat
  /\ storage_trace
       (@storage_run example_tables sample_fp
          (@egismoc_list example_tables (sample_state 0))
          [BulkExchange None (sample_list_reply_of sample_registry_2) 80])
     = [DriverEvent
          (UsbBulkOut CMD_LIST (egismoc_compose_cmd (@cmd_list example_tables)));
        ListComplete (map print_of_id sample_registry_2) None].
Proof.
  assert (H1 : (6 <= 80)%nat) by lia.
  split; [exact H1|].
  exact (f_equal storage_trace
           (@list_reports_registry example_tables sample_fp (sample_state 0)
              (sample_list_reply_of sample_registry_2) 80%nat [] H1)).
Defined.

(** X15, on a delete the device accepts. *)
Lemma delete_outcomes_witness :
  fpi_data (print_of_id (repeat x01 32)) = GVariantByteArrayTuple (repeat x01 32)
  /\ is_print_id (repeat x01 32)
  /\ (6 <= 16)%nat /\ (6 <= 14)%nat
  /\ storage_pending
       (@storage_run example_tables sample_fp
          (@egismoc_delete example_tables (sample_state 0)
             (print_of_id (repeat x01 32)))
          [BulkExchange None (repeat x00 16) 16;
           BulkExchange None sample_delete_ok 14])
     = Waiting (TaskDone None).
Proof.
  assert (H1 : fpi_data (print_of_id (repeat x01 32))
               = GVariantByteArrayTuple (repeat x01 32)) by reflexivity.
  assert (H2 : is_print_id (repeat x01 32)) by reflexivity.
  assert (H3 : (6 <= 16)%nat) by lia.
  assert (H4 : (6 <= 14)%nat) by lia.
  split; [exact H1|]. split; [exact H2|]. split; [exact H3|]. split; [exact H4|].
  exact (f_equal storage_pending
           (@delete_outcomes example_tables sample_fp (sample_state 0)
              (print_of_id (repeat x01 32)) (repeat x01 32) (repeat x00 16)
              sample_delete_ok 16%nat 14%nat [] H1 H2 H3 H4)).
Defined.

(** X16, on a print whose fpi-data is of another shape. *)
Lemma delete_without_identifier_witness :
  g_variant_check_format_string_ay (fpi_data {| fpi_data := GVariantOther |})
  = false
  /\ (6 <= 16)%nat
  /\ storage_pending
       (@storage_run example_tables sample_fp
          (@egismoc_delete example_tables (sample_state 0)
             {| fpi_data := GVariantOther |})
          [BulkExchange None (repeat x00 16) 16])
     = Waiting TaskFaulted.
Proof.
  assert (H1 : g_variant_check_format_string_ay
                 (fpi_data {| fpi_data := GVariantOther |}) = false)
    by reflexivity.
  assert (H2 : (6 <= 16)%nat) by lia.
  split; [exact H1|]. split; [exact H2|].
  exact (f_equal storage_pending
           (@delete_without_identifier example_tables sample_fp (sample_state 0)
              {| fpi_data := GVariantOther |} (repeat x00 16) 16%nat [] H1 H2)).
Defined.
